(** * Chatterbox TTS WebSocket server: session protocol and request lifecycle

    A shallow embedding of [websocket_server.py] (class
    [ChatterboxWebSocketServer]) and of the Python built-ins it relies on,
    followed by the properties of the request validator, the base64 codec,
    the synthesis gateway and the per-connection message loop.

    Conventions of the embedding:
    - a Python [str] is a [string]; each [ascii] stands for one code point
      (the first 256 code points, i.e. Latin-1);
    - a Python [float] is the rational it denotes ([Q]), or NaN or an
      infinity; float literals of the source are given by their exact
      binary64 value;
    - [bytes] is [list byte];
    - a [dict] is an association list in insertion order;
    - exceptions, the file system, the logger and the socket are explicit:
      code runs in a state-and-exception monad [M St]. *)

From Stdlib Require Import ZArith QArith Ascii String List Bool Lia.
From Stdlib Require Import DecimalString.
From Stdlib.Strings Require Import Byte.
From stdpp Require Import base gmap.
Import ListNotations.

Set Warnings "-register-all".

Local Open Scope list_scope.
Local Open Scope string_scope.

(** ** Python values *)

Inductive pyfloat : Type :=
| FFinite (q : Q)
| FNaN
| FInf (negative : bool).

Inductive value : Type :=
| VNone
| VBool (b : bool)
| VInt (z : Z)
| VFloat (f : pyfloat)
| VStr (s : string)
| VList (l : list value)
| VDict (d : list (string * value)).

(** [type(v).__name__] *)
Definition type_name (v : value) : string :=
  match v with
  | VNone => "NoneType"
  | VBool _ => "bool"
  | VInt _ => "int"
  | VFloat _ => "float"
  | VStr _ => "str"
  | VList _ => "list"
  | VDict _ => "dict"
  end.

(** Truth value of an object ([bool(v)]). *)
Definition truthy (v : value) : bool :=
  match v with
  | VNone => false
  | VBool b => b
  | VInt z => negb (Z.eqb z 0)
  | VFloat (FFinite q) => negb (Qeq_bool q 0)
  | VFloat _ => true
  | VStr s => negb (String.eqb s "")
  | VList l => match l with [] => false | _ => true end
  | VDict d => match d with [] => false | _ => true end
  end.

(** ** Exceptions *)

Inductive exn_class : Type :=
| Exception
| ValueError
| JSONDecodeError
| BinasciiError
| TypeError
| AttributeError
| KeyError
| OSError
| PermissionError
| ConnectionClosed.

(** An exception object; [exn_msg] is what [str(e)] returns. *)
Record exn : Type := Exn { exn_cls : exn_class; exn_msg : string }.

Definition exn_class_eqb (a b : exn_class) : bool :=
  match a, b with
  | Exception, Exception | ValueError, ValueError
  | JSONDecodeError, JSONDecodeError | BinasciiError, BinasciiError
  | TypeError, TypeError | AttributeError, AttributeError
  | KeyError, KeyError
  | OSError, OSError | PermissionError, PermissionError
  | ConnectionClosed, ConnectionClosed => true
  | _, _ => false
  end.

(** Direct base class in the Python hierarchy ([Exception] is the root of
    everything modelled here). *)
Definition base_class (c : exn_class) : option exn_class :=
  match c with
  | Exception => None
  | JSONDecodeError | BinasciiError => Some ValueError
  | PermissionError => Some OSError
  | _ => Some Exception
  end.

(** [isinstance(e, c)] *)
Definition isinstance (e : exn) (c : exn_class) : bool :=
  exn_class_eqb (exn_cls e) c
  || match base_class (exn_cls e) with
     | Some b =>
         exn_class_eqb b c
         || match base_class b with
            | Some b' => exn_class_eqb b' c
            | None => false
            end
     | None => false
     end.

(** ** The state-and-exception monad *)

Inductive result (A : Type) : Type :=
| Ok (a : A)
| Raise (e : exn).
Arguments Ok {A} a.
Arguments Raise {A} e.

Definition M (St A : Type) : Type := St -> result A * St.

Definition ret {St A} (a : A) : M St A := fun s => (Ok a, s).

Definition bind {St A B} (m : M St A) (k : A -> M St B) : M St B :=
  fun s =>
    match m s with
    | (Ok a, s') => k a s'
    | (Raise e, s') => (Raise e, s')
    end.

Definition raise {St A} (e : exn) : M St A := fun s => (Raise e, s).

(** [try: m  except ... as e: h e]; the handler selects by class and
    re-raises what no clause matches. *)
Definition try_except {St A} (m : M St A) (h : exn -> M St A) : M St A :=
  fun s =>
    match m s with
    | (Ok a, s') => (Ok a, s')
    | (Raise e, s') => h e s'
    end.

(** [try: m  finally: f]; an exception of [f] replaces the outcome of [m]. *)
Definition try_finally {St A} (m : M St A) (f : M St unit) : M St A :=
  fun s =>
    match m s with
    | (r, s') =>
        match f s' with
        | (Ok _, s'') => (r, s'')
        | (Raise e, s'') => (Raise e, s'')
        end
    end.

(** A pure computation that may raise. *)
Definition lift {St A} (r : result A) : M St A := fun s => (r, s).

Definition modify {St} (f : St -> St) : M St unit := fun s => (Ok tt, f s).

(** Run a computation on the second component of the state. *)
Definition zoom_snd {S1 S2 A} (m : M S2 A) : M (S1 * S2) A :=
  fun s =>
    match m (snd s) with
    | (r, s2) => (r, (fst s, s2))
    end.

(** A function body with one local variable, initially [init]. *)
Definition with_local {L St A} (init : L) (m : M (L * St) A) : M St A :=
  fun s =>
    match m (init, s) with
    | (r, (_, s')) => (r, s')
    end.

Definition get_local {L St} : M (L * St) L := fun s => (Ok (fst s), s).
Definition set_local {L St} (x : L) : M (L * St) unit :=
  fun s => (Ok tt, (x, snd s)).

Declare Scope py_scope.
Delimit Scope py_scope with py.
Notation "x <- m ;; k" := (bind m (fun x => k))
  (at level 100, m at next level, k at level 200, right associativity)
  : py_scope.
Notation "m ;; k" := (bind m (fun _ => k))
  (at level 100, k at level 200, right associativity) : py_scope.

(** ** Built-in operations on values *)

(** [d[k]] of a [dict] held as an association list; [None] when absent. *)
Fixpoint dict_get (k : string) (d : list (string * value)) : option value :=
  match d with
  | [] => None
  | (k', v) :: rest => if String.eqb k k' then Some v else dict_get k rest
  end.

(** [d[k] = v]: an existing key keeps its position, a new key is appended. *)
Fixpoint dict_set (k : string) (v : value) (d : list (string * value))
  : list (string * value) :=
  match d with
  | [] => [(k, v)]
  | (k', v') :: rest =>
      if String.eqb k k' then (k, v) :: rest else (k', v') :: dict_set k v rest
  end.

Definition dict_keys (d : list (string * value)) : list string := map fst d.

Fixpoint is_prefix (p s : string) : bool :=
  match p, s with
  | EmptyString, _ => true
  | String a p', String b s' => Ascii.eqb a b && is_prefix p' s'
  | String _ _, EmptyString => false
  end.

(** [p in s] on two strings: substring test. *)
Fixpoint is_substring (p s : string) : bool :=
  is_prefix p s
  || match s with
     | EmptyString => false
     | String _ s' => is_substring p s'
     end.

Definition value_is_str (k : string) (v : value) : bool :=
  match v with
  | VStr s => String.eqb s k
  | _ => false
  end.

(** [k in v] for a string [k]. *)
Definition py_contains (k : string) (v : value) : result bool :=
  match v with
  | VDict d => Ok (match dict_get k d with Some _ => true | None => false end)
  | VList l => Ok (existsb (value_is_str k) l)
  | VStr s => Ok (is_substring k s)
  | _ => Raise (Exn TypeError
                  ("argument of type '" ++ type_name v ++ "' is not iterable"))
  end.

(** [v[k]] for a string [k]. *)
Definition py_getitem (v : value) (k : string) : result value :=
  match v with
  | VDict d =>
      match dict_get k d with
      | Some x => Ok x
      | None => Raise (Exn KeyError ("'" ++ k ++ "'"))
      end
  | VStr _ => Raise (Exn TypeError "string indices must be integers, not 'str'")
  | VList _ =>
      Raise (Exn TypeError "list indices must be integers or slices, not str")
  | _ => Raise (Exn TypeError
                  ("'" ++ type_name v ++ "' object is not subscriptable"))
  end.

Definition no_attribute (v : value) (attr : string) : exn :=
  Exn AttributeError
    ("'" ++ type_name v ++ "' object has no attribute '" ++ attr ++ "'").

(** [v.get(k)] and [v.get(k, default)]: only a [dict] has the method. *)
Definition py_get (v : value) (k : string) (default : value) : result value :=
  match v with
  | VDict d =>
      Ok (match dict_get k d with Some x => x | None => default end)
  | _ => Raise (no_attribute v "get")
  end.

(** [str.isspace] on the first 256 code points. *)
Definition is_space (c : ascii) : bool :=
  let n := nat_of_ascii c in
  (((9 <=? n) && (n <=? 13)) || ((28 <=? n) && (n <=? 32))
   || (n =? 133) || (n =? 160))%nat.

Fixpoint lstrip (s : string) : string :=
  match s with
  | EmptyString => EmptyString
  | String c s' => if is_space c then lstrip s' else s
  end.

Fixpoint string_rev_onto (s acc : string) : string :=
  match s with
  | EmptyString => acc
  | String c s' => string_rev_onto s' (String c acc)
  end.

Definition string_rev (s : string) : string := string_rev_onto s EmptyString.

(** [s.strip()] *)
Definition strip (s : string) : string :=
  string_rev (lstrip (string_rev (lstrip s))).

(** [str.lower] on one of the first 256 code points. *)
Definition lower_char (c : ascii) : ascii :=
  let n := nat_of_ascii c in
  if (((65 <=? n) && (n <=? 90))
      || ((192 <=? n) && (n <=? 222) && negb (n =? 215)))%nat
  then ascii_of_nat (n + 32)
  else c.

Fixpoint lower (s : string) : string :=
  match s with
  | EmptyString => EmptyString
  | String c s' => String (lower_char c) (lower s')
  end.

(** [s[:n]] *)
Definition slice_to (n : nat) (s : string) : string := substring 0 n s.

Fixpoint join (sep : string) (l : list string) : string :=
  match l with
  | [] => ""
  | [x] => x
  | x :: rest => x ++ sep ++ join sep rest
  end.

(** [repr] of a list of strings; exact for strings of printable characters
    without quotes or backslashes, such as language codes. *)
Definition repr_str_list (l : list string) : string :=
  "[" ++ join ", " (map (fun s => "'" ++ s ++ "'") l) ++ "]".

(** Numbers: the value of [v] as an extended rational, when [v] is one. *)
Definition as_number (v : value) : option pyfloat :=
  match v with
  | VBool b => Some (FFinite (if b then 1 else 0))
  | VInt z => Some (FFinite (inject_Z z))
  | VFloat f => Some f
  | _ => None
  end.

(** [lo <= x] and [x <= hi] for a float literal against a number. *)
Definition float_le_l (lo : Q) (x : pyfloat) : bool :=
  match x with
  | FFinite q => Qle_bool lo q
  | FNaN => false
  | FInf negative => negb negative
  end.

Definition float_le_r (x : pyfloat) (hi : Q) : bool :=
  match x with
  | FFinite q => Qle_bool q hi
  | FNaN => false
  | FInf negative => negative
  end.

(** The chained comparison [lo <= v <= hi] with float literals [lo], [hi]. *)
Definition between (lo hi : Q) (v : value) : result bool :=
  match as_number v with
  | Some x => Ok (float_le_l lo x && float_le_r x hi)
  | None =>
      Raise (Exn TypeError
               ("'<=' not supported between instances of 'float' and '"
                ++ type_name v ++ "'"))
  end.

(** ** The [base64] module

    [b64encode] follows RFC 4648 as [binascii.b2a_base64] implements it;
    [b64decode] is [base64.b64decode(s)] with its default [validate=False],
    i.e. the non-strict loop of [binascii.a2b_base64]: characters outside
    the alphabet are skipped, and a complete pad sequence ends the input. *)

Definition b64_alphabet : string :=
  "ABCDEFGHIJKLMNOPQRSTUVWXYZabcdefghijklmnopqrstuvwxyz0123456789+/".

Definition b64_pad : ascii := "="%char.

(** [table_b2a_base64[n]] *)
Definition b64_char (n : N) : ascii :=
  match String.get (N.to_nat n) b64_alphabet with
  | Some c => c
  | None => b64_pad
  end.

Fixpoint index_from (c : ascii) (s : string) (i : N) : option N :=
  match s with
  | EmptyString => None
  | String c' s' => if Ascii.eqb c c' then Some i else index_from c s' (i + 1)
  end.

(** [table_a2b_base64[c]], [None] for a character outside the alphabet. *)
Definition b64_index (c : ascii) : option N := index_from c b64_alphabet 0.

(** Storing into an [unsigned char]. *)
Definition byte_of_N (n : N) : byte :=
  match Byte.of_N (n mod 256) with
  | Some b => b
  | None => x00
  end.

Definition sextets3 (a b c : N) : string :=
  String (b64_char (N.shiftr a 2))
    (String (b64_char (N.lor (N.shiftl (N.land a 3) 4) (N.shiftr b 4)))
       (String (b64_char (N.lor (N.shiftl (N.land b 15) 2) (N.shiftr c 6)))
          (String (b64_char (N.land c 63)) EmptyString))).

Definition sextets2 (a b : N) : string :=
  String (b64_char (N.shiftr a 2))
    (String (b64_char (N.lor (N.shiftl (N.land a 3) 4) (N.shiftr b 4)))
       (String (b64_char (N.shiftl (N.land b 15) 2))
          (String b64_pad EmptyString))).

Definition sextets1 (a : N) : string :=
  String (b64_char (N.shiftr a 2))
    (String (b64_char (N.shiftl (N.land a 3) 4))
       (String b64_pad (String b64_pad EmptyString))).

(** [base64.b64encode(data).decode('utf-8')] *)
Fixpoint b64encode (data : list byte) : string :=
  match data with
  | [] => ""
  | [a] => sextets1 (Byte.to_N a)
  | [a; b] => sextets2 (Byte.to_N a) (Byte.to_N b)
  | a :: b :: c :: rest =>
      sextets3 (Byte.to_N a) (Byte.to_N b) (Byte.to_N c) ++ b64encode rest
  end.

Definition decimal (n : N) : string :=
  NilZero.string_of_uint (N.to_uint n).

(** The decoding loop of [a2b_base64] in non-strict mode, with its state
    [quad_pos], [leftchar], [pads] and the bytes written so far. *)
Fixpoint a2b_base64_loop (input : string) (quad_pos leftchar pads : N)
    (out : list byte) : result (list byte) :=
  match input with
  | EmptyString =>
      if (quad_pos =? 0)%N then Ok out
      else if (quad_pos =? 1)%N then
        Raise (Exn BinasciiError
                 ("Invalid base64-encoded string: number of data characters ("
                  ++ decimal (N.of_nat (length out) / 3 * 4 + 1)
                  ++ ") cannot be 1 more than a multiple of 4"))
      else Raise (Exn BinasciiError "Incorrect padding")
  | String ch rest =>
      if Ascii.eqb ch b64_pad then
        if (2 <=? quad_pos)%N then
          if (4 <=? quad_pos + (pads + 1))%N then Ok out
          else a2b_base64_loop rest quad_pos leftchar (pads + 1)%N out
        else a2b_base64_loop rest quad_pos leftchar pads out
      else
        match b64_index ch with
        | None => a2b_base64_loop rest quad_pos leftchar pads out
        | Some this_ch =>
            match quad_pos with
            | 0%N => a2b_base64_loop rest 1 this_ch 0 out
            | 1%N =>
                a2b_base64_loop rest 2 (N.land this_ch 15) 0
                  (out ++ [byte_of_N (N.lor (N.shiftl leftchar 2)
                                            (N.shiftr this_ch 4))])%list
            | 2%N =>
                a2b_base64_loop rest 3 (N.land this_ch 3) 0
                  (out ++ [byte_of_N (N.lor (N.shiftl leftchar 4)
                                            (N.shiftr this_ch 2))])%list
            | _ =>
                a2b_base64_loop rest 0 0 0
                  (out ++ [byte_of_N (N.lor (N.shiftl leftchar 6)
                                            this_ch)])%list
            end
        end
  end.

Definition is_ascii (c : ascii) : bool := (nat_of_ascii c <? 128)%nat.

Fixpoint all_ascii (s : string) : bool :=
  match s with
  | EmptyString => true
  | String c s' => is_ascii c && all_ascii s'
  end.

(** [base64.b64decode(s)] for a [str] argument. *)
Definition b64decode (s : string) : result (list byte) :=
  if all_ascii s then a2b_base64_loop s 0 0 0 []
  else Raise (Exn ValueError
                "string argument should contain only ASCII characters").


(** ** The environment: temporary files, logger, model invocations *)

Inductive log_level : Type := INFO | WARNING | ERROR.

Inductive log_record : Type :=
| Log (level : log_level) (msg : string)
| LogTraceback.

(** The keyword arguments of one [model.generate] call. A temporary file
    is named by a number; [audio_prompt_path] is [None] or such a name. *)
Record generate_args : Type := GenerateArgs {
  ga_text : string;
  ga_language_id : value;
  ga_audio_prompt_path : option nat;
  ga_exaggeration : value;
  ga_temperature : value;
  ga_cfg_weight : value;
  ga_repetition_penalty : value;
  ga_min_p : value;
  ga_top_p : value
}.

(** [unlink_denied p] says that the operating system refuses to delete
    [p] (a file still held open, on Windows). *)
Record env : Type := Env {
  files : gmap nat (list byte);
  unlink_denied : nat -> bool;
  log : list log_record;
  model_calls : list generate_args
}.

Definition set_files (f : gmap nat (list byte)) (e : env) : env :=
  Env f (unlink_denied e) (log e) (model_calls e).

Definition add_log (records : list log_record) (e : env) : env :=
  Env (files e) (unlink_denied e) (log e ++ records)%list (model_calls e).

Definition logger (level : log_level) (msg : string) : M env unit :=
  modify (add_log [Log level msg]).

Definition logger_traceback : M env unit :=
  modify (add_log [LogTraceback]).

Definition record_call (a : generate_args) : M env unit :=
  modify (fun e =>
    Env (files e) (unlink_denied e) (log e) (model_calls e ++ [a])%list).

(** [tempfile.NamedTemporaryFile(delete=False, ...)]: a new, empty file
    under a name no existing file has. Creating a temporary file and
    writing to it are taken to succeed (a writable directory, no full
    disk): [NamedTemporaryFile] and [file_write] never raise. *)
Definition NamedTemporaryFile : M env nat :=
  fun e =>
    let p := fresh (dom (files e)) in
    (Ok p, set_files (<[p := []]> (files e)) e).

(** [f.write(data)] on the temporary file [p]. *)
Definition file_write (p : nat) (data : list byte) : M env unit :=
  modify (fun e => set_files (<[p := data]> (files e)) e).

Definition file_read (p : nat) : M env (list byte) :=
  fun e =>
    match files e !! p with
    | Some data => (Ok data, e)
    | None => (Raise (Exn OSError "[Errno 2] No such file or directory"), e)
    end.

(** The name under which the file system knows temporary file [p]. *)
Definition path_name (p : nat) : string :=
  "/tmp/tmp" ++ decimal (N.of_nat p) ++ ".wav".

(** [os.path.exists(p)] *)
Definition path_exists (p : nat) : M env bool :=
  fun e => (Ok (bool_decide (is_Some (files e !! p))), e).

(** [os.unlink(p)] *)
Definition os_unlink (p : nat) : M env unit :=
  fun e =>
    match files e !! p with
    | None => (Raise (Exn OSError "[Errno 2] No such file or directory"), e)
    | Some _ =>
        if unlink_denied e p
        then (Raise (Exn PermissionError "[Errno 13] Permission denied"), e)
        else (Ok tt, set_files (delete p (files e)) e)
    end.

(** ** The connection *)

Inductive event : Type :=
| Sent (msg : value)
| Received (frame : string).

(** [send_budget]: [None] while the peer keeps the connection open,
    [Some n] when it goes away after [n] more messages. What is put on
    the wire is [json.dumps] of the recorded value. *)
Record conn : Type := Conn {
  trace : list event;
  send_budget : option nat
}.

Definition websocket_send {E} (msg : value) : M (conn * E) unit :=
  fun s =>
    let c := fst s in
    match send_budget c with
    | Some O => (Raise (Exn ConnectionClosed "no close frame received or sent"), s)
    | Some (S n) =>
        (Ok tt, (Conn (trace c ++ [Sent msg])%list (Some n), snd s))
    | None => (Ok tt, (Conn (trace c ++ [Sent msg])%list None, snd s))
    end.

Definition websocket_recv {E} (frame : string) : M (conn * E) unit :=
  fun s =>
    let c := fst s in
    (Ok tt, (Conn (trace c ++ [Received frame])%list (send_budget c), snd s)).

(** Float literals of the source, by their binary64 value. *)
Definition f0_0 : Q := 0.
Definition f0_05 : Q := 3602879701896397 # 72057594037927936.
Definition f0_25 : Q := 1 # 4.
Definition f0_5 : Q := 1 # 2.
Definition f0_8 : Q := 3602879701896397 # 4503599627370496.
Definition f1_0 : Q := 1.
Definition f2_0 : Q := 2.
Definition f3_0 : Q := 3.
Definition f5_0 : Q := 5.

(** Wire messages. *)
Definition message (type : string) (data : list (string * value)) : value :=
  VDict [("type", VStr type); ("data", VDict data)].

Definition error_message (msg : string) : value :=
  message "error" [("message", VStr msg)].

(** ** Auxiliary definitions for the proofs *)

(** [P] holds of every number below [n]; decided by evaluation. *)
Fixpoint forall_below (n : nat) (P : N -> bool) : bool :=
  match n with
  | O => true
  | S k => P (N.of_nat k) && forall_below k P
  end.

(** ** A sample installation

    Concrete stand-ins for what the server imports, used to run the
    embedding on examples: a three-language table, a model that returns
    three samples, a model that fails, identity tensor conversions, and a
    [json.loads] that knows a few frames. *)

Definition sample_languages : list (string * string) :=
  [("en", "English"); ("es", "Spanish"); ("fr", "French")].

Definition sample_generate (a : generate_args) : result (list byte) :=
  Ok [x01; x02; x03].

Definition failing_generate (a : generate_args) : result (list byte) :=
  Raise (Exn Exception "CUDA out of memory").

Definition sample_to_numpy (t : list byte) : result (list byte) := Ok t.

Definition sample_save (t : list byte) (sample_rate : Z)
  : result (list byte) := Ok t.

Definition sample_sr : Z := 24000.

Definition sample_repr (v : value) : string :=
  match v with
  | VNone => "None"
  | VBool true => "True"
  | VBool false => "False"
  | _ => "<" ++ type_name v ++ ">"
  end.

Definition sample_frames : list (string * value) :=
  [ ("{type: ping}", VDict [("type", VStr "ping"); ("data", VDict [])]);
    ("{type: hello}", VDict [("type", VStr "hello")]);
    ("{type: tts_request, text: Hola}",
     VDict [("type", VStr "tts_request");
            ("data", VDict [("text", VStr "Hola")])]);
    ("{type: tts_request, text: Hola, reference_audio: AAAA}",
     VDict [("type", VStr "tts_request");
            ("data", VDict [("text", VStr "Hola");
                            ("reference_audio", VStr "AAAA")])]);
    ("[1, 2]", VList [VInt 1; VInt 2]);
    ("42", VInt 42) ].

Definition sample_loads (s : string) : result value :=
  match dict_get s sample_frames with
  | Some v => Ok v
  | None =>
      Raise (Exn JSONDecodeError "Expecting value: line 1 column 1 (char 0)")
  end.

(** No temporary files yet; [denied] says whether the operating system
    refuses every deletion. *)
Definition sample_env (denied : bool) : env :=
  Env ∅ (fun _ => denied) [] [].

(** A connection just accepted, whose peer stays. *)
Definition sample_conn : conn := Conn [] None.

(** A text of 501 characters. *)
Definition sample_long_text : string :=
  string_of_list_ascii (repeat "a"%char 501).

(** The frames of one test run of the client against the sample
    installation on a CUDA host, with what [json.loads] makes of them. *)
Definition sample_wire : list (string * value) :=
  [ ("{type: server_info}",
     VDict
       [ ("type", VStr "server_info");
         ("data",
          VDict
            [ ("message", VStr "Chatterbox TTS WebSocket Server");
              ("supported_languages",
               VList [VStr "en"; VStr "es"; VStr "fr"]);
              ("default_language", VStr "es");
              ("device", VStr "cuda") ]) ]);
    ("{type: tts_request, text: Hola, config: {language_id: es}}",
     VDict
       [ ("type", VStr "tts_request");
         ("data",
          VDict
            [ ("text", VStr "Hola");
              ("config",
               VDict
                 [ ("language_id", VStr "es");
                   ("exaggeration", VFloat (FFinite f0_5));
                   ("temperature", VFloat (FFinite f0_8));
                   ("cfg_weight", VFloat (FFinite f0_5)) ]) ]) ]);
    ("{type: tts_response, status: success, audio: AQID}",
     VDict
       [ ("type", VStr "tts_response");
         ("data",
          VDict
            [ ("audio", VStr "AQID");
              ("status", VStr "success");
              ("message", VStr "Generated audio for 'es' text");
              ("sample_rate", VInt 24000);
              ("language", VStr "es") ]) ]);
    ("{type: ping, data: {}}",
     VDict [("type", VStr "ping"); ("data", VDict [])]);
    ("{type: pong}",
     VDict
       [ ("type", VStr "pong");
         ("data", VDict [("message", VStr "Server is alive")]) ]) ].

Definition sample_wire_loads (s : string) : result value :=
  match dict_get s sample_wire with
  | Some v => Ok v
  | None =>
      Raise (Exn JSONDecodeError "Expecting value: line 1 column 1 (char 0)")
  end.

(** 500 spaces and a letter. *)
Definition sample_blank_prefix : string :=
  string_of_list_ascii (repeat " "%char 500 ++ ["a"%char]).

(** ** [class ChatterboxWebSocketServer] *)

Section Server.

Local Open Scope py_scope.

(** What the source imports and this file does not define: the language
    table of [chatterbox.mtl_tts], the loaded model ([self.model], set by
    [load_model] before the server accepts connections) with its
    [generate] method and its sample rate [sr], the tensor operations
    ([to_numpy] for [squeeze().cpu().numpy()], [torchaudio_save] for the
    bytes of the WAV file that [torchaudio.save] writes), [json.loads],
    the built-in [str()] of values that are not strings, and the two
    device probes of [torch]. *)
Variable SUPPORTED_LANGUAGES : list (string * string).
Variable tensor : Type.
Variable model_generate : generate_args -> result tensor.
Variable model_sr : Z.
Variable to_numpy : tensor -> result tensor.
Variable torchaudio_save : tensor -> Z -> result (list byte).
Variable json_loads : string -> result value.
Variable py_repr : value -> string.
Variable cuda_is_available : bool.
Variable mps_is_available : bool.

Set Default Proof Using "Type".

(** [str(v)], as an f-string formats a value. *)
Definition py_str (v : value) : string :=
  match v with
  | VStr s => s
  | _ => py_repr v
  end.

(** Automatically detect the best available device. *)
Definition _get_device : string :=
  if cuda_is_available then "cuda"
  else if mps_is_available then "mps"
  else "cpu".

(** [self.device], fixed in [__init__]. *)
Definition self_device : string := _get_device.

(** Decode base64 audio and save to temporary file. *)
Definition _decode_audio (base64_audio : value) : M env nat :=
  try_except
    (audio_data <-
       lift (match base64_audio with
             | VStr s => b64decode s
             | _ =>
                 Raise (Exn TypeError
                   ("argument should be a bytes-like object or ASCII string, not '"
                    ++ type_name base64_audio ++ "'"))
             end);;
     temp_file <- NamedTemporaryFile;;
     file_write temp_file audio_data;;
     ret temp_file)
    (fun e =>
       logger ERROR ("Failed to decode audio: " ++ exn_msg e);;
       raise (Exn ValueError "Invalid base64 audio data")).

(** Encode audio tensor to base64 string. The local variable is
    [temp_file_path]; the [finally] block deletes the file and only warns
    when the deletion fails. *)
Definition _encode_audio (audio_tensor : tensor) (sample_rate : Z)
  : M env string :=
  with_local (None : option nat)
    (try_finally
       (try_except
          (audio_np <- lift (to_numpy audio_tensor);;
           temp_file <- zoom_snd NamedTemporaryFile;;
           set_local (Some temp_file);;
           wav <- lift (torchaudio_save audio_np sample_rate);;
           zoom_snd (file_write temp_file wav);;
           audio_data <- zoom_snd (file_read temp_file);;
           ret (b64encode audio_data))
          (fun e =>
             zoom_snd (logger ERROR ("Failed to encode audio: " ++ exn_msg e));;
             raise e))
       (temp_file_path <- get_local;;
        match temp_file_path with
        | Some p =>
            present <- zoom_snd (path_exists p);;
            if present then
              try_except
                (zoom_snd (os_unlink p))
                (fun e =>
                   if isinstance e PermissionError || isinstance e OSError
                   then zoom_snd (logger WARNING
                          ("Could not delete temporary file " ++ path_name p
                           ++ ": " ++ exn_msg e))
                   else raise e)
            else ret tt
        | None => ret tt
        end)).

Definition defaults : list (string * value) :=
  [ ("language_id", VStr "es");
    ("exaggeration", VFloat (FFinite f0_5));
    ("temperature", VFloat (FFinite f0_8));
    ("cfg_weight", VFloat (FFinite f0_5));
    ("repetition_penalty", VFloat (FFinite f2_0));
    ("min_p", VFloat (FFinite f0_05));
    ("top_p", VFloat (FFinite f1_0)) ].

(** [v.lower()] *)
Definition py_lower (v : value) : result string :=
  match v with
  | VStr s => Ok (lower s)
  | _ => Raise (no_attribute v "lower")
  end.

(** One test [key == name and not (lo <= config[key] <= hi)]. *)
Definition out_of_range {St} (key name : string) (lo hi : Q) (config : value)
  : M St bool :=
  if String.eqb key name then
    v <- lift (py_getitem config key);;
    inside <- lift (between lo hi v);;
    ret (negb inside)
  else ret false.

(** The [if]/[elif] chain of the loop body. *)
Definition check_parameter {St} (key : string) (config : value) : M St unit :=
  c <- out_of_range key "exaggeration" f0_25 f2_0 config;;
  if c then raise (Exn ValueError "Exaggeration must be between 0.25 and 2.0")
  else
  c <- out_of_range key "temperature" f0_05 f5_0 config;;
  if c then raise (Exn ValueError "Temperature must be between 0.05 and 5.0")
  else
  c <- out_of_range key "cfg_weight" f0_0 f1_0 config;;
  if c then raise (Exn ValueError "CFG weight must be between 0.0 and 1.0")
  else
  c <- out_of_range key "repetition_penalty" f1_0 f3_0 config;;
  if c then
    raise (Exn ValueError "Repetition penalty must be between 1.0 and 3.0")
  else
  c <- out_of_range key "min_p" f0_0 f1_0 config;;
  if c then raise (Exn ValueError "Min_p must be between 0.0 and 1.0")
  else
  c <- out_of_range key "top_p" f0_0 f1_0 config;;
  if c then raise (Exn ValueError "Top_p must be between 0.0 and 1.0")
  else ret tt.

(** [for key, default_value in defaults.items(): ...]; [d] is the dict
    [defaults] as the loop updates it. *)
Fixpoint validate_loop {St} (keys : list string) (config : value)
    (d : list (string * value)) : M St (list (string * value)) :=
  match keys with
  | [] => ret d
  | key :: rest =>
      present <- lift (py_contains key config);;
      if present then
        check_parameter key config;;
        v <- lift (py_getitem config key);;
        validate_loop rest config (dict_set key v d)
      else validate_loop rest config d
  end.

Definition supported (lang : string) : bool :=
  existsb (String.eqb lang) (map fst SUPPORTED_LANGUAGES).

Definition unsupported_language (lang : string) : exn :=
  Exn ValueError
    ("Unsupported language: " ++ lang ++ ". Supported languages: "
     ++ repr_str_list (map fst SUPPORTED_LANGUAGES)).

(** Validate and set default values for configuration. *)
Definition _validate_config {St} (config : value) : M St value :=
  has_language <- lift (py_contains "language_id" config);;
  d <- (if has_language then
          l <- lift (py_getitem config "language_id");;
          lang <- lift (py_lower l);;
          if negb (supported lang) then raise (unsupported_language lang)
          else ret (dict_set "language_id" (VStr lang) defaults)
        else ret defaults);;
  d <- validate_loop (dict_keys d) config d;;
  ret (VDict d).

(** The test [not text or not text.strip()] on [data["text"]], returning
    the text when the test is false. *)
Definition nonempty_text {St} (text : value) : M St string :=
  if negb (truthy text) then raise (Exn ValueError "Text cannot be empty")
  else
    match text with
    | VStr s =>
        if negb (truthy (VStr (strip s)))
        then raise (Exn ValueError "Text cannot be empty")
        else ret s
    | _ => raise (no_attribute text "strip")
    end.

(** [if reference_audio_path and os.path.exists(reference_audio_path):
       os.unlink(reference_audio_path)] *)
Definition unlink_reference (reference_audio_path : option nat) : M env unit :=
  match reference_audio_path with
  | Some p =>
      present <- path_exists p;;
      if present then os_unlink p else ret tt
  | None => ret tt
  end.

Definition tts_success (audio_base64 : string) (language_id : value) : value :=
  message "tts_response"
    [ ("audio", VStr audio_base64);
      ("status", VStr "success");
      ("message",
       VStr ("Generated audio for '" ++ py_str language_id ++ "' text"));
      ("sample_rate", VInt model_sr);
      ("language", language_id) ].

Definition tts_error (e : exn) : value :=
  message "tts_response"
    [ ("audio", VNone);
      ("status", VStr "error");
      ("message", VStr (exn_msg e)) ].

(** First part of the [try] block of [process_tts_request]: the required
    field, the empty-text test and the length limit. The local variable of
    the state is [reference_audio_path] ([None] while unbound). *)
Definition validated_text (data : value) : M (option nat * env) string :=
  has_text <- lift (py_contains "text" data);;
  if negb has_text then raise (Exn ValueError "Missing required field: text")
  else
  text <- lift (py_getitem data "text");;
  text <- nonempty_text text;;
  if (500 <? String.length text)%nat then
    zoom_snd (logger WARNING "Text truncated to 500 characters");;
    ret (slice_to 500 text)
  else ret text.

(** Second part of the [try] block: configuration, reference audio, the
    model call, encoding, clean-up and the response. *)
Definition synthesize (data : value) (text : string)
  : M (option nat * env) value :=
  config <- lift (py_get data "config" (VDict []));;
  config <- _validate_config config;;
  set_local None;;
  has_reference <- lift (py_contains "reference_audio" data);;
  (if has_reference then
     reference_audio <- lift (py_getitem data "reference_audio");;
     if truthy reference_audio then
       path <- zoom_snd (_decode_audio reference_audio);;
       set_local (Some path)
     else ret tt
   else ret tt);;
  language_id <- lift (py_getitem config "language_id");;
  zoom_snd (logger INFO
    ("Generating TTS for text: '" ++ slice_to 50 text ++ "...' in language: "
     ++ py_str language_id));;
  reference_audio_path <- get_local;;
  exaggeration <- lift (py_getitem config "exaggeration");;
  temperature <- lift (py_getitem config "temperature");;
  cfg_weight <- lift (py_getitem config "cfg_weight");;
  repetition_penalty <- lift (py_getitem config "repetition_penalty");;
  min_p <- lift (py_getitem config "min_p");;
  top_p <- lift (py_getitem config "top_p");;
  let args :=
    GenerateArgs text language_id reference_audio_path exaggeration
      temperature cfg_weight repetition_penalty min_p top_p in
  zoom_snd (record_call args);;
  audio_tensor <- lift (model_generate args);;
  audio_base64 <- zoom_snd (_encode_audio audio_tensor model_sr);;
  zoom_snd (unlink_reference reference_audio_path);;
  language <- lift (py_getitem config "language_id");;
  ret (tts_success audio_base64 language).

(** The [try] block of [process_tts_request]. *)
Definition process_tts_request_body (data : value)
  : M (option nat * env) value :=
  text <- validated_text data;;
  synthesize data text.

(** The [except Exception as e] block of [process_tts_request]. *)
Definition process_tts_request_handler (e : exn)
  : M (option nat * env) value :=
  zoom_snd (logger ERROR ("Error processing TTS request: " ++ exn_msg e));;
  zoom_snd logger_traceback;;
  reference_audio_path <- get_local;;
  zoom_snd (unlink_reference reference_audio_path);;
  ret (tts_error e).

(** Process a TTS request and return the response. *)
Definition process_tts_request (data : value) : M env value :=
  with_local None
    (try_except (process_tts_request_body data)
       (fun e =>
          if isinstance e Exception then process_tts_request_handler e
          else raise e)).

Definition welcome_msg : value :=
  message "server_info"
    [ ("message", VStr "Chatterbox TTS WebSocket Server");
      ("supported_languages",
       VList (map VStr (map fst SUPPORTED_LANGUAGES)));
      ("default_language", VStr "es");
      ("device", VStr self_device) ].

Definition pong_response : value :=
  message "pong" [("message", VStr "Server is alive")].

(** The [try] block of the message loop. *)
Definition dispatch (msg : string) : M (conn * env) unit :=
  data <- lift (json_loads msg);;
  type <- lift (py_get data "type" VNone);;
  if value_is_str "tts_request" type then
    request <- lift (py_get data "data" (VDict []));;
    response <- zoom_snd (process_tts_request request);;
    websocket_send response
  else
    type <- lift (py_get data "type" VNone);;
    if value_is_str "ping" type then websocket_send pong_response
    else
      type <- lift (py_get data "type" (VStr "unknown"));;
      websocket_send (error_message ("Unknown message type: " ++ py_str type)).

(** One iteration of [async for message in websocket], with its two
    [except] clauses. *)
Definition handle_message (msg : string) : M (conn * env) unit :=
  try_except (dispatch msg)
    (fun e =>
       if isinstance e JSONDecodeError then
         websocket_send (error_message "Invalid JSON format")
       else if isinstance e Exception then
         zoom_snd (logger ERROR ("Error handling message: " ++ exn_msg e));;
         websocket_send
           (error_message ("Internal server error: " ++ exn_msg e))
       else raise e).

(** The loop over the frames the client sends; the iteration ends when the
    connection closes, silently or ([abnormal]) with [ConnectionClosed]. *)
Fixpoint message_loop (incoming : list string) (abnormal : bool)
  : M (conn * env) unit :=
  match incoming with
  | [] =>
      if abnormal
      then raise (Exn ConnectionClosed "no close frame received or sent")
      else ret tt
  | msg :: rest =>
      websocket_recv msg;;
      handle_message msg;;
      message_loop rest abnormal
  end.

(** Handle WebSocket client connections: [incoming] are the frames the
    client sends on this connection, in order. *)
Definition handle_client (client_addr : string) (incoming : list string)
    (abnormal : bool) : M (conn * env) unit :=
  zoom_snd (logger INFO ("Client connected: " ++ client_addr));;
  try_except
    (websocket_send welcome_msg;;
     message_loop incoming abnormal)
    (fun e =>
       if isinstance e ConnectionClosed then
         zoom_snd (logger INFO ("Client disconnected: " ++ client_addr))
       else if isinstance e Exception then
         zoom_snd (logger ERROR ("Error in client handler: " ++ exn_msg e));;
         zoom_snd logger_traceback
       else raise e).

(** ** Tables used to state the properties *)

(** The keys of a validated configuration, in the order of [defaults]. *)
Definition config_keys : list string :=
  [ "language_id"; "exaggeration"; "temperature"; "cfg_weight";
    "repetition_penalty"; "min_p"; "top_p" ].

(** The closed range of each numeric parameter and the message of the
    error that reports a value outside it. *)
Definition parameter_range (key : string) : option (Q * Q * string) :=
  if String.eqb key "exaggeration" then
    Some (f0_25, f2_0, "Exaggeration must be between 0.25 and 2.0")
  else if String.eqb key "temperature" then
    Some (f0_05, f5_0, "Temperature must be between 0.05 and 5.0")
  else if String.eqb key "cfg_weight" then
    Some (f0_0, f1_0, "CFG weight must be between 0.0 and 1.0")
  else if String.eqb key "repetition_penalty" then
    Some (f1_0, f3_0, "Repetition penalty must be between 1.0 and 3.0")
  else if String.eqb key "min_p" then
    Some (f0_0, f1_0, "Min_p must be between 0.0 and 1.0")
  else if String.eqb key "top_p" then
    Some (f0_0, f1_0, "Top_p must be between 0.0 and 1.0")
  else None.

(** The exception, if any, that the loop body raises for [key]. *)
Definition parameter_error (key : string) (cfg : list (string * value))
  : option exn :=
  match dict_get key cfg, parameter_range key with
  | Some v, Some (lo, hi, msg) =>
      match between lo hi v with
      | Ok true => None
      | Ok false => Some (Exn ValueError msg)
      | Raise e => Some e
      end
  | _, _ => None
  end.

Fixpoint first_error (keys : list string) (cfg : list (string * value))
  : option exn :=
  match keys with
  | [] => None
  | key :: rest =>
      match parameter_error key cfg with
      | Some e => Some e
      | None => first_error rest cfg
      end
  end.

(** [d] with the entries of [cfg] under [keys] written over it. *)
Fixpoint overlay (keys : list string) (cfg d : list (string * value))
  : list (string * value) :=
  match keys with
  | [] => d
  | key :: rest =>
      overlay rest cfg
        (match dict_get key cfg with
         | Some v => dict_set key v d
         | None => d
         end)
  end.

(** The language identifier of [cfg] passes the language test. *)
Definition language_ok (cfg : list (string * value)) : Prop :=
  match dict_get "language_id" cfg with
  | None => True
  | Some (VStr s) => supported (lower s) = true
  | Some _ => False
  end.

(** Every frame of [incoming] is read and then answered by one message. *)
Fixpoint answered (incoming : list string) (events : list event) : Prop :=
  match incoming, events with
  | [], [] => True
  | frame :: rest, Received frame' :: Sent _ :: events' =>
      frame = frame' /\ answered rest events'
  | _, _ => False
  end.

(** Every frame of [incoming] is read and then answered by one message
    that [answers] relates to the frame. *)
Fixpoint served (answers : string -> value -> Prop) (incoming : list string)
    (events : list event) : Prop :=
  match incoming, events with
  | [], [] => True
  | frame :: rest, Received frame' :: Sent reply :: events' =>
      frame = frame' /\ answers frame reply /\ served answers rest events'
  | _, _ => False
  end.

(** The [type] field of a wire message. *)
Definition message_type (msg : value) : option value :=
  match msg with
  | VDict d => dict_get "type" d
  | _ => None
  end.


(** A server message after the greeting: a response, a pong or an error. *)
Definition is_reply (msg : value) : Prop :=
  message_type msg = Some (VStr "tts_response")
  \/ message_type msg = Some (VStr "pong")
  \/ message_type msg = Some (VStr "error").

(** What the message loop owes to [frame] on a connection whose peer
    stays: a response, a pong or an error, and for a frame that is not
    JSON, a ping, a frame of another type and a frame that is no object
    the very message. *)
Definition reply_to (frame : string) (reply : value) : Prop :=
  is_reply reply
  /\ (forall ex, json_loads frame = Raise ex ->
        isinstance ex JSONDecodeError = true ->
        reply
        = VDict [ ("type", VStr "error");
                  ("data", VDict [("message", VStr "Invalid JSON format")]) ])
  /\ (forall d, json_loads frame = Ok (VDict d) ->
        dict_get "type" d = Some (VStr "ping") ->
        reply
        = VDict [ ("type", VStr "pong");
                  ("data", VDict [("message", VStr "Server is alive")]) ])
  /\ (forall d t, json_loads frame = Ok (VDict d) ->
        dict_get "type" d = Some (VStr t) ->
        t <> "tts_request" -> t <> "ping" ->
        reply
        = VDict [ ("type", VStr "error");
                  ("data",
                   VDict [("message",
                           VStr ("Unknown message type: " ++ t))]) ])
  /\ (forall v, json_loads frame = Ok v ->
        (forall d, v <> VDict d) ->
        reply
        = VDict [ ("type", VStr "error");
                  ("data",
                   VDict [("message",
                           VStr ("Internal server error: "
                                 ++ ("'" ++ type_name v
                                     ++ "' object has no attribute 'get'")))]) ]).

(** Every value that [m] returns satisfies [Q]. *)
Definition returns {St A} (m : M St A) (Q : A -> Prop) : Prop :=
  forall s a s', m s = (Ok a, s') -> Q a.

(** Partial correctness of [m]: from a state in [P], the outcome and the
    final state satisfy [Q]. *)
Definition hoare {St A} (P : St -> Prop) (m : M St A)
    (Q : result A -> St -> Prop) : Prop :=
  forall s, P s -> Q (fst (m s)) (snd (m s)).

(** What [websocket.send] does on a connection whose peer stays. *)
Definition sent (msg : value) (s : conn * env) : conn * env :=
  (Conn (trace (fst s) ++ [Sent msg])%list None, snd s).


(** What the two [except] clauses of the message loop do with exception
    [ex] on a connection whose peer stays. *)
Definition answer_exception (ex : exn) (s : conn * env)
  : result unit * (conn * env) :=
  if isinstance ex JSONDecodeError then
    (Ok tt, sent (error_message "Invalid JSON format") s)
  else
    (Ok tt,
     sent (error_message ("Internal server error: " ++ exn_msg ex))
       (fst s,
        add_log [Log ERROR ("Error handling message: " ++ exn_msg ex)]
          (snd s))).

(** [d.get(k, default)] on the entries of a dict. *)
Definition get_or (k : string) (default : value) (d : list (string * value))
  : value :=
  match dict_get k d with
  | Some v => v
  | None => default
  end.


(** An event that may follow the greeting: a frame read, or a reply. *)
Definition reply_event (ev : event) : Prop :=
  match ev with
  | Sent msg => is_reply msg
  | Received _ => True
  end.

(** The trace of [s'] is the trace of [s] followed by reply events. *)
Definition extends (s s' : conn * env) : Prop :=
  exists events,
    trace (fst s') = (trace (fst s) ++ events)%list
    /\ Forall reply_event events.

(** [m] only ever adds reply events to the trace. *)
Definition grows {A} (m : M (conn * env) A) : Prop :=
  forall s, extends s (snd (m s)).


(** The operating system lets every temporary file be deleted. *)
Definition deletions_allowed (e : env) : Prop :=
  forall p, unlink_denied e p = false.

(** State of a request while no reference artifact is on disk: the
    temporary files are those, [F], of before the request. *)
Definition no_artifact (F : gmap nat (list byte)) (s : option nat * env)
  : Prop :=
  deletions_allowed (snd s) /\ fst s = None /\ files (snd s) = F.

(** State of a request in general: apart from the files [F] of before the
    request there is at most the reference artifact, and then
    [reference_audio_path] names it. *)
Definition artifact_tracked (F : gmap nat (list byte)) (s : option nat * env)
  : Prop :=
  deletions_allowed (snd s)
  /\ match fst s with
     | None => files (snd s) = F
     | Some p =>
         F !! p = None
         /\ (files (snd s) = F \/ exists d, files (snd s) = <[p := d]> F)
     end.


(** [I] is about the local variable, the files and the deletion policy
    only, and requires that deletion is allowed. *)
Definition on_files (I : option nat * env -> Prop) : Prop :=
  (forall s, I s -> deletions_allowed (snd s))
  /\ forall l e e',
       files e' = files e -> unlink_denied e' = unlink_denied e ->
       I (l, e) -> I (l, e').

(** [m] leaves the files and the deletion policy as they are, when
    deletion is allowed. *)
Definition keeps_files {A} (m : M env A) : Prop :=
  forall e, deletions_allowed e ->
    files (snd (m e)) = files e
    /\ unlink_denied (snd (m e)) = unlink_denied e.

(** [m] does not touch the state. *)
Definition stateless {St A} (m : M St A) : Prop :=
  forall s, snd (m s) = s.


(** Arguments of a model call that have passed validation: a text of at
    most 500 characters, a language that is the default or has a supported
    lower-cased form, and every numeric parameter inside its range. *)
Definition valid_args (a : generate_args) : Prop :=
  (String.length (ga_text a) <= 500)%nat
  /\ (exists s, ga_language_id a = VStr s
                /\ (s = "es" \/ supported (lower s) = true))
  /\ between f0_25 f2_0 (ga_exaggeration a) = Ok true
  /\ between f0_05 f5_0 (ga_temperature a) = Ok true
  /\ between f0_0 f1_0 (ga_cfg_weight a) = Ok true
  /\ between f1_0 f3_0 (ga_repetition_penalty a) = Ok true
  /\ between f0_0 f1_0 (ga_min_p a) = Ok true
  /\ between f0_0 f1_0 (ga_top_p a) = Ok true.

(** A configuration dict whose language and numeric entries are valid. *)
Definition valid_config (d : list (string * value)) : Prop :=
  (exists s, dict_get "language_id" d = Some (VStr s)
             /\ (s = "es" \/ supported (lower s) = true))
  /\ forall k lo hi msg,
       parameter_range k = Some (lo, hi, msg) ->
       exists x, dict_get k d = Some x /\ between lo hi x = Ok true.

(** Since the state with model calls [before], at most one call has been
    made, with valid arguments. *)
Definition calls_within (before : list generate_args) (s : option nat * env)
  : Prop :=
  exists calls,
    model_calls (snd s) = (before ++ calls)%list
    /\ (length calls <= 1)%nat
    /\ Forall valid_args calls.

(** [m] makes no model call. *)
Definition keeps_calls {A} (m : M env A) : Prop :=
  forall e, model_calls (snd (m e)) = model_calls e.


(** ** Starting the server

    [model] are the objects that
    [ChatterboxMultilingualTTS.from_pretrained] returns. The state of the
    server object is [self.model], whether [serve] has bound the socket,
    and the log. *)
Variable model : Type.
Variable from_pretrained : string -> result model.

Record server : Type := Server {
  self_model : option model;
  listening : bool;
  server_log : list log_record
}.

Definition server_logger (level : log_level) (msg : string)
  : M server unit :=
  modify (fun s =>
    Server (self_model s) (listening s)
      (server_log s ++ [Log level msg])%list).

(** Load the multilingual TTS model. *)
Definition load_model : M server unit :=
  fun s =>
    match self_model s with
    | None =>
        (server_logger INFO
           ("Loading Chatterbox Multilingual TTS model on device: "
            ++ self_device);;
         try_except
           (m <- lift (from_pretrained self_device);;
            modify (fun s => Server (Some m) (listening s) (server_log s));;
            server_logger INFO "Model loaded successfully!")
           (fun e =>
              if isinstance e Exception then
                server_logger ERROR ("Failed to load model: " ++ exn_msg e);;
                raise e
              else raise e)) s
    | Some _ => (Ok tt, s)
    end.

(** Start the WebSocket server, up to the point where it waits for ever;
    [bound] is the outcome of binding the socket in [serve]. *)
Definition start_server (host : string) (port : Z) (bound : result unit)
  : M server unit :=
  load_model;;
  server_logger INFO
    ("Starting Chatterbox TTS WebSocket server on " ++ host ++ ":"
     ++ py_str (VInt port));;
  server_logger INFO ("Device: " ++ self_device);;
  server_logger INFO
    ("Supported languages: "
     ++ py_str (VList (map VStr (map fst SUPPORTED_LANGUAGES))));;
  lift bound;;
  modify (fun s => Server (self_model s) true (server_log s));;
  server_logger INFO "Server is running. Press Ctrl+C to stop.".

(** ** [class ChatterboxTestClient] ([test_client.py])

    The client has its own machine: a file is known by its path,
    [open_denied p] says that the operating system refuses to open [p],
    and the log is that of the client's module. [json.loads] and [str()]
    are those of the server. *)

Record client_env : Type := ClientEnv {
  client_files : gmap string (list byte);
  open_denied : string -> bool;
  client_log : list log_record
}.

Definition client_logger (level : log_level) (msg : string)
  : M client_env unit :=
  modify (fun e =>
    ClientEnv (client_files e) (open_denied e)
      (client_log e ++ [Log level msg])%list).

(** [str(e)] of the [OSError] that [open] raises for [path]; exact for a
    path of printable characters without quotes or backslashes. *)
Definition open_error (reason path : string) : string :=
  reason ++ ": '" ++ path ++ "'".

(** [with open(path, 'rb') as f: f.read()] *)
Definition read_file (path : string) : M client_env (list byte) :=
  fun e =>
    if open_denied e path then
      (Raise (Exn PermissionError
                (open_error "[Errno 13] Permission denied" path)), e)
    else
      match client_files e !! path with
      | Some data => (Ok data, e)
      | None =>
          (Raise (Exn OSError
                    (open_error "[Errno 2] No such file or directory" path)),
           e)
      end.

(** [with open(path, 'wb') as f: f.write(data)]: opening creates the file
    or empties it, writing fills it; a write to a file that has been
    opened is taken to succeed. *)
Definition write_file (path : string) (data : list byte)
  : M client_env unit :=
  fun e =>
    if open_denied e path then
      (Raise (Exn PermissionError
                (open_error "[Errno 13] Permission denied" path)), e)
    else
      let opened := <[path := []]> (client_files e) in
      (Ok tt,
       ClientEnv (<[path := data]> opened) (open_denied e) (client_log e)).

(** Encode audio file to base64 string. *)
Definition _encode_audio_file (file_path : string) : M client_env string :=
  try_except
    (audio_data <- read_file file_path;;
     ret (b64encode audio_data))
    (fun e =>
       if isinstance e Exception then
         client_logger ERROR ("Failed to encode audio file: " ++ exn_msg e);;
         raise e
       else raise e).

(** Save base64 audio to file. *)
Definition _save_audio (base64_audio : value) (output_path : string)
  : M client_env unit :=
  try_except
    (audio_data <-
       lift (match base64_audio with
             | VStr s => b64decode s
             | _ =>
                 Raise (Exn TypeError
                   ("argument should be a bytes-like object or ASCII string, not '"
                    ++ type_name base64_audio ++ "'"))
             end);;
     write_file output_path audio_data;;
     client_logger INFO ("Audio saved to: " ++ output_path))
    (fun e =>
       if isinstance e Exception then
         client_logger ERROR ("Failed to save audio: " ++ exn_msg e);;
         raise e
       else raise e).

(** [await websocket.recv()] on a connection on which the server delivers
    the frames [incoming] and then closes: the frame read and the frames
    still to come. *)
Definition recv {E} (incoming : list string)
  : M (conn * E) (string * list string) :=
  match incoming with
  | [] => raise (Exn ConnectionClosed "no close frame received or sent")
  | frame :: rest => websocket_recv frame;; ret (frame, rest)
  end.

Definition f0_7 : Q := 3152519739159347 # 4503599627370496.

(** The request of [test_basic_tts]. *)
Definition basic_request (text language : string) : value :=
  message "tts_request"
    [ ("text", VStr text);
      ("config",
       VDict [ ("language_id", VStr language);
               ("exaggeration", VFloat (FFinite f0_5));
               ("temperature", VFloat (FFinite f0_8));
               ("cfg_weight", VFloat (FFinite f0_5)) ]) ].

(** The request of [test_with_reference_audio]. *)
Definition reference_request (text reference_audio_b64 language : string)
  : value :=
  message "tts_request"
    [ ("text", VStr text);
      ("reference_audio", VStr reference_audio_b64);
      ("config",
       VDict [ ("language_id", VStr language);
               ("exaggeration", VFloat (FFinite f0_7));
               ("temperature", VFloat (FFinite f0_8));
               ("cfg_weight", VFloat (FFinite f0_5)) ]) ].

(** [while not tts_response_received: ...], the same loop in both TTS
    tests: the value of [response_data] when the loop ends. *)
Fixpoint await_tts_response (incoming : list string)
  : M (conn * client_env) value :=
  match incoming with
  | [] => raise (Exn ConnectionClosed "no close frame received or sent")
  | response :: rest =>
      websocket_recv response;;
      response_data <- lift (json_loads response);;
      type <- lift (py_get response_data "type" VNone);;
      if value_is_str "tts_response" type then ret response_data
      else
        type <- lift (py_get response_data "type" VNone);;
        if value_is_str "server_info" type then
          zoom_snd (client_logger INFO
            "Received server info, waiting for TTS response...");;
          await_tts_response rest
        else
          type <- lift (py_get response_data "type" VNone);;
          zoom_snd (client_logger WARNING
            ("Unexpected response type: " ++ py_str type));;
          await_tts_response rest
  end.

(** What both TTS tests do with [response_data] after the loop;
    [success] is the line logged for a successful generation. *)
Definition report_tts_response (success : string) (response_data : value)
    (output_file : string) : M (conn * client_env) unit :=
  type <- lift (py_get response_data "type" VNone);;
  if value_is_str "tts_response" type then
    data <- lift (py_get response_data "data" (VDict []));;
    status <- lift (py_get data "status" VNone);;
    if value_is_str "success" status then
      zoom_snd (client_logger INFO success);;
      sample_rate <- lift (py_get data "sample_rate" VNone);;
      zoom_snd (client_logger INFO ("Sample rate: " ++ py_str sample_rate));;
      language <- lift (py_get data "language" VNone);;
      zoom_snd (client_logger INFO ("Language: " ++ py_str language));;
      audio <- lift (py_get data "audio" VNone);;
      if truthy audio then
        audio <- lift (py_getitem data "audio");;
        zoom_snd (_save_audio audio output_file)
      else zoom_snd (client_logger ERROR "No audio data received")
    else
      message <- lift (py_get data "message" VNone);;
      zoom_snd (client_logger ERROR
        ("TTS generation failed: " ++ py_str message))
  else
    type <- lift (py_get response_data "type" VNone);;
    zoom_snd (client_logger ERROR
      ("Unexpected response type: " ++ py_str type)).

(** The two [except] clauses that end every test; [label] is the prefix
    of the second one's line. *)
Definition test_handler (label : string) (e : exn)
  : M (conn * client_env) unit :=
  if isinstance e ConnectionClosed then
    zoom_snd (client_logger ERROR "Connection closed unexpectedly")
  else if isinstance e Exception then
    zoom_snd (client_logger ERROR (label ++ exn_msg e))
  else raise e.

(** Test basic TTS functionality. [connection] is what [connect(self.uri)]
    gives: an exception, or a connection on which the server delivers the
    given frames. *)
Definition test_basic_tts (text language output_file : string)
    (connection : result (list string)) : M (conn * client_env) unit :=
  zoom_snd (client_logger INFO
    ("Testing TTS with text: '" ++ text ++ "' in language: " ++ language));;
  try_except
    (incoming <- lift connection;;
     websocket_send (basic_request text language);;
     zoom_snd (client_logger INFO "TTS request sent");;
     response_data <- await_tts_response incoming;;
     report_tts_response "TTS generation successful!" response_data
       output_file)
    (test_handler "Error in test: ").

(** Test TTS with reference audio. *)
Definition test_with_reference_audio
    (text reference_audio_path language output_file : string)
    (connection : result (list string)) : M (conn * client_env) unit :=
  zoom_snd (client_logger INFO
    ("Testing TTS with reference audio: " ++ reference_audio_path));;
  try_except
    (reference_audio_b64 <-
       zoom_snd (_encode_audio_file reference_audio_path);;
     incoming <- lift connection;;
     websocket_send (reference_request text reference_audio_b64 language);;
     zoom_snd (client_logger INFO "TTS request with reference audio sent");;
     response_data <- await_tts_response incoming;;
     report_tts_response "TTS generation with reference audio successful!"
       response_data output_file)
    (test_handler "Error in test: ").

(** Test server ping. *)
Definition test_ping (connection : result (list string))
  : M (conn * client_env) unit :=
  zoom_snd (client_logger INFO "Testing server ping");;
  try_except
    (incoming <- lift connection;;
     websocket_send (message "ping" []);;
     zoom_snd (client_logger INFO "Ping sent");;
     response <- recv incoming;;
     response_data <- lift (json_loads (fst response));;
     type <- lift (py_get response_data "type" VNone);;
     if value_is_str "pong" type then
       zoom_snd (client_logger INFO "Pong received - server is alive!")
     else
       type <- lift (py_get response_data "type" VNone);;
       zoom_snd (client_logger ERROR
         ("Unexpected response to ping: " ++ py_str type)))
    (test_handler "Error in ping test: ").

(** Test server info retrieval. *)
Definition test_server_info (connection : result (list string))
  : M (conn * client_env) unit :=
  zoom_snd (client_logger INFO "Testing server info");;
  try_except
    (incoming <- lift connection;;
     response <- recv incoming;;
     response_data <- lift (json_loads (fst response));;
     type <- lift (py_get response_data "type" VNone);;
     if value_is_str "server_info" type then
       data <- lift (py_get response_data "data" (VDict []));;
       zoom_snd (client_logger INFO "Server info received:");;
       message <- lift (py_get data "message" VNone);;
       zoom_snd (client_logger INFO ("  Message: " ++ py_str message));;
       supported_languages <- lift (py_get data "supported_languages" VNone);;
       zoom_snd (client_logger INFO
         ("  Supported languages: " ++ py_str supported_languages));;
       default_language <- lift (py_get data "default_language" VNone);;
       zoom_snd (client_logger INFO
         ("  Default language: " ++ py_str default_language));;
       device <- lift (py_get data "device" VNone);;
       zoom_snd (client_logger INFO ("  Device: " ++ py_str device))
     else
       type <- lift (py_get response_data "type" VNone);;
       zoom_snd (client_logger ERROR
         ("Unexpected welcome message: " ++ py_str type)))
    (test_handler "Error in server info test: ").

(** The command line of the client after [parse_args]: [args_test] is one
    of the five choices. *)
Inductive test_choice : Type :=
| TestBasic | TestReference | TestPing | TestInfo | TestAll.

Record client_args : Type := ClientArgs {
  args_uri : string;
  args_text : string;
  args_language : string;
  args_reference_audio : option string;
  args_output : string;
  args_test : test_choice
}.

(** [args.test == name or args.test == "all"] *)
Definition selected (name choice : test_choice) : bool :=
  match name, choice with
  | _, TestAll => true
  | TestBasic, TestBasic | TestReference, TestReference
  | TestPing, TestPing | TestInfo, TestInfo => true
  | _, _ => false
  end.

(** What one [connect] finds: whether and when the peer goes away, and
    the exception of [connect] or the frames the server delivers. *)
Record link : Type := Link {
  link_budget : option nat;
  link_frames : result (list string)
}.

(** A test run over its own, new connection. *)
Definition over (l : link)
    (test : result (list string) -> M (conn * client_env) unit)
  : M client_env unit :=
  with_local (Conn [] (link_budget l)) (test (link_frames l)).

(** Main function to run tests; the four links are what the four tests
    find when they connect. *)
Definition main (args : client_args) (basic reference ping info : link)
  : M client_env unit :=
  client_logger INFO ("Starting tests against server: " ++ args_uri args);;
  try_except
    ((if selected TestBasic (args_test args) then
        over basic
          (test_basic_tts (args_text args) (args_language args)
             (args_output args))
      else ret tt);;
     (if selected TestReference (args_test args) then
        match args_reference_audio args with
        | Some path =>
            if truthy (VStr path) then
              over reference
                (test_with_reference_audio (args_text args) path
                   (args_language args) ("ref_" ++ args_output args))
            else
              client_logger WARNING
                "No reference audio provided, skipping reference test"
        | None =>
            client_logger WARNING
              "No reference audio provided, skipping reference test"
        end
      else ret tt);;
     (if selected TestPing (args_test args) then over ping test_ping
      else ret tt);;
     (if selected TestInfo (args_test args) then over info test_server_info
      else ret tt);;
     client_logger INFO "All tests completed!")
    (fun e =>
       if isinstance e Exception then
         client_logger ERROR ("Test error: " ++ exn_msg e)
       else raise e).


(** ** Tables used to state the properties of the client *)

Definition client_add_log (records : list log_record) (e : client_env)
  : client_env :=
  ClientEnv (client_files e) (open_denied e) (client_log e ++ records)%list.

(** [e'] differs from [e] at most in the file [out] and in further log
    records. *)
Definition touches_only (out : string) (e e' : client_env) : Prop :=
  open_denied e' = open_denied e
  /\ (exists records, client_log e' = (client_log e ++ records)%list)
  /\ forall p, p <> out -> client_files e' !! p = client_files e !! p.

(** The line logged for a message that the wait loop of a TTS test passes
    over. *)
Definition skip_record (msg : list (string * value)) : log_record :=
  if value_is_str "server_info" (get_or "type" VNone msg) then
    Log INFO "Received server info, waiting for TTS response..."
  else
    Log WARNING
      ("Unexpected response type: " ++ py_str (get_or "type" VNone msg)).

(** The state of a client connection after [events]. *)
Definition after (events : list event) (budget : option nat) (c : conn)
  : conn :=
  Conn (trace c ++ events)%list budget.


(** [fst s] is the connection [c], and the client's machine has changed
    since [e] at most in the file [out] and in the log. *)
Definition session_inv (out : string) (c : conn) (e : client_env)
    (s : conn * client_env) : Prop :=
  fst s = c /\ touches_only out e (snd s).


(** The client's machine differs from [e] by further log records only. *)
Definition log_inv (e : client_env) (s : conn * client_env) : Prop :=
  exists records, snd s = client_add_log records e.

(** [e'] differs from [e] at most in the files [out1] and [out2] and in
    further log records. *)
Definition touches_two (out1 out2 : string) (e e' : client_env) : Prop :=
  open_denied e' = open_denied e
  /\ (exists records, client_log e' = (client_log e ++ records)%list)
  /\ forall p, p <> out1 -> p <> out2 ->
       client_files e' !! p = client_files e !! p.


(** The client's machine: one reference file, every path can be opened. *)
Definition sample_client_env : client_env :=
  ClientEnv (<["ref.wav" := [x01; x02; x03]]> ∅) (fun _ => false) [].

(** * Properties of the server *)

(** ** Dictionaries *)

Lemma dict_get_set_eq (k : string) (v : value) (d : list (string * value)) :
  dict_get k (dict_set k v d) = Some v.
Proof.
  induction d as [|[k' v'] d IH]; simpl.
  - now rewrite String.eqb_refl.
  - destruct (String.eqb k k') eqn:E; simpl.
    + now rewrite String.eqb_refl.
    + now rewrite E.
Qed.

Lemma dict_get_set_ne (k k' : string) (v : value) (d : list (string * value)) :
  k <> k' -> dict_get k' (dict_set k v d) = dict_get k' d.
Proof.
  intros Hne. induction d as [|[k0 v0] d IH]; simpl.
  - destruct (String.eqb_spec k' k); [now subst|reflexivity].
  - destruct (String.eqb_spec k k0) as [->|Hk0]; simpl.
    + destruct (String.eqb_spec k' k0); [now subst|reflexivity].
    + destruct (String.eqb_spec k' k0); [reflexivity|exact IH].
Qed.

Lemma dict_keys_set_present (k : string) (v : value)
    (d : list (string * value)) :
  In k (dict_keys d) -> dict_keys (dict_set k v d) = dict_keys d.
Proof.
  induction d as [|[k0 v0] d IH]; simpl; [intros []|].
  intros Hin. destruct (String.eqb_spec k k0) as [->|Hne]; simpl.
  - reflexivity.
  - f_equal. apply IH. destruct Hin as [E|Hin]; [|exact Hin].
    now contradiction Hne.
Qed.

Lemma dict_get_overlay (keys : list string) (cfg : list (string * value)) :
  forall (d : list (string * value)) (k : string),
    dict_get k (overlay keys cfg d) =
    match dict_get k cfg with
    | Some v => if in_dec string_dec k keys then Some v else dict_get k d
    | None => dict_get k d
    end.
Proof.
  induction keys as [|key rest IH]; intros d k; simpl.
  - destruct (dict_get k cfg); reflexivity.
  - rewrite IH.
    destruct (dict_get k cfg) as [v|] eqn:Hk.
    + destruct (in_dec string_dec k rest) as [Hin|Hnin].
      * destruct (string_dec key k); reflexivity.
      * destruct (string_dec key k) as [->|Hne].
        -- rewrite Hk. apply dict_get_set_eq.
        -- destruct (dict_get key cfg);
             [now apply dict_get_set_ne|reflexivity].
    + destruct (dict_get key cfg) as [v|] eqn:Hkey; [|reflexivity].
      apply dict_get_set_ne. intros ->. congruence.
Qed.

Lemma dict_keys_overlay (keys : list string) (cfg : list (string * value)) :
  forall d : list (string * value),
    (forall k, In k keys -> In k (dict_keys d)) ->
    dict_keys (overlay keys cfg d) = dict_keys d.
Proof.
  induction keys as [|key rest IH]; intros d Hsub; simpl; [reflexivity|].
  destruct (dict_get key cfg) as [v|].
  - rewrite IH.
    + apply dict_keys_set_present, Hsub. now left.
    + intros k Hk. rewrite dict_keys_set_present by (apply Hsub; now left).
      apply Hsub. now right.
  - apply IH. intros k Hk. apply Hsub. now right.
Qed.

(** ** The validator *)

Section Validator.

Context {St : Type}.
Implicit Types (cfg : list (string * value)) (st : St).

Lemma out_of_range_other (key name : string) (lo hi : Q) (config : value) st :
  String.eqb key name = false ->
  out_of_range (St := St) key name lo hi config st = (Ok false, st).
Proof. intros H. unfold out_of_range. now rewrite H. Qed.

Lemma out_of_range_same (key : string) (lo hi : Q) cfg (v : value) st :
  dict_get key cfg = Some v ->
  out_of_range key key lo hi (VDict cfg) st =
  (match between lo hi v with
   | Ok inside => Ok (negb inside)
   | Raise e => Raise e
   end, st).
Proof.
  intros H. unfold out_of_range, bind, lift, ret, py_getitem.
  rewrite String.eqb_refl, H. destruct (between lo hi v); reflexivity.
Qed.

(** The [if]/[elif] chain raises exactly the error of [parameter_error]. *)
Lemma check_parameter_eq (key : string) cfg (v : value) st :
  dict_get key cfg = Some v ->
  check_parameter key (VDict cfg) st =
  (match parameter_error key cfg with
   | Some e => Raise e
   | None => Ok tt
   end, st).
Proof.
  intros Hv. unfold check_parameter, parameter_error, parameter_range.
  rewrite Hv.
  repeat
    (match goal with
     | |- context [String.eqb key ?name] =>
         destruct (String.eqb_spec key name) as [->|?]
     end;
     [ unfold bind at 1; rewrite (out_of_range_same _ _ _ _ _ _ Hv);
       destruct (between _ _ v) as [[|]|]; try reflexivity;
       cbn [negb]; unfold bind, raise, ret;
       repeat rewrite out_of_range_other by reflexivity; reflexivity
     | unfold bind at 1;
       rewrite out_of_range_other by (now apply String.eqb_neq) ]).
  reflexivity.
Qed.

Lemma validate_loop_eq (keys : list string) cfg :
  forall (d : list (string * value)) st,
    validate_loop keys (VDict cfg) d st =
    (match first_error keys cfg with
     | Some e => Raise e
     | None => Ok (overlay keys cfg d)
     end, st).
Proof.
  induction keys as [|key rest IH]; intros d st; [reflexivity|].
  cbn [validate_loop first_error overlay].
  unfold bind at 1, lift, py_contains.
  unfold parameter_error at 1.
  destruct (dict_get key cfg) as [v|] eqn:Hv.
  - unfold bind at 1. rewrite (check_parameter_eq _ _ _ _ Hv).
    unfold parameter_error; rewrite Hv.
    destruct (parameter_range key) as [[[lo hi] msg]|].
    + destruct (between lo hi v) as [[|]|]; try reflexivity.
      unfold bind at 1, lift, py_getitem. rewrite Hv. apply IH.
    + unfold bind at 1, lift, py_getitem. rewrite Hv. apply IH.
  - apply IH.
Qed.

End Validator.

Section ValidatorSpec.

Context {St : Type}.
Implicit Types (cfg : list (string * value)) (st : St).

Lemma validate_config_eq cfg st :
  language_ok cfg ->
  _validate_config (VDict cfg) st =
  (match first_error config_keys cfg with
   | Some e => Raise e
   | None => Ok (VDict (overlay config_keys cfg defaults))
   end, st).
Proof.
  unfold language_ok, _validate_config. intros Hlang.
  unfold bind at 1, lift, py_contains.
  destruct (dict_get "language_id" cfg) as [l|] eqn:Hl.
  - destruct l as [| | | |s| |]; try contradiction.
    unfold bind at 1. unfold bind at 1, lift, py_getitem. rewrite Hl.
    unfold bind at 1, py_lower. rewrite Hlang. cbn [negb]. unfold ret at 1.
    unfold bind at 1.
    change (dict_keys (dict_set "language_id" (VStr (lower s)) defaults))
      with config_keys.
    rewrite validate_loop_eq.
    destruct (first_error config_keys cfg); [reflexivity|].
    unfold ret. do 3 f_equal.
    cbn [config_keys overlay]. rewrite Hl. reflexivity.
  - unfold bind at 1, ret at 1. unfold bind at 1.
    change (dict_keys defaults) with config_keys.
    rewrite validate_loop_eq.
    destruct (first_error config_keys cfg); reflexivity.
Qed.

Lemma validate_config_language_error cfg st :
  ~ language_ok cfg ->
  exists e, _validate_config (VDict cfg) st = (Raise e, st).
Proof.
  unfold language_ok, _validate_config. intros Hlang.
  unfold bind at 1, lift, py_contains.
  destruct (dict_get "language_id" cfg) as [l|] eqn:Hl;
    [|now contradiction Hlang].
  unfold bind at 1. unfold bind at 1, lift, py_getitem. rewrite Hl.
  unfold bind at 1.
  destruct l as [| | | |s| |]; try (eexists; reflexivity).
  cbn [py_lower]. destruct (supported (lower s));
    [now contradiction Hlang|].
  eexists; reflexivity.
Qed.

Lemma first_error_none (keys : list string) cfg :
  first_error keys cfg = None ->
  forall k, In k keys -> parameter_error k cfg = None.
Proof.
  induction keys as [|key rest IH]; simpl; [intros _ k []|].
  destruct (parameter_error key cfg) eqn:E; [discriminate|].
  intros H k [<-|Hin]; auto.
Qed.

Lemma first_error_some (keys : list string) cfg (e : exn) :
  first_error keys cfg = Some e ->
  exists k, In k keys /\ parameter_error k cfg = Some e.
Proof.
  induction keys as [|key rest IH]; simpl; [discriminate|].
  destruct (parameter_error key cfg) eqn:E.
  - intros [= <-]. eauto.
  - intros H. destruct (IH H) as (k & Hin & Hk). eauto.
Qed.

Lemma first_error_all_ok (keys : list string) cfg :
  (forall k, In k keys -> parameter_error k cfg = None) ->
  first_error keys cfg = None.
Proof.
  induction keys as [|key rest IH]; simpl; [reflexivity|].
  intros H. rewrite (H key) by now left. apply IH. intros k Hk. apply H.
  now right.
Qed.

Lemma parameter_range_key (k : string) (r : Q * Q * string) :
  parameter_range k = Some r -> In k config_keys.
Proof.
  unfold parameter_range, config_keys.
  repeat match goal with
         | |- context [String.eqb k ?name] =>
             destruct (String.eqb_spec k name) as [->|?];
             [intros _; simpl; repeat first [left; reflexivity | right]|]
         end.
  discriminate.
Qed.

(** The ranges are closed: both bounds are inside, anything beyond is
    outside. *)
Lemma parameter_range_inclusive (k : string) (lo hi : Q) (msg : string) :
  parameter_range k = Some (lo, hi, msg) ->
  between lo hi (VFloat (FFinite lo)) = Ok true
  /\ between lo hi (VFloat (FFinite hi)) = Ok true
  /\ forall x : Q, (x < lo \/ hi < x)%Q ->
       between lo hi (VFloat (FFinite x)) = Ok false.
Proof.
  intros Hr.
  assert (Hle : (lo <= hi)%Q).
  { revert Hr. unfold parameter_range.
    repeat match goal with
           | |- context [String.eqb k ?name] => destruct (String.eqb k name)
           end; intros [= <- <- <-] || discriminate; vm_compute; discriminate. }
  unfold between, as_number, float_le_l, float_le_r.
  split; [|split].
  - f_equal. apply andb_true_intro. split; apply Qle_bool_iff;
      [apply Qle_refl|exact Hle].
  - f_equal. apply andb_true_intro. split; apply Qle_bool_iff;
      [exact Hle|apply Qle_refl].
  - intros x [Hx|Hx]; f_equal.
    + apply andb_false_intro1. apply not_true_is_false. intros H.
      apply Qle_bool_iff in H. apply (Qlt_not_le _ _ Hx H).
    + apply andb_false_intro2. apply not_true_is_false. intros H.
      apply Qle_bool_iff in H. apply (Qlt_not_le _ _ Hx H).
Qed.

Lemma between_raise (lo hi : Q) (x : value) (e : exn) :
  between lo hi x = Raise e -> as_number x = None.
Proof. unfold between. destruct (as_number x); [discriminate|reflexivity]. Qed.

End ValidatorSpec.

(** C3 (amended). For every client-supplied config mapping,
    [_validate_config] leaves the state alone and either returns a config
    with exactly the seven keys, in which every field absent from the input
    has its default (language_id "es", exaggeration 0.5, temperature 0.8,
    cfg_weight 0.5, repetition_penalty 2.0, min_p 0.05, top_p 1.0) and every
    supplied numeric field is kept and lies in its closed range, or raises.
    When the language passes and every supplied numeric field lies in its
    range, the config is accepted. An error other than the language error
    comes from a supplied numeric field that is not a number or lies
    outside its range, and in the latter case it is the [ValueError] whose
    message names that field and both bounds. Ranges are inclusive: each
    bound itself is inside, any value beyond a bound is outside. *)
Theorem validate_config_defaults_and_ranges
    {St : Type} (cfg : list (string * value)) (st st' : St)
    (out : result value) :
  _validate_config (VDict cfg) st = (out, st') ->
  st' = st
  /\ match out with
     | Ok v =>
         exists d,
           v = VDict d
           /\ dict_keys d = config_keys
           /\ (forall k, In k config_keys -> dict_get k cfg = None ->
                 dict_get k d = dict_get k defaults)
           /\ (forall k lo hi msg x,
                 parameter_range k = Some (lo, hi, msg) ->
                 dict_get k cfg = Some x ->
                 dict_get k d = Some x /\ between lo hi x = Ok true)
     | Raise e =>
         ~ language_ok cfg
         \/ exists k lo hi msg x,
              parameter_range k = Some (lo, hi, msg)
              /\ dict_get k cfg = Some x
              /\ ((between lo hi x = Ok false /\ e = Exn ValueError msg)
                  \/ as_number x = None)
     end
  /\ (language_ok cfg ->
      (forall k lo hi msg x,
         parameter_range k = Some (lo, hi, msg) ->
         dict_get k cfg = Some x -> between lo hi x = Ok true) ->
      exists v, out = Ok v)
  /\ (forall k lo hi msg,
        parameter_range k = Some (lo, hi, msg) ->
        between lo hi (VFloat (FFinite lo)) = Ok true
        /\ between lo hi (VFloat (FFinite hi)) = Ok true
        /\ forall x : Q, (x < lo \/ hi < x)%Q ->
             between lo hi (VFloat (FFinite x)) = Ok false).
Proof.
  intros Hrun.
  assert (Hdec : language_ok cfg \/ ~ language_ok cfg).
  { unfold language_ok.
    destruct (dict_get "language_id" cfg) as [[| | | |s| |]|]; cbn;
      try (left; exact I);
      try match goal with |- False \/ _ => right; intros [] end.
    destruct (supported (lower s)); [left|right]; [reflexivity|discriminate]. }
  split; [|split; [|split]].
  - destruct Hdec as [Hok|Hbad].
    + rewrite (validate_config_eq _ _ Hok) in Hrun. congruence.
    + destruct (validate_config_language_error cfg st Hbad) as (e & He).
      congruence.
  - destruct Hdec as [Hok|Hbad].
    + rewrite (validate_config_eq _ _ Hok) in Hrun.
      destruct (first_error config_keys cfg) as [e|] eqn:Herr;
        injection Hrun as <- <-.
      * right. apply first_error_some in Herr as (k & _ & Hk).
        unfold parameter_error in Hk.
        destruct (dict_get k cfg) as [x|] eqn:Hx; [|discriminate].
        destruct (parameter_range k) as [[[lo hi] msg]|] eqn:Hr;
          [|discriminate].
        exists k, lo, hi, msg, x. split; [exact Hr|]. split; [exact Hx|].
        destruct (between lo hi x) as [[|]|e'] eqn:Hb; [discriminate| |].
        -- left. split; congruence.
        -- right. eapply between_raise; eassumption.
      * exists (overlay config_keys cfg defaults).
        split; [reflexivity|]. split; [|split].
        -- apply dict_keys_overlay. intros k Hk. exact Hk.
        -- intros k _ Hnone. rewrite dict_get_overlay, Hnone. reflexivity.
        -- intros k lo hi msg x Hr Hx.
           pose proof (parameter_range_key _ _ Hr) as Hin.
           split.
           ++ rewrite dict_get_overlay, Hx.
              destruct (in_dec string_dec k config_keys) as [_|Hn];
                [reflexivity|now contradiction Hn].
           ++ pose proof (first_error_none _ _ Herr k Hin) as Hk.
              unfold parameter_error in Hk. rewrite Hx, Hr in Hk.
              destruct (between lo hi x) as [[|]|]; congruence.
    + destruct (validate_config_language_error cfg st Hbad) as (e & He).
      rewrite He in Hrun. injection Hrun as <- <-. now left.
  - intros Hok Hall. rewrite (validate_config_eq _ _ Hok) in Hrun.
    rewrite first_error_all_ok in Hrun.
    + injection Hrun as <- _. eauto.
    + intros k _. unfold parameter_error.
      destruct (dict_get k cfg) as [x|] eqn:Hx; [|reflexivity].
      destruct (parameter_range k) as [[[lo hi] msg]|] eqn:Hr; [|reflexivity].
      now rewrite (Hall _ _ _ _ _ Hr Hx).
  - intros k lo hi msg Hr. eapply parameter_range_inclusive; eassumption.
Qed.


(** The language test: an identifier whose lower-cased form is not a key
    of the language table is rejected, whatever the other fields, with an
    error that lists the keys; one whose lower-cased form is a key passes,
    and the configuration returned then holds the identifier as it was
    supplied. *)
Lemma validate_config_language
    {St : Type} (cfg : list (string * value)) (s : string) (st : St) :
  dict_get "language_id" cfg = Some (VStr s) ->
  (supported (lower s) = false ->
   _validate_config (VDict cfg) st
   = (Raise (Exn ValueError
               ("Unsupported language: " ++ lower s
                ++ ". Supported languages: "
                ++ repr_str_list (map fst SUPPORTED_LANGUAGES))), st))
  /\ (supported (lower s) = true ->
      first_error config_keys cfg = None ->
      exists d,
        _validate_config (VDict cfg) st = (Ok (VDict d), st)
        /\ dict_get "language_id" d = Some (VStr s)).
Proof.
  intros Hl. split.
  - intros Hs. unfold _validate_config.
    unfold bind at 1, lift, py_contains. rewrite Hl.
    unfold bind at 1. unfold bind at 1, lift, py_getitem. rewrite Hl.
    unfold bind at 1, py_lower. rewrite Hs. reflexivity.
  - intros Hs Herr.
    assert (Hok : language_ok cfg) by (unfold language_ok; now rewrite Hl).
    rewrite (validate_config_eq _ _ Hok), Herr.
    eexists. split; [reflexivity|].
    rewrite dict_get_overlay, Hl. reflexivity.
Qed.

(** A request with only a language identifier is accepted if and only if
    the lower-cased identifier is supported. *)
Lemma validate_config_language_iff {St : Type} (s : string) (st : St) :
  (exists v, _validate_config (VDict [("language_id", VStr s)]) st = (Ok v, st))
  <-> supported (lower s) = true.
Proof.
  destruct (validate_config_language [("language_id", VStr s)] s st eq_refl)
    as [Hrej Hacc].
  split.
  - intros (v & Hv). destruct (supported (lower s)); [reflexivity|].
    rewrite Hrej in Hv by reflexivity. discriminate.
  - intros Hs. destruct (Hacc Hs eq_refl) as (d & Hd & _). eauto.
Qed.

(** ** Text validation *)

Lemma isinstance_Exception (e : exn) : isinstance e Exception = true.
Proof. destruct e as [[] msg]; reflexivity. Qed.

Lemma substring_length (n : nat) :
  forall s : string, (n <= String.length s)%nat ->
    String.length (substring 0 n s) = n.
Proof.
  induction n as [|n IH]; intros [|c s] H; simpl in *;
    try reflexivity; try lia.
  rewrite IH; lia.
Qed.

Lemma substring_prefix (n : nat) :
  forall s : string, exists rest : string, s = substring 0 n s ++ rest.
Proof.
  induction n as [|n IH]; intros [|c s].
  - now exists "".
  - now exists (String c s).
  - now exists "".
  - destruct (IH s) as (rest & Hrest). exists rest.
    cbn [substring]. change (String c (substring 0 n s) ++ rest)
      with (String c (substring 0 n s ++ rest)). now rewrite <- Hrest.
Qed.

Lemma nonempty_text_blank {St : Type} (text : string) (st : St) :
  strip text = "" ->
  nonempty_text (VStr text) st
  = (Raise (Exn ValueError "Text cannot be empty"), st).
Proof.
  intros Hs. unfold nonempty_text. cbn [truthy]. rewrite Hs.
  destruct (String.eqb text ""); reflexivity.
Qed.

Lemma nonempty_text_ok {St : Type} (text : string) (st : St) :
  strip text <> "" -> nonempty_text (VStr text) st = (Ok text, st).
Proof.
  intros Hs. unfold nonempty_text. cbn [truthy].
  destruct (String.eqb_spec text "") as [->|_]; [now contradiction Hs|].
  destruct (String.eqb_spec (strip text) ""); [contradiction|reflexivity].
Qed.

Lemma validated_text_blank (data : list (string * value)) (text : string)
    (s : option nat * env) :
  dict_get "text" data = Some (VStr text) ->
  strip text = "" ->
  validated_text (VDict data) s
  = (Raise (Exn ValueError "Text cannot be empty"), s).
Proof.
  intros Hd Hs. unfold validated_text.
  unfold bind at 1, lift, py_contains. rewrite Hd. cbn [negb].
  unfold bind at 1, lift, py_getitem. rewrite Hd.
  unfold bind at 1. now rewrite nonempty_text_blank.
Qed.

Lemma validated_text_ok (data : list (string * value)) (text : string)
    (l : option nat) (e : env) :
  dict_get "text" data = Some (VStr text) ->
  strip text <> "" ->
  validated_text (VDict data) (l, e)
  = if (500 <? String.length text)%nat
    then (Ok (slice_to 500 text),
          (l, add_log [Log WARNING "Text truncated to 500 characters"] e))
    else (Ok text, (l, e)).
Proof.
  intros Hd Hs. unfold validated_text.
  unfold bind at 1, lift, py_contains. rewrite Hd. cbn [negb].
  unfold bind at 1, lift, py_getitem. rewrite Hd.
  unfold bind at 1. rewrite nonempty_text_ok by assumption.
  destruct (500 <? String.length text)%nat; reflexivity.
Qed.

(** An exception of the [try] block raised while [reference_audio_path]
    is unbound or [None] is logged and turned into the error response. *)
Lemma process_tts_request_no_reference (data : value) (ex : exn) (e e' : env) :
  process_tts_request_body data (None, e) = (Raise ex, (None, e')) ->
  process_tts_request data e
  = (Ok (tts_error ex),
     add_log [Log ERROR ("Error processing TTS request: " ++ exn_msg ex);
              LogTraceback] e').
Proof.
  intros Hbody. unfold process_tts_request, with_local, try_except.
  rewrite Hbody, isinstance_Exception.
  unfold process_tts_request_handler, bind, zoom_snd, logger,
    logger_traceback, modify, get_local, unlink_reference, ret, add_log.
  cbn. now rewrite <- app_assoc.
Qed.

(** C4. A text that is empty or blank after trimming is rejected: the
    request is answered with the error response whose message is "Text
    cannot be empty", the error is logged and nothing else happens. A
    text of more than 500 characters that is not blank is not rejected:
    the log gets the entry "Text truncated to 500 characters", nothing
    else changes, and synthesis proceeds with exactly its first 500
    characters. *)
Theorem text_blank_rejected_long_truncated
    (data : list (string * value)) (text : string) (l : option nat) (e : env) :
  dict_get "text" data = Some (VStr text) ->
  (strip text = "" ->
   let e' :=
     Env (files e) (unlink_denied e)
       (log e
        ++ [ Log ERROR "Error processing TTS request: Text cannot be empty";
             LogTraceback ])%list
       (model_calls e) in
   process_tts_request (VDict data) e
   = (Ok (VDict
            [ ("type", VStr "tts_response");
              ("data",
               VDict
                 [ ("audio", VNone);
                   ("status", VStr "error");
                   ("message", VStr "Text cannot be empty") ]) ]),
      e')
   /\ log e'
      = (log e
         ++ [ Log ERROR "Error processing TTS request: Text cannot be empty";
              LogTraceback ])%list)
  /\ (strip text <> "" -> (500 < String.length text)%nat ->
      let text' := slice_to 500 text in
      let e' :=
        Env (files e) (unlink_denied e)
          (log e ++ [Log WARNING "Text truncated to 500 characters"])%list
          (model_calls e) in
      String.length text' = 500%nat
      /\ (exists rest, text = text' ++ rest)
      /\ validated_text (VDict data) (l, e) = (Ok text', (l, e'))
      /\ log e'
         = (log e ++ [Log WARNING "Text truncated to 500 characters"])%list
      /\ process_tts_request_body (VDict data) (l, e)
         = synthesize (VDict data) text' (l, e')).
Proof.
  intros Hd. split.
  - intros Hblank. cbv zeta. split; [|reflexivity].
    apply (process_tts_request_no_reference (VDict data)
             (Exn ValueError "Text cannot be empty") e e).
    unfold process_tts_request_body, bind.
    now rewrite (validated_text_blank _ _ _ Hd Hblank).
  - intros Hs Hlen. cbv zeta.
    assert (Hv : validated_text (VDict data) (l, e)
                 = (Ok (slice_to 500 text),
                    (l, add_log [Log WARNING "Text truncated to 500 characters"]
                          e))).
    { rewrite (validated_text_ok _ _ _ _ Hd Hs).
      apply Nat.ltb_lt in Hlen. now rewrite Hlen. }
    split; [apply substring_length; lia|].
    split; [apply substring_prefix|].
    split; [exact Hv|].
    split; [reflexivity|].
    unfold process_tts_request_body, bind. now rewrite Hv.
Qed.

(** ** Return values *)

Lemma returns_ret {St A} (a : A) (Q : A -> Prop) :
  Q a -> returns (ret (St := St) a) Q.
Proof. intros H s a' s' [= <- _]. exact H. Qed.

Lemma returns_bind {St A B} (m : M St A) (k : A -> M St B) (Q : B -> Prop) :
  (forall a, returns (k a) Q) -> returns (bind m k) Q.
Proof.
  intros Hk s b s'. unfold bind. destruct (m s) as [[a|e] s1].
  - apply Hk.
  - discriminate.
Qed.

Lemma returns_try_except {St A} (m : M St A) (h : exn -> M St A)
    (Q : A -> Prop) :
  returns m Q -> (forall e, returns (h e) Q) -> returns (try_except m h) Q.
Proof.
  intros Hm Hh s a s'. unfold try_except.
  destruct (m s) as [[a'|e] s1] eqn:E.
  - intros [= <- _]. eapply Hm; eassumption.
  - apply Hh.
Qed.

Lemma returns_with_local {L St A} (init : L) (m : M (L * St) A)
    (Q : A -> Prop) :
  returns m Q -> returns (with_local init m) Q.
Proof.
  intros Hm s a s'. unfold with_local.
  destruct (m (init, s)) as [r [l s1]] eqn:E.
  intros [= -> _]. eapply Hm; eassumption.
Qed.

(** Whatever [process_tts_request] returns is a [tts_response]. *)
Lemma process_tts_request_returns (data : value) :
  returns (process_tts_request data)
    (fun v => message_type v = Some (VStr "tts_response")).
Proof.
  unfold process_tts_request.
  apply returns_with_local, returns_try_except.
  - unfold process_tts_request_body, synthesize.
    repeat (apply returns_bind; intros).
    now apply returns_ret.
  - intros e. rewrite isinstance_Exception.
    unfold process_tts_request_handler.
    repeat (apply returns_bind; intros).
    now apply returns_ret.
Qed.

(** ** The message loop on a connection whose peer stays *)

Lemma websocket_send_open (msg : value) (s : conn * env) :
  send_budget (fst s) = None -> websocket_send msg s = (Ok tt, sent msg s).
Proof. intros H. unfold websocket_send, sent. now rewrite H. Qed.

(** The [try] block of the loop, by cases on the frame. *)
Lemma dispatch_open (msg : string) (c : conn) (e : env) :
  send_budget c = None ->
  dispatch msg (c, e) =
  match json_loads msg with
  | Raise ex => (Raise ex, (c, e))
  | Ok (VDict d) =>
      if value_is_str "tts_request" (get_or "type" VNone d) then
        match process_tts_request (get_or "data" (VDict []) d) e with
        | (Ok response, e') => (Ok tt, sent response (c, e'))
        | (Raise ex, e') => (Raise ex, (c, e'))
        end
      else if value_is_str "ping" (get_or "type" VNone d) then
        (Ok tt, sent pong_response (c, e))
      else
        (Ok tt,
         sent (error_message
                 ("Unknown message type: "
                  ++ py_str (get_or "type" (VStr "unknown") d))) (c, e))
  | Ok v => (Raise (no_attribute v "get"), (c, e))
  end.
Proof.
  intros Hopen. unfold dispatch. unfold bind at 1, lift.
  destruct (json_loads msg) as [data|ex]; [|reflexivity].
  destruct data as [| | | | | |d]; try reflexivity.
  unfold bind at 1. cbn [py_get]. fold (get_or "type" VNone d).
  destruct (value_is_str "tts_request" (get_or "type" VNone d)).
  - unfold bind at 1. cbn [py_get]. fold (get_or "data" (VDict []) d).
    unfold bind at 1, zoom_snd. cbn [fst snd].
    destruct (process_tts_request (get_or "data" (VDict []) d) e)
      as [[response|ex] e']; [|reflexivity].
    now apply websocket_send_open.
  - unfold bind at 1.
    destruct (value_is_str "ping" (get_or "type" VNone d)).
    + now apply websocket_send_open.
    + unfold bind at 1. cbn [py_get]. fold (get_or "type" (VStr "unknown") d).
      now apply websocket_send_open.
Qed.

Lemma handle_message_raise (msg : string) (ex : exn) (s s1 : conn * env) :
  dispatch msg s = (Raise ex, s1) ->
  send_budget (fst s1) = None ->
  handle_message msg s = answer_exception ex s1.
Proof.
  intros Hd Hopen. unfold handle_message, try_except, answer_exception.
  rewrite Hd. destruct (isinstance ex JSONDecodeError).
  - now apply websocket_send_open.
  - rewrite isinstance_Exception. unfold bind, zoom_snd, logger, modify.
    destruct s1 as [c1 e1]. cbn [fst snd].
    now apply websocket_send_open.
Qed.

Lemma handle_message_ok (msg : string) (s s1 : conn * env) :
  dispatch msg s = (Ok tt, s1) -> handle_message msg s = (Ok tt, s1).
Proof. intros Hd. unfold handle_message, try_except. now rewrite Hd. Qed.

(** One iteration of the loop, by cases on the frame. *)
Lemma handle_message_open (msg : string) (c : conn) (e : env) :
  send_budget c = None ->
  handle_message msg (c, e) =
  match json_loads msg with
  | Raise ex => answer_exception ex (c, e)
  | Ok (VDict d) =>
      if value_is_str "tts_request" (get_or "type" VNone d) then
        match process_tts_request (get_or "data" (VDict []) d) e with
        | (Ok response, e') => (Ok tt, sent response (c, e'))
        | (Raise ex, e') => answer_exception ex (c, e')
        end
      else if value_is_str "ping" (get_or "type" VNone d) then
        (Ok tt, sent pong_response (c, e))
      else
        (Ok tt,
         sent (error_message
                 ("Unknown message type: "
                  ++ py_str (get_or "type" (VStr "unknown") d))) (c, e))
  | Ok v => answer_exception (no_attribute v "get") (c, e)
  end.
Proof.
  intros Hopen. pose proof (dispatch_open msg c e Hopen) as Hd.
  destruct (json_loads msg) as [data|ex].
  - destruct data as [| | | | | |d];
      try (apply handle_message_raise with (1 := Hd); exact Hopen).
    destruct (value_is_str "tts_request" (get_or "type" VNone d)).
    + destruct (process_tts_request (get_or "data" (VDict []) d) e)
        as [[response|ex] e'].
      * now apply handle_message_ok.
      * apply handle_message_raise with (1 := Hd); exact Hopen.
    + destruct (value_is_str "ping" (get_or "type" VNone d));
        now apply handle_message_ok.
  - apply handle_message_raise with (1 := Hd); exact Hopen.
Qed.

(** One iteration never raises, leaves the connection open and sends
    exactly one message, which is a reply. *)
Lemma handle_message_reply (msg : string) (c : conn) (e : env) :
  send_budget c = None ->
  exists (reply : value) (e' : env),
    handle_message msg (c, e) = (Ok tt, sent reply (c, e'))
    /\ is_reply reply.
Proof.
  intros Hopen. rewrite (handle_message_open _ _ _ Hopen).
  assert (Hex : forall ex e0, exists reply e',
             answer_exception ex (c, e0) = (Ok tt, sent reply (c, e'))
             /\ is_reply reply).
  { intros ex e0. unfold answer_exception.
    destruct (isinstance ex JSONDecodeError); do 2 eexists;
      (split; [reflexivity|]); right; right; reflexivity. }
  destruct (json_loads msg) as [data|ex]; [|apply Hex].
  destruct data as [| | | | | |d]; try apply Hex.
  destruct (value_is_str "tts_request" (get_or "type" VNone d)).
  - destruct (process_tts_request (get_or "data" (VDict []) d) e)
      as [[response|ex] e'] eqn:Hp; [|apply Hex].
    exists response, e'. split; [reflexivity|]. left.
    eapply process_tts_request_returns; eassumption.
  - destruct (value_is_str "ping" (get_or "type" VNone d)).
    + exists pong_response, e. split; [reflexivity|]. right; left; reflexivity.
    + do 2 eexists. split; [reflexivity|]. right; right; reflexivity.
Qed.

Lemma message_loop_open (incoming : list string) (abnormal : bool) :
  forall (c : conn) (e : env),
    send_budget c = None ->
    exists (events : list event) (e' : env),
      message_loop incoming abnormal (c, e)
      = (if abnormal
         then Raise (Exn ConnectionClosed "no close frame received or sent")
         else Ok tt,
         (Conn (trace c ++ events)%list None, e'))
      /\ answered incoming events.
Proof.
  induction incoming as [|msg rest IH]; intros c e Hopen.
  - exists [], e. split; [|exact I]. cbn [message_loop].
    rewrite app_nil_r. destruct c as [t b]; cbn in *; subst b.
    now destruct abnormal.
  - cbn [message_loop]. unfold bind at 1, websocket_recv. cbn [fst snd].
    rewrite Hopen.
    destruct (handle_message_reply msg
                (Conn (trace c ++ [Received msg])%list None) e eq_refl)
      as (reply & e1 & Hm & _).
    unfold bind at 1. rewrite Hm. unfold sent. cbn [fst snd trace].
    destruct (IH (Conn ((trace c ++ [Received msg]) ++ [Sent reply])%list None)
                e1 eq_refl) as (events & e' & Hloop & Hans).
    exists (Received msg :: Sent reply :: events), e'.
    split; [|now split].
    rewrite Hloop. cbn [trace]. now rewrite <- !app_assoc.
Qed.

Lemma value_is_str_true (k : string) (v : value) :
  value_is_str k v = true -> v = VStr k.
Proof.
  destruct v as [| | | |s| |]; try discriminate. cbn [value_is_str].
  intros H. apply String.eqb_eq in H. now subst s.
Qed.

(** One iteration on an open connection sends the reply owed to the
    frame. *)
Lemma handle_message_reply_to (msg : string) (c : conn) (e : env) :
  send_budget c = None ->
  exists (reply : value) (e' : env),
    handle_message msg (c, e)
    = (Ok tt, (Conn (trace c ++ [Sent reply])%list None, e'))
    /\ reply_to msg reply.
Proof.
  intros Hopen. rewrite (handle_message_open _ _ _ Hopen).
  assert (Hex : forall ex e0,
            (forall ex', json_loads msg = Raise ex' ->
               isinstance ex' JSONDecodeError = true ->
               isinstance ex JSONDecodeError = true) ->
            (forall d, json_loads msg = Ok (VDict d) ->
               dict_get "type" d = Some (VStr "ping") -> False) ->
            (forall d t, json_loads msg = Ok (VDict d) ->
               dict_get "type" d = Some (VStr t) ->
               t <> "tts_request" -> t <> "ping" -> False) ->
            (forall v, json_loads msg = Ok v -> (forall d, v <> VDict d) ->
               ex = no_attribute v "get") ->
            exists reply e',
              answer_exception ex (c, e0)
              = (Ok tt, (Conn (trace c ++ [Sent reply])%list None, e'))
              /\ reply_to msg reply).
  { intros ex e0 Hjson Hping Hother Hattr. unfold answer_exception.
    destruct (isinstance ex JSONDecodeError) eqn:Hi; do 2 eexists;
      (split; [reflexivity|]);
      (split; [right; right; reflexivity|]).
    - split; [reflexivity|].
      split; [intros d Hj Ht; destruct (Hping d Hj Ht)|].
      split; [intros d t Hj Ht H1 H2; destruct (Hother d t Hj Ht H1 H2)|].
      intros v Hj Hv. rewrite (Hattr v Hj Hv) in Hi.
      unfold no_attribute, isinstance in Hi. cbn in Hi. discriminate Hi.
    - split.
      { intros ex' Hj Hi'. discriminate (Hjson ex' Hj Hi'). }
      split; [intros d Hj Ht; destruct (Hping d Hj Ht)|].
      split; [intros d t Hj Ht H1 H2; destruct (Hother d t Hj Ht H1 H2)|].
      intros v Hj Hv. now rewrite (Hattr v Hj Hv). }
  destruct (json_loads msg) as [data|ex] eqn:Hj; try rewrite Hj in Hex.
  - assert (Hnotdict : (forall d, data <> VDict d) ->
              exists reply e',
                answer_exception (no_attribute data "get") (c, e)
                = (Ok tt, (Conn (trace c ++ [Sent reply])%list None, e'))
                /\ reply_to msg reply).
    { intros Hv. apply Hex.
      - intros ex' H. discriminate H.
      - intros d [= ->]. now contradiction (Hv d).
      - intros d t [= ->]. now contradiction (Hv d).
      - now intros v [= ->] _. }
    destruct data as [| | | | | |d];
      try (apply Hnotdict; intros d' H; discriminate H).
    destruct (value_is_str "tts_request" (get_or "type" VNone d)) eqn:Hreq.
    + apply value_is_str_true in Hreq.
      assert (Hping : forall d', Ok (A := value) (VDict d) = Ok (VDict d') ->
                dict_get "type" d' = Some (VStr "ping") -> False).
      { intros d' [= <-] Ht. unfold get_or in Hreq. rewrite Ht in Hreq.
        discriminate Hreq. }
      assert (Hother : forall d' t,
                Ok (A := value) (VDict d) = Ok (VDict d') ->
                dict_get "type" d' = Some (VStr t) ->
                t <> "tts_request" -> t <> "ping" -> False).
      { intros d' t [= <-] Ht H1 _. unfold get_or in Hreq. rewrite Ht in Hreq.
        injection Hreq as Hreq. now contradiction H1. }
      assert (Hattr : forall ex v, Ok (A := value) (VDict d) = Ok v ->
                (forall d', v <> VDict d') -> ex = no_attribute v "get").
      { intros ex v [= <-] Hv. now contradiction (Hv d). }
      destruct (process_tts_request (get_or "data" (VDict []) d) e)
        as [[response|ex] e'] eqn:Hrun.
      * exists response, e'. split; [reflexivity|].
        unfold reply_to. rewrite Hj.
        split; [left; exact (process_tts_request_returns _ _ _ _ Hrun)|].
        split; [intros ex H; discriminate H|].
        split; [intros d' H Ht; destruct (Hping d' H Ht)|].
        split; [intros d' t H Ht H1 H2; destruct (Hother d' t H Ht H1 H2)|].
        intros v H Hv. injection H as <-. now contradiction (Hv d).
      * apply Hex.
        -- intros ex' H. discriminate H.
        -- exact Hping.
        -- exact Hother.
        -- apply Hattr.
    + destruct (value_is_str "ping" (get_or "type" VNone d)) eqn:Hpg.
      * apply value_is_str_true in Hpg.
        do 2 eexists. split; [reflexivity|].
        unfold reply_to. rewrite Hj.
        split; [right; left; reflexivity|].
        split; [intros ex H; discriminate H|].
        split; [reflexivity|].
        split.
        { intros d' t [= <-] Ht _ H2. unfold get_or in Hpg.
          rewrite Ht in Hpg. injection Hpg as Hpg. now contradiction H2. }
        intros v [= <-] Hv. now contradiction (Hv d).
      * do 2 eexists. split; [reflexivity|].
        unfold reply_to. rewrite Hj.
        split; [right; right; reflexivity|].
        split; [intros ex H; discriminate H|].
        split.
        { intros d' [= <-] Ht. unfold get_or in Hpg. rewrite Ht in Hpg.
          cbn in Hpg. discriminate Hpg. }
        split.
        { intros d' t [= <-] Ht _ _. unfold get_or. now rewrite Ht. }
        intros v [= <-] Hv. now contradiction (Hv d).
  - apply Hex.
    + now intros ex' [= <-] Hi.
    + intros d H. discriminate H.
    + intros d t H. discriminate H.
    + intros v H. discriminate H.
Qed.

(** The loop on an open connection reads every frame and sends what
    [answers] requires, when each iteration does. *)
Lemma message_loop_served (answers : string -> value -> Prop) :
  (forall frame c e,
     send_budget c = None ->
     exists reply e',
       handle_message frame (c, e)
       = (Ok tt, (Conn (trace c ++ [Sent reply])%list None, e'))
       /\ answers frame reply) ->
  forall (incoming : list string) (abnormal : bool) (c : conn) (e : env),
    send_budget c = None ->
    exists (events : list event) (e' : env),
      message_loop incoming abnormal (c, e)
      = (if abnormal
         then Raise (Exn ConnectionClosed "no close frame received or sent")
         else Ok tt,
         (Conn (trace c ++ events)%list None, e'))
      /\ served answers incoming events.
Proof.
  intros Hstep incoming abnormal.
  induction incoming as [|msg rest IH]; intros c e Hopen.
  - exists [], e. split; [|exact I]. cbn [message_loop].
    rewrite app_nil_r. destruct c as [t b]; cbn in *; subst b.
    now destruct abnormal.
  - cbn [message_loop]. unfold bind at 1, websocket_recv. cbn [fst snd].
    rewrite Hopen.
    destruct (Hstep msg (Conn (trace c ++ [Received msg])%list None) e
                eq_refl) as (reply & e1 & Hm & Hans).
    unfold bind at 1. rewrite Hm. cbn [fst snd trace].
    destruct (IH (Conn ((trace c ++ [Received msg]) ++ [Sent reply])%list None)
                e1 eq_refl) as (events & e' & Hloop & Hserved).
    exists (Received msg :: Sent reply :: events), e'.
    split; [|now repeat split].
    rewrite Hloop. cbn [trace]. now rewrite <- !app_assoc.
Qed.

Lemma is_prefix_app (p s : string) : is_prefix p (p ++ s) = true.
Proof.
  induction p as [|a p IH]; [reflexivity|].
  change (String a p ++ s) with (String a (p ++ s)).
  cbn [is_prefix]. now rewrite Ascii.eqb_refl, IH.
Qed.

(** C7. On a connection whose peer stays, every per-message failure is
    answered and the session goes on. A frame that is not JSON is answered
    with the message [{type: error, data: {message: Invalid JSON format}}];
    a frame whose type is a string other than "tts_request" and "ping" is
    answered with exactly [{type: error, data: {message: Unknown message
    type: <type>}}] (and "... unknown" when the type is missing); any other
    exception of the dispatch is logged and answered with the error
    message whose text is "Internal server error: " followed by the
    exception's string. Whatever the frame, the iteration raises nothing,
    sends exactly one reply and leaves the connection open, a ping is
    answered by the pong, and the loop reads every later frame and
    answers it by the same rules. *)
Theorem per_message_errors_keep_session_open
    (msg : string) (c : conn) (e : env) :
  send_budget c = None ->
  let error (text : string) : value :=
    VDict [ ("type", VStr "error");
            ("data", VDict [("message", VStr text)]) ] in
  let pong : value :=
    VDict [ ("type", VStr "pong");
            ("data", VDict [("message", VStr "Server is alive")]) ] in
  let owed (frame : string) (reply : value) : Prop :=
    is_reply reply
    /\ (forall ex, json_loads frame = Raise ex ->
          isinstance ex JSONDecodeError = true ->
          reply = error "Invalid JSON format")
    /\ (forall d, json_loads frame = Ok (VDict d) ->
          dict_get "type" d = Some (VStr "ping") ->
          reply = pong)
    /\ (forall d t, json_loads frame = Ok (VDict d) ->
          dict_get "type" d = Some (VStr t) ->
          t <> "tts_request" -> t <> "ping" ->
          reply = error ("Unknown message type: " ++ t))
    /\ (forall v, json_loads frame = Ok v ->
          (forall d, v <> VDict d) ->
          reply
          = error ("Internal server error: "
                   ++ ("'" ++ type_name v
                       ++ "' object has no attribute 'get'"))) in
  (forall ex, json_loads msg = Raise ex ->
     isinstance ex JSONDecodeError = true ->
     handle_message msg (c, e)
     = (Ok tt,
        (Conn (trace c ++ [Sent (error "Invalid JSON format")])%list None,
         e)))
  /\ (forall d t, json_loads msg = Ok (VDict d) ->
        dict_get "type" d = Some (VStr t) ->
        t <> "tts_request" -> t <> "ping" ->
        handle_message msg (c, e)
        = (Ok tt,
           (Conn (trace c
                  ++ [Sent (VDict
                              [ ("type", VStr "error");
                                ("data",
                                 VDict
                                   [("message",
                                     VStr ("Unknown message type: "
                                           ++ t))]) ])])%list None,
            e)))
  /\ (forall d, json_loads msg = Ok (VDict d) ->
        dict_get "type" d = None ->
        handle_message msg (c, e)
        = (Ok tt,
           (Conn (trace c
                  ++ [Sent (error "Unknown message type: unknown")])%list
              None,
            e)))
  /\ (forall ex c1 e1, dispatch msg (c, e) = (Raise ex, (c1, e1)) ->
        isinstance ex JSONDecodeError = false ->
        c1 = c
        /\ handle_message msg (c, e)
           = (Ok tt,
              (Conn (trace c
                     ++ [Sent (error ("Internal server error: "
                                      ++ exn_msg ex)%string)])%list None,
               Env (files e1) (unlink_denied e1)
                 (log e1
                  ++ [Log ERROR ("Error handling message: "
                                 ++ exn_msg ex)])%list
                 (model_calls e1))))
  /\ (exists reply e',
        handle_message msg (c, e)
        = (Ok tt, (Conn (trace c ++ [Sent reply])%list None, e'))
        /\ owed msg reply)
  /\ (forall d, json_loads msg = Ok (VDict d) ->
        dict_get "type" d = Some (VStr "ping") ->
        handle_message msg (c, e)
        = (Ok tt, (Conn (trace c ++ [Sent pong])%list None, e)))
  /\ (forall rest abnormal,
        exists events e',
          message_loop (msg :: rest) abnormal (c, e)
          = (if abnormal
             then Raise (Exn ConnectionClosed "no close frame received or sent")
             else Ok tt,
             (Conn (trace c ++ events)%list None, e'))
          /\ served owed (msg :: rest) events).
Proof.
  intros Hopen error pong owed.
  pose proof (handle_message_open msg c e Hopen) as Hm.
  split; [|split; [|split; [|split; [|split; [|split]]]]].
  - intros ex Hj Hi. rewrite Hm, Hj. unfold answer_exception. now rewrite Hi.
  - intros d t Hj Ht Hne1 Hne2. rewrite Hm, Hj. unfold get_or. rewrite Ht.
    cbn [value_is_str py_str].
    destruct (String.eqb_spec t "tts_request"); [contradiction|].
    destruct (String.eqb_spec t "ping"); [contradiction|]. reflexivity.
  - intros d Hj Ht. rewrite Hm, Hj. unfold get_or. rewrite Ht. reflexivity.
  - intros ex c1 e1 Hraise Hnot.
    assert (Hc : c1 = c).
    { rewrite (dispatch_open msg c e Hopen) in Hraise.
      destruct (json_loads msg) as [[| | | | | |d]|ex'];
        try (injection Hraise as _ <- _; reflexivity).
      destruct (value_is_str "tts_request" (get_or "type" VNone d)).
      + destruct (process_tts_request (get_or "data" (VDict []) d) e)
          as [[response|ex'] e'']; [discriminate|].
        injection Hraise as _ <- _. reflexivity.
      + destruct (value_is_str "ping" (get_or "type" VNone d)); discriminate. }
    subst c1. split; [reflexivity|].
    rewrite (handle_message_raise _ _ _ _ Hraise Hopen).
    unfold answer_exception. now rewrite Hnot.
  - exact (handle_message_reply_to msg c e Hopen).
  - intros d Hj Ht. rewrite Hm, Hj. unfold get_or. rewrite Ht. reflexivity.
  - intros rest abnormal.
    exact (message_loop_served reply_to handle_message_reply_to
             (msg :: rest) abnormal c e Hopen).
Qed.

(** C10. A frame that is valid JSON but not a JSON object (a string, a
    number, an array, a boolean, null) is not answered with "Invalid JSON
    format": the [data.get] of the dispatch raises [AttributeError], which
    the per-message boundary logs and answers with the message
    [{type: error, data: {message: <text>}}] whose text begins
    "Internal server error: "; the session stays open and the loop reads
    every later frame and answers it by the rules of the loop. *)
Theorem non_object_json_internal_error
    (msg : string) (v : value) (c : conn) (e : env) :
  json_loads msg = Ok v ->
  (forall d, v <> VDict d) ->
  send_budget c = None ->
  let cause := "'" ++ type_name v ++ "' object has no attribute 'get'" in
  let text := "Internal server error: " ++ cause in
  let error (text : string) : value :=
    VDict [ ("type", VStr "error");
            ("data", VDict [("message", VStr text)]) ] in
  let pong : value :=
    VDict [ ("type", VStr "pong");
            ("data", VDict [("message", VStr "Server is alive")]) ] in
  let owed (frame : string) (reply : value) : Prop :=
    is_reply reply
    /\ (forall ex, json_loads frame = Raise ex ->
          isinstance ex JSONDecodeError = true ->
          reply = error "Invalid JSON format")
    /\ (forall d, json_loads frame = Ok (VDict d) ->
          dict_get "type" d = Some (VStr "ping") ->
          reply = pong)
    /\ (forall d t, json_loads frame = Ok (VDict d) ->
          dict_get "type" d = Some (VStr t) ->
          t <> "tts_request" -> t <> "ping" ->
          reply = error ("Unknown message type: " ++ t))
    /\ (forall v, json_loads frame = Ok v ->
          (forall d, v <> VDict d) ->
          reply
          = error ("Internal server error: "
                   ++ ("'" ++ type_name v
                       ++ "' object has no attribute 'get'"))) in
  handle_message msg (c, e)
  = (Ok tt,
     (Conn (trace c
            ++ [Sent (VDict
                        [ ("type", VStr "error");
                          ("data", VDict [("message", VStr text)]) ])])%list
        None,
      Env (files e) (unlink_denied e)
        (log e ++ [Log ERROR ("Error handling message: " ++ cause)])%list
        (model_calls e)))
  /\ is_prefix "Internal server error: " text = true
  /\ (exists rest, text = "Internal server error: " ++ rest)
  /\ text <> "Invalid JSON format"
  /\ (forall rest abnormal,
        exists events e',
          message_loop (msg :: rest) abnormal (c, e)
          = (if abnormal
             then Raise (Exn ConnectionClosed "no close frame received or sent")
             else Ok tt,
             (Conn (trace c ++ events)%list None, e'))
          /\ served owed (msg :: rest) events).
Proof.
  intros Hj Hv Hopen cause text error pong owed.
  split; [|split; [|split; [|split]]].
  - rewrite (handle_message_open _ _ _ Hopen), Hj.
    destruct v as [| | | | | |d]; try reflexivity.
    now contradiction (Hv d).
  - apply is_prefix_app.
  - now exists cause.
  - subst text. intros H. cbv [String.append] in H. discriminate.
  - intros rest abnormal.
    exact (message_loop_served reply_to handle_message_reply_to
             (msg :: rest) abnormal c e Hopen).
Qed.

(** ** The trace of a connection, whatever the peer does *)

Lemma extends_refl (s : conn * env) : extends s s.
Proof. exists []. split; [now rewrite app_nil_r|constructor]. Qed.

Lemma extends_trans (s1 s2 s3 : conn * env) :
  extends s1 s2 -> extends s2 s3 -> extends s1 s3.
Proof.
  intros (ev1 & H1 & F1) (ev2 & H2 & F2). exists (ev1 ++ ev2)%list. split.
  - now rewrite H2, H1, app_assoc.
  - apply Forall_app; now split.
Qed.

Lemma grows_ret {A} (a : A) : grows (ret a).
Proof. intros s. apply extends_refl. Qed.

Lemma grows_raise {A} (e : exn) : grows (raise (A := A) e).
Proof. intros s. apply extends_refl. Qed.

Lemma grows_lift {A} (r : result A) : grows (lift r).
Proof. intros s. apply extends_refl. Qed.

Lemma grows_zoom_snd {A} (m : M env A) : grows (zoom_snd m).
Proof.
  intros s. unfold zoom_snd. destruct (m (snd s)) as [r e'].
  exists []. cbn. split; [now rewrite app_nil_r|constructor].
Qed.

Lemma grows_bind_returns {A B} (m : M (conn * env) A)
    (k : A -> M (conn * env) B) (Q : A -> Prop) :
  grows m -> returns m Q -> (forall a, Q a -> grows (k a)) ->
  grows (bind m k).
Proof.
  intros Hm Hr Hk s. unfold bind. pose proof (Hm s) as H1.
  destruct (m s) as [[a|e] s1] eqn:E; cbn [snd] in *.
  - eapply extends_trans; [exact H1|]. apply Hk. eapply Hr; eassumption.
  - exact H1.
Qed.

Lemma grows_bind {A B} (m : M (conn * env) A) (k : A -> M (conn * env) B) :
  grows m -> (forall a, grows (k a)) -> grows (bind m k).
Proof.
  intros Hm Hk. apply (grows_bind_returns m k (fun _ => True)); auto.
  intros s a s' _. exact I.
Qed.

Lemma grows_try_except {A} (m : M (conn * env) A)
    (h : exn -> M (conn * env) A) :
  grows m -> (forall e, grows (h e)) -> grows (try_except m h).
Proof.
  intros Hm Hh s. unfold try_except. pose proof (Hm s) as H1.
  destruct (m s) as [[a|e] s1]; cbn [snd] in *.
  - exact H1.
  - eapply extends_trans; [exact H1|]. apply Hh.
Qed.

Lemma grows_send (msg : value) : is_reply msg -> grows (websocket_send msg).
Proof.
  intros Hr s. unfold websocket_send.
  destruct (send_budget (fst s)) as [[|n]|]; cbn [snd fst trace].
  - apply extends_refl.
  - exists [Sent msg]. split; [reflexivity|].
    constructor; [exact Hr|constructor].
  - exists [Sent msg]. split; [reflexivity|].
    constructor; [exact Hr|constructor].
Qed.

Lemma grows_recv (frame : string) : grows (websocket_recv frame).
Proof.
  intros s. exists [Received frame]. split; [reflexivity|].
  constructor; [exact I|constructor].
Qed.

Lemma returns_zoom_snd {S1 S2 A} (m : M S2 A) (Q : A -> Prop) :
  returns m Q -> returns (zoom_snd (S1 := S1) m) Q.
Proof.
  intros Hm s a s'. unfold zoom_snd.
  destruct (m (snd s)) as [r s2] eqn:E. intros [= -> _].
  eapply Hm; eassumption.
Qed.

Lemma is_reply_error (text : string) : is_reply (error_message text).
Proof. right; right; reflexivity. Qed.

Lemma grows_handle_message (msg : string) : grows (handle_message msg).
Proof.
  unfold handle_message. apply grows_try_except.
  - unfold dispatch.
    apply grows_bind; [apply grows_lift|intros data].
    apply grows_bind; [apply grows_lift|intros type].
    destruct (value_is_str "tts_request" type).
    + apply grows_bind; [apply grows_lift|intros request].
      eapply grows_bind_returns.
      * apply grows_zoom_snd.
      * apply returns_zoom_snd, process_tts_request_returns.
      * intros response Hr. apply grows_send. now left.
    + apply grows_bind; [apply grows_lift|intros type'].
      destruct (value_is_str "ping" type').
      * apply grows_send. right; left; reflexivity.
      * apply grows_bind; [apply grows_lift|intros type''].
        apply grows_send, is_reply_error.
  - intros e. destruct (isinstance e JSONDecodeError).
    + apply grows_send, is_reply_error.
    + rewrite isinstance_Exception.
      apply grows_bind; [apply grows_zoom_snd|intros _].
      apply grows_send, is_reply_error.
Qed.

Lemma grows_message_loop (incoming : list string) (abnormal : bool) :
  grows (message_loop incoming abnormal).
Proof.
  induction incoming as [|msg rest IH]; cbn [message_loop].
  - destruct abnormal; [apply grows_raise|apply grows_ret].
  - apply grows_bind; [apply grows_recv|intros _].
    apply grows_bind; [apply grows_handle_message|intros _]. exact IH.
Qed.

Lemma is_reply_not_server_info (msg : value) :
  is_reply msg -> message_type msg <> Some (VStr "server_info").
Proof. intros [H|[H|H]]; rewrite H; discriminate. Qed.

(** C6. On a new connection the first thing the session does is to send
    the [server_info] message, made of the banner, the keys of the language
    table (a non-empty list when the table is not empty), the default
    language "es" and the device. If the peer is already gone nothing is
    sent or read at all; otherwise [server_info] is the first event of the
    connection, before any frame is read, and every message sent after it
    is a response, a pong or an error, so it is sent exactly once. *)
Theorem server_info_first_and_once
    (client_addr : string) (incoming : list string) (abnormal : bool)
    (c : conn) (e : env) :
  trace c = [] ->
  exists (c' : conn) (e' : env),
    handle_client client_addr incoming abnormal (c, e) = (Ok tt, (c', e'))
    /\ match send_budget c with
       | Some O => trace c' = []
       | _ =>
           exists rest,
             trace c' = Sent welcome_msg :: rest
             /\ Forall reply_event rest
             /\ forall msg, In (Sent msg) rest ->
                  message_type msg <> Some (VStr "server_info")
       end
    /\ welcome_msg
       = VDict
           [ ("type", VStr "server_info");
             ("data",
              VDict
                [ ("message", VStr "Chatterbox TTS WebSocket Server");
                  ("supported_languages",
                   VList (map VStr (map fst SUPPORTED_LANGUAGES)));
                  ("default_language", VStr "es");
                  ("device", VStr self_device) ]) ]
    /\ (SUPPORTED_LANGUAGES <> [] ->
        map VStr (map fst SUPPORTED_LANGUAGES) <> [])
    /\ In self_device ["cuda"; "mps"; "cpu"].
Proof.
  intros Htrace.
  assert (Hhandler : forall ex (s : conn * env),
    exists e1,
      (if isinstance ex ConnectionClosed then
         zoom_snd (logger INFO ("Client disconnected: " ++ client_addr))
       else if isinstance ex Exception then
         bind (zoom_snd (logger ERROR
                           ("Error in client handler: " ++ exn_msg ex)))
              (fun _ => zoom_snd logger_traceback)
       else raise ex) s = (Ok tt, (fst s, e1))).
  { intros ex s. rewrite isinstance_Exception.
    destruct (isinstance ex ConnectionClosed); eexists; reflexivity. }
  unfold handle_client. unfold bind at 1, zoom_snd at 1, logger at 1, modify.
  cbn [fst snd]. unfold try_except.
  set (e0 := add_log [Log INFO ("Client connected: " ++ client_addr)] e).
  unfold bind at 1, websocket_send at 1. cbn [fst snd].
  assert (Htail :
    (SUPPORTED_LANGUAGES <> [] ->
     map VStr (map fst SUPPORTED_LANGUAGES) <> [])
    /\ In self_device ["cuda"; "mps"; "cpu"]).
  { split.
    - destruct SUPPORTED_LANGUAGES; [congruence|discriminate].
    - unfold self_device, _get_device.
      destruct cuda_is_available, mps_is_available; simpl; auto. }
  assert (Hrun : forall b',
    exists c' e',
      match message_loop incoming abnormal (Conn [Sent welcome_msg] b', e0) with
      | (Ok a, s') => (Ok a, s')
      | (Raise ex, s') =>
          (if isinstance ex ConnectionClosed then
             zoom_snd (logger INFO ("Client disconnected: " ++ client_addr))
           else if isinstance ex Exception then
             bind (zoom_snd (logger ERROR
                               ("Error in client handler: " ++ exn_msg ex)))
                  (fun _ => zoom_snd logger_traceback)
           else raise ex) s'
      end = (Ok tt, (c', e'))
      /\ exists rest,
           trace c' = Sent welcome_msg :: rest
           /\ Forall reply_event rest
           /\ forall msg, In (Sent msg) rest ->
                message_type msg <> Some (VStr "server_info")).
  { intros b'.
    destruct (grows_message_loop incoming abnormal
                (Conn [Sent welcome_msg] b', e0)) as (events & Hev & Hall).
    assert (Hno : forall msg, In (Sent msg) events ->
                    message_type msg <> Some (VStr "server_info")).
    { intros msg Hin. apply is_reply_not_server_info.
      exact (proj1 (List.Forall_forall _ _) Hall _ Hin). }
    destruct (message_loop incoming abnormal (Conn [Sent welcome_msg] b', e0))
      as [[[]|ex] [c2 e2]]; cbn [fst snd trace app] in Hev.
    - exists c2, e2. split; [reflexivity|]. now exists events.
    - destruct (Hhandler ex (c2, e2)) as (e1 & He1). rewrite He1.
      exists c2, e1. split; [reflexivity|]. now exists events. }
  destruct (send_budget c) as [[|n]|] eqn:Hb.
  - destruct (Hhandler (Exn ConnectionClosed "no close frame received or sent")
                (c, e0)) as (e1 & He1).
    rewrite He1. exists c, e1. cbn [fst].
    split; [reflexivity|]. split; [exact Htrace|].
    split; [reflexivity|exact Htail].
  - rewrite Htrace. cbn [app].
    destruct (Hrun (Some n)) as (c' & e' & Hc & Hrest).
    exists c', e'. split; [exact Hc|]. split; [exact Hrest|].
    split; [reflexivity|exact Htail].
  - rewrite Htrace. cbn [app].
    destruct (Hrun None) as (c' & e' & Hc & Hrest).
    exists c', e'. split; [exact Hc|]. split; [exact Hrest|].
    split; [reflexivity|exact Htail].
Qed.

(** ** Temporary files when the operating system allows deletion *)

Lemma hoare_bind {St A B} (P : St -> Prop) (m : M St A) (k : A -> M St B)
    (R : A -> St -> Prop) (Q : result B -> St -> Prop) :
  hoare P m (fun r s => match r with
                        | Ok a => R a s
                        | Raise e => Q (Raise e) s
                        end) ->
  (forall a, hoare (R a) (k a) Q) ->
  hoare P (bind m k) Q.
Proof.
  intros Hm Hk s Hs. unfold bind. specialize (Hm s Hs).
  destruct (m s) as [[a|e] s1]; cbn [fst snd] in *.
  - apply Hk, Hm.
  - exact Hm.
Qed.

(** A step that keeps an invariant, whatever it returns or raises. *)
Lemma hoare_bind_inv {St A B} (I : St -> Prop) (m : M St A)
    (k : A -> M St B) :
  hoare I m (fun _ s => I s) ->
  (forall a, hoare I (k a) (fun _ s => I s)) ->
  hoare I (bind m k) (fun _ s => I s).
Proof.
  intros Hm Hk. apply hoare_bind with (R := fun _ s => I s); [|exact Hk].
  intros s Hs. specialize (Hm s Hs). now destruct (fst (m s)).
Qed.

Lemma hoare_lift_inv {St A} (I : St -> Prop) (x : result A) :
  hoare I (lift x) (fun _ s => I s).
Proof. intros s Hs. exact Hs. Qed.

Lemma hoare_ret_inv {St A} (I : St -> Prop) (a : A) :
  hoare I (ret a) (fun _ s => I s).
Proof. intros s Hs. exact Hs. Qed.

Lemma hoare_raise_inv {St A} (I : St -> Prop) (e : exn) :
  hoare I (raise (A := A) e) (fun _ s => I s).
Proof. intros s Hs. exact Hs. Qed.

Lemma fresh_file_absent (F : gmap nat (list byte)) : F !! fresh (dom F) = None.
Proof. apply not_elem_of_dom, is_fresh. Qed.

Ltac run_monad :=
  cbv [bind lift ret raise try_except try_finally with_local zoom_snd
       get_local set_local modify logger logger_traceback record_call
       NamedTemporaryFile file_write file_read path_exists os_unlink
       unlink_reference fst snd files unlink_denied log model_calls
       set_files add_log].

(** When deletion is allowed [_encode_audio] removes the temporary file it
    creates: it only adds to the log. *)
Lemma encode_audio_eq (audio_tensor : tensor) (sample_rate : Z) (e : env) :
  deletions_allowed e ->
  _encode_audio audio_tensor sample_rate e =
  match to_numpy audio_tensor with
  | Ok audio_np =>
      match torchaudio_save audio_np sample_rate with
      | Ok wav => (Ok (b64encode wav), e)
      | Raise ex =>
          (Raise ex,
           add_log [Log ERROR ("Failed to encode audio: " ++ exn_msg ex)] e)
      end
  | Raise ex =>
      (Raise ex,
       add_log [Log ERROR ("Failed to encode audio: " ++ exn_msg ex)] e)
  end.
Proof.
  intros Hallow. pose proof (fresh_file_absent (files e)) as Hfresh.
  destruct e as [F u lg mc]. unfold deletions_allowed in Hallow.
  cbn [files unlink_denied] in *.
  unfold _encode_audio. run_monad.
  destruct (to_numpy audio_tensor) as [audio_np|ex]; [|reflexivity].
  destruct (torchaudio_save audio_np sample_rate) as [wav|ex].
  - repeat first
      [ rewrite insert_insert_eq
      | rewrite lookup_insert_eq
      | rewrite bool_decide_eq_true_2 by eauto
      | rewrite Hallow
      | rewrite delete_insert_id by exact Hfresh
      | progress cbv beta iota ].
    reflexivity.
  - repeat first
      [ rewrite lookup_insert_eq
      | rewrite bool_decide_eq_true_2 by eauto
      | rewrite Hallow
      | rewrite delete_insert_id by exact Hfresh
      | progress cbv beta iota ].
    reflexivity.
Qed.

Lemma hoare_step {St A B} (I : St -> Prop) (m : M St A) (k : A -> M St B)
    (Q : result B -> St -> Prop) :
  hoare I m (fun _ s => I s) ->
  (forall e s, I s -> Q (Raise e) s) ->
  (forall a, hoare I (k a) Q) ->
  hoare I (bind m k) Q.
Proof.
  intros Hm HQ Hk. apply hoare_bind with (R := fun _ s => I s); [|exact Hk].
  intros s Hs. specialize (Hm s Hs). destruct (fst (m s)); auto.
Qed.

Lemma hoare_stateless {St A} (I : St -> Prop) (m : M St A) :
  stateless m -> hoare I m (fun _ s => I s).
Proof. intros Hm s Hs. now rewrite Hm. Qed.

Lemma stateless_lift {St A} (x : result A) : stateless (lift (St := St) x).
Proof. intros s. reflexivity. Qed.

Lemma stateless_ret {St A} (a : A) : stateless (ret (St := St) a).
Proof. intros s. reflexivity. Qed.

Lemma stateless_raise {St A} (e : exn) : stateless (raise (St := St) (A := A) e).
Proof. intros s. reflexivity. Qed.

Lemma stateless_bind {St A B} (m : M St A) (k : A -> M St B) :
  stateless m -> (forall a, stateless (k a)) -> stateless (bind m k).
Proof.
  intros Hm Hk s. unfold bind. pose proof (Hm s) as H.
  destruct (m s) as [[a|e] s1]; cbn [snd] in H; subst s1.
  - apply Hk.
  - reflexivity.
Qed.

Lemma stateless_if {St A} (b : bool) (m1 m2 : M St A) :
  stateless m1 -> stateless m2 -> stateless (if b then m1 else m2).
Proof. now destruct b. Qed.

Lemma stateless_get_local {L St} : stateless (get_local (L := L) (St := St)).
Proof. intros s. reflexivity. Qed.

Ltac stateless :=
  repeat first
    [ apply stateless_lift | apply stateless_ret | apply stateless_raise
    | apply stateless_get_local
    | apply stateless_if
    | apply stateless_bind; [|intros ?] ].

Lemma stateless_check_parameter {St} (key : string) (config : value) :
  stateless (check_parameter (St := St) key config).
Proof. unfold check_parameter, out_of_range. stateless. Qed.

Lemma stateless_validate_loop {St} (keys : list string) (config : value) :
  forall d, stateless (validate_loop (St := St) keys config d).
Proof.
  induction keys as [|key rest IH]; intros d; cbn [validate_loop].
  - apply stateless_ret.
  - apply stateless_bind; [apply stateless_lift|intros present].
    apply stateless_if; [|apply IH].
    apply stateless_bind; [apply stateless_check_parameter|intros _].
    apply stateless_bind; [apply stateless_lift|intros v]. apply IH.
Qed.

(** Validation is pure, whatever the configuration is. *)
Lemma stateless_validate_config {St} (config : value) :
  stateless (_validate_config (St := St) config).
Proof.
  unfold _validate_config.
  apply stateless_bind; [apply stateless_lift|intros has_language].
  apply stateless_bind.
  - stateless.
  - intros d. apply stateless_bind; [apply stateless_validate_loop|intros d'].
    apply stateless_ret.
Qed.

Lemma stateless_nonempty_text {St} (text : value) :
  stateless (nonempty_text (St := St) text).
Proof.
  unfold nonempty_text. apply stateless_if; [apply stateless_raise|].
  destruct text; stateless.
Qed.

Lemma hoare_zoom {A} (I : option nat * env -> Prop) (m : M env A) :
  on_files I -> keeps_files m -> hoare I (zoom_snd m) (fun _ s => I s).
Proof.
  intros [Hallow Hresp] Hm [l e] Hs. unfold zoom_snd. cbn [snd fst].
  destruct (Hm e (Hallow _ Hs)) as [Hf Hu].
  destruct (m e) as [r e']. cbn [fst snd] in *. now apply (Hresp l e e').
Qed.

Lemma keeps_files_logger (level : log_level) (msg : string) :
  keeps_files (logger level msg).
Proof. intros e _. now split. Qed.

Lemma keeps_files_traceback : keeps_files logger_traceback.
Proof. intros e _. now split. Qed.

Lemma keeps_files_record_call (a : generate_args) : keeps_files (record_call a).
Proof. intros e _. now split. Qed.

Lemma keeps_files_encode_audio (audio_tensor : tensor) (sample_rate : Z) :
  keeps_files (_encode_audio audio_tensor sample_rate).
Proof.
  intros e Hallow. rewrite (encode_audio_eq _ _ _ Hallow).
  destruct (to_numpy audio_tensor) as [audio_np|ex]; [|now split].
  destruct (torchaudio_save audio_np sample_rate); now split.
Qed.

Lemma on_files_no_artifact (F : gmap nat (list byte)) :
  on_files (no_artifact F).
Proof.
  split.
  - intros s (H & _). exact H.
  - intros l e e' Hf Hu (Ha & Hl & HF). cbn [fst snd] in *.
    split; [|split]; cbn [fst snd];
      [intros p; rewrite Hu; apply Ha|assumption|congruence].
Qed.

Lemma on_files_artifact_tracked (F : gmap nat (list byte)) :
  on_files (artifact_tracked F).
Proof.
  split.
  - intros s (H & _). exact H.
  - intros l e e' Hf Hu (Ha & Ht). cbn [fst snd] in *.
    split; cbn [fst snd].
    + intros p. rewrite Hu. apply Ha.
    + now rewrite Hf.
Qed.

Lemma on_files_and_local (I : option nat * env -> Prop) (rp : option nat) :
  on_files I -> on_files (fun s => I s /\ fst s = rp).
Proof.
  intros [H1 H2]. split.
  - intros s [Hs _]. now apply H1.
  - intros l e e' Hf Hu [Hs Hl]. split; [|exact Hl]. eapply H2; eassumption.
Qed.

Lemma on_files_and_clean (I : option nat * env -> Prop)
    (F : gmap nat (list byte)) :
  on_files I -> on_files (fun s => files (snd s) = F /\ I s).
Proof.
  intros [H1 H2]. split.
  - intros s [_ Hs]. now apply H1.
  - intros l e e' Hf Hu [HF Hs]. cbn [snd] in *. split; [congruence|].
    eapply H2; eassumption.
Qed.

Lemma no_artifact_tracked (F : gmap nat (list byte)) (s : option nat * env) :
  no_artifact F s -> artifact_tracked F s.
Proof. intros (Ha & Hl & HF). split; [exact Ha|]. now rewrite Hl. Qed.

(** Decoding a reference that is valid base64 writes the decoded bytes to
    a new temporary file and returns its name. *)
Lemma decode_audio_str (s : string) (data : list byte) (e : env) :
  b64decode s = Ok data ->
  _decode_audio (VStr s) e
  = (Ok (fresh (dom (files e))),
     set_files (<[fresh (dom (files e)) := data]> (files e)) e).
Proof.
  intros Hs. unfold _decode_audio. run_monad. rewrite Hs.
  now rewrite insert_insert_eq.
Qed.

Lemma decode_audio_result (base64_audio : value) (e : env) :
  match _decode_audio base64_audio e with
  | (Ok p, e') =>
      files e !! p = None
      /\ (exists data, files e' = <[p := data]> (files e))
      /\ unlink_denied e' = unlink_denied e
  | (Raise ex, e') =>
      ex = Exn ValueError "Invalid base64 audio data"
      /\ files e' = files e
      /\ unlink_denied e' = unlink_denied e
  end.
Proof.
  unfold _decode_audio. run_monad.
  destruct base64_audio as [| | | |s| |]; try (now repeat split).
  destruct (b64decode s) as [data|ex]; [|now repeat split].
  split; [apply fresh_file_absent|]. split; [|reflexivity].
  exists data. apply insert_insert_eq.
Qed.

(** The reference block of [synthesize]: afterwards the artifact, if one
    was written, is named by [reference_audio_path]. *)
Lemma hoare_reference_block (F : gmap nat (list byte)) (data : value)
    (has_reference : bool) :
  hoare (no_artifact F)
    (if has_reference then
       bind (lift (py_getitem data "reference_audio"))
         (fun reference_audio =>
            if truthy reference_audio then
              bind (zoom_snd (_decode_audio reference_audio))
                (fun path => set_local (Some path))
            else ret tt)
     else ret tt)
    (fun _ s => artifact_tracked F s).
Proof.
  intros [l e] Hs. pose proof Hs as (Ha & Hl & HF). cbn [fst snd] in *.
  subst l.
  destruct has_reference; [|now apply no_artifact_tracked].
  unfold bind at 1, lift.
  destruct (py_getitem data "reference_audio") as [reference_audio|ex];
    [|now apply no_artifact_tracked].
  destruct (truthy reference_audio); [|now apply no_artifact_tracked].
  unfold bind, zoom_snd, set_local. cbn [fst snd].
  pose proof (decode_audio_result reference_audio e) as Hd.
  destruct (_decode_audio reference_audio e) as [[p|ex] e']; cbn [fst snd].
  - destruct Hd as (Hnone & (d & Hd) & Hu). split; cbn [fst snd].
    + intros q. rewrite Hu. apply Ha.
    + rewrite <- HF. split; [exact Hnone|]. right. now exists d.
  - destruct Hd as (_ & Hf & Hu). split; cbn [fst snd].
    + intros q. rewrite Hu. apply Ha.
    + congruence.
Qed.

(** The clean-up: afterwards the artifact is gone. *)
Lemma hoare_unlink_reference (F : gmap nat (list byte)) (rp : option nat) :
  hoare (fun s => artifact_tracked F s /\ fst s = rp)
    (zoom_snd (unlink_reference rp))
    (fun r s => r = Ok tt /\ files (snd s) = F /\ artifact_tracked F s).
Proof.
  intros [l e] [(Ha & Ht) Hl]. cbn [fst snd] in *. subst l.
  destruct e as [Fe u lg mc]. unfold deletions_allowed in Ha.
  cbn [files unlink_denied] in *.
  unfold unlink_reference, artifact_tracked. run_monad.
  destruct rp as [p|].
  - destruct Ht as (Hnone & [->|(d & ->)]).
    + rewrite bool_decide_eq_false_2
        by (rewrite Hnone; intros [? ?]; discriminate).
      cbv beta iota. repeat split; auto.
    + rewrite bool_decide_eq_true_2 by (rewrite lookup_insert_eq; eauto).
      cbv beta iota. rewrite lookup_insert_eq, Ha.
      rewrite delete_insert_id by exact Hnone.
      repeat split; auto.
  - repeat split; auto.
Qed.

(** [synthesize] keeps track of the artifact, and on success has removed
    it. *)
Lemma hoare_synthesize (F : gmap nat (list byte)) (data : value)
    (text : string) :
  hoare (no_artifact F) (synthesize data text)
    (fun r s =>
       match r with
       | Ok _ => files (snd s) = F
       | Raise _ => artifact_tracked F s
       end).
Proof.
  assert (Hraise : forall (e : exn) s, no_artifact F s -> artifact_tracked F s)
    by (intros _; apply no_artifact_tracked).
  unfold synthesize.
  apply hoare_step;
    [apply hoare_stateless, stateless_lift|exact Hraise|intros config0].
  apply hoare_step;
    [apply hoare_stateless, stateless_validate_config|exact Hraise
    |intros config].
  apply hoare_step; [|exact Hraise|intros _].
  { intros [l e] (Ha & _ & HF). repeat split; assumption. }
  apply hoare_step;
    [apply hoare_stateless, stateless_lift|exact Hraise|intros has_reference].
  apply hoare_bind with (R := fun _ s => artifact_tracked F s).
  { intros s Hs. pose proof (hoare_reference_block F data has_reference s Hs).
    now destruct (fst _). }
  intros _.
  apply hoare_step;
    [apply hoare_stateless, stateless_lift|auto|intros language_id].
  apply hoare_step;
    [apply hoare_zoom;
       [apply on_files_artifact_tracked|apply keeps_files_logger]
    |auto|intros _].
  apply hoare_bind
    with (R := fun rp s => artifact_tracked F s /\ fst s = rp).
  { intros s Hs. cbn. auto. }
  intros rp.
  assert (Hraise' : forall (e : exn) s,
            artifact_tracked F s /\ fst s = rp -> artifact_tracked F s)
    by (intros ? ? [H _]; exact H).
  do 6 (apply hoare_step;
        [apply hoare_stateless, stateless_lift|exact Hraise'|intros ?]).
  cbv zeta.
  apply hoare_step;
    [apply hoare_zoom;
       [apply on_files_and_local, on_files_artifact_tracked
       |apply keeps_files_record_call]
    |exact Hraise'|intros _].
  apply hoare_step;
    [apply hoare_stateless, stateless_lift|exact Hraise'|intros audio_tensor].
  apply hoare_step;
    [apply hoare_zoom;
       [apply on_files_and_local, on_files_artifact_tracked
       |apply keeps_files_encode_audio]
    |exact Hraise'|intros audio_base64].
  apply hoare_bind
    with (R := fun _ s => files (snd s) = F /\ artifact_tracked F s).
  { intros s Hs. pose proof (hoare_unlink_reference F rp s Hs) as (Hr & H).
    rewrite Hr. exact H. }
  intros _.
  apply hoare_step;
    [apply hoare_stateless, stateless_lift|intros ? ? [_ H]; exact H
    |intros language].
  intros s [HF _]. exact HF.
Qed.

Lemma hoare_validated_text (F : gmap nat (list byte)) (data : value) :
  hoare (no_artifact F) (validated_text data) (fun _ s => no_artifact F s).
Proof.
  unfold validated_text.
  apply hoare_bind_inv; [apply hoare_lift_inv|intros has_text].
  destruct (negb has_text); [apply hoare_raise_inv|].
  apply hoare_bind_inv; [apply hoare_lift_inv|intros text0].
  apply hoare_bind_inv;
    [apply hoare_stateless, stateless_nonempty_text|intros text].
  destruct (500 <? String.length text)%nat; [|apply hoare_ret_inv].
  apply hoare_bind_inv; [|intros _; apply hoare_ret_inv].
  apply hoare_zoom; [apply on_files_no_artifact|apply keeps_files_logger].
Qed.

Lemma hoare_body (F : gmap nat (list byte)) (data : value) :
  hoare (no_artifact F) (process_tts_request_body data)
    (fun r s =>
       match r with
       | Ok _ => files (snd s) = F
       | Raise _ => artifact_tracked F s
       end).
Proof.
  unfold process_tts_request_body.
  apply hoare_step.
  - apply hoare_validated_text.
  - intros _ s. apply no_artifact_tracked.
  - intros text. apply hoare_synthesize.
Qed.

Lemma hoare_handler (F : gmap nat (list byte)) (ex : exn) :
  hoare (artifact_tracked F) (process_tts_request_handler ex)
    (fun r s => r = Ok (tts_error ex) /\ files (snd s) = F).
Proof.
  intros [l e] Hs.
  set (e2 := add_log [LogTraceback]
               (add_log [Log ERROR ("Error processing TTS request: "
                                    ++ exn_msg ex)] e)).
  assert (Heq : process_tts_request_handler ex (l, e)
                = bind (zoom_snd (unlink_reference l))
                    (fun _ => ret (tts_error ex)) (l, e2)) by reflexivity.
  rewrite Heq. clear Heq.
  assert (Hs2 : artifact_tracked F (l, e2) /\ fst (l, e2) = l).
  { split; [|reflexivity].
    destruct (on_files_artifact_tracked F) as [_ Hresp].
    now apply (Hresp l e e2). }
  pose proof (hoare_unlink_reference F l _ Hs2) as (Hr & HF & _).
  unfold bind.
  destruct (zoom_snd (unlink_reference l) (l, e2)) as [r s2].
  cbn [fst snd] in *. subst r. now split.
Qed.

(** When the operating system allows deletion, [process_tts_request]
    always returns a [tts_response], never raises, and leaves the temporary
    files exactly as it found them: the reference artifact and the file of
    the encoder are gone on every path. An exception of the [try] block
    becomes the error response that carries its message. *)
Lemma process_tts_request_cleans_up (data : value) (e : env) :
  deletions_allowed e ->
  exists (response : value) (e' : env),
    process_tts_request data e = (Ok response, e')
    /\ files e' = files e
    /\ message_type response = Some (VStr "tts_response")
    /\ forall ex s1,
         process_tts_request_body data (None, e) = (Raise ex, s1) ->
         response = tts_error ex.
Proof.
  intros Hallow.
  assert (Hpre : no_artifact (files e) (None, e)) by now repeat split.
  pose proof (hoare_body (files e) data _ Hpre) as Hbody.
  pose proof (process_tts_request_returns data e) as Hret.
  unfold process_tts_request, with_local, try_except in *.
  destruct (process_tts_request_body data (None, e)) as [[v|ex] [l1 e1]];
    cbn [fst snd] in Hbody.
  - exists v, e1. split; [reflexivity|]. split; [exact Hbody|].
    split; [now apply (Hret v e1)|]. discriminate.
  - rewrite isinstance_Exception in *.
    pose proof (hoare_handler (files e) ex _ Hbody) as (Hr & Hf).
    destruct (process_tts_request_handler ex (l1, e1)) as [r [l2 e2]].
    cbn [fst snd] in *. subst r.
    exists (tts_error ex), e2. split; [reflexivity|]. split; [exact Hf|].
    split; [reflexivity|]. now intros ex' s1 [= <- _].
Qed.

(** * Further properties of the server *)

(** ** The codec *)

Lemma encode_audio_full
    (audio_tensor : tensor) (sample_rate : Z) (e : env) :
  let p := fresh (dom (files e)) in
  let failed ex := Log ERROR ("Failed to encode audio: " ++ exn_msg ex) in
  let warning :=
    Log WARNING ("Could not delete temporary file " ++ path_name p
                 ++ ": [Errno 13] Permission denied") in
  _encode_audio audio_tensor sample_rate e =
  match to_numpy audio_tensor with
  | Raise ex => (Raise ex, add_log [failed ex] e)
  | Ok audio_np =>
      match torchaudio_save audio_np sample_rate with
      | Ok wav =>
          if unlink_denied e p
          then (Ok (b64encode wav),
                add_log [warning] (set_files (<[p := wav]> (files e)) e))
          else (Ok (b64encode wav), e)
      | Raise ex =>
          if unlink_denied e p
          then (Raise ex,
                add_log [failed ex; warning]
                  (set_files (<[p := []]> (files e)) e))
          else (Raise ex, add_log [failed ex] e)
      end
  end.
Proof.
  cbv zeta. pose proof (fresh_file_absent (files e)) as Hfresh.
  destruct e as [F u lg mc]. cbn [files unlink_denied] in *.
  unfold _encode_audio. run_monad.
  destruct (to_numpy audio_tensor) as [audio_np|ex]; [|reflexivity].
  destruct (torchaudio_save audio_np sample_rate) as [wav|ex].
  - repeat first
      [ rewrite insert_insert_eq
      | rewrite lookup_insert_eq
      | rewrite bool_decide_eq_true_2 by eauto
      | progress cbv beta iota ].
    destruct (u (fresh (dom F))).
    + reflexivity.
    + rewrite delete_insert_id by exact Hfresh. reflexivity.
  - repeat first
      [ rewrite lookup_insert_eq
      | rewrite bool_decide_eq_true_2 by eauto
      | progress cbv beta iota ].
    destruct (u (fresh (dom F))).
    + cbn. now rewrite <- app_assoc.
    + rewrite delete_insert_id by exact Hfresh. reflexivity.
Qed.


(** X2. [_decode_audio] by its outcome: a returned name is new, the file
    under it holds exactly the decoded bytes and nothing is logged; any
    failure reaches the caller as the one [ValueError], is logged with its
    cause and creates no file. *)
Theorem decode_audio_outcomes (base64_audio : value) (e : env) :
  match _decode_audio base64_audio e with
  | (Ok p, e') =>
      files e !! p = None
      /\ (exists s data,
            base64_audio = VStr s /\ b64decode s = Ok data
            /\ files e' = <[p := data]> (files e))
      /\ log e' = log e
  | (Raise ex, e') =>
      ex = Exn ValueError "Invalid base64 audio data"
      /\ files e' = files e
      /\ exists cause,
           log e' = (log e ++ [Log ERROR ("Failed to decode audio: " ++ cause)])%list
  end.
Proof.
  unfold _decode_audio. run_monad.
  destruct base64_audio as [| | | |s| |];
    try (split; [reflexivity|split; [reflexivity|eexists; reflexivity]]).
  destruct (b64decode s) as [data|ex] eqn:Hs.
  - split; [apply fresh_file_absent|]. split; [|reflexivity].
    exists s, data. split; [reflexivity|]. split; [exact Hs|].
    apply insert_insert_eq.
  - split; [reflexivity|split; [reflexivity|eexists; reflexivity]].
Qed.

(** ** Requests that fail before synthesis *)


Lemma first_error_single (keys : list string) (k : string) (v : value) :
  first_error keys [(k, v)]
  = if in_dec string_dec k keys then parameter_error k [(k, v)] else None.
Proof.
  induction keys as [|key rest IH]; [reflexivity|].
  cbn [first_error]. rewrite IH.
  destruct (string_dec key k) as [->|Hne].
  - destruct (in_dec string_dec k (k :: rest)) as [_|Hn];
      [|contradiction Hn; now left].
    destruct (parameter_error k [(k, v)]); [reflexivity|].
    now destruct (in_dec string_dec k rest).
  - assert (Hnone : parameter_error key [(k, v)] = None).
    { unfold parameter_error, dict_get.
      destruct (String.eqb_spec key k); [contradiction|reflexivity]. }
    rewrite Hnone.
    destruct (in_dec string_dec k rest) as [Hin|Hnin];
      destruct (in_dec string_dec k (key :: rest)) as [Hin'|Hnin'];
      try reflexivity.
    + contradiction Hnin'. now right.
    + destruct Hin' as [E|Hin']; [contradiction|contradiction].
Qed.

(** X4. NaN and the infinities, which [json.loads] accepts, are never
    accepted for a numeric parameter, whatever else the config holds; a
    config with only that parameter gets the range error of the
    parameter. *)
Theorem non_finite_parameter_rejected
    {St : Type} (k : string) (lo hi : Q) (msg : string) (f : pyfloat) (st : St) :
  parameter_range k = Some (lo, hi, msg) ->
  match f with FFinite _ => False | _ => True end ->
  (forall cfg, dict_get k cfg = Some (VFloat f) ->
     exists e, _validate_config (VDict cfg) st = (Raise e, st))
  /\ _validate_config (VDict [(k, VFloat f)]) st
     = (Raise (Exn ValueError msg), st).
Proof.
  intros Hr Hf.
  assert (Hb : between lo hi (VFloat f) = Ok false).
  { unfold between, as_number, float_le_l, float_le_r.
    destruct f as [q| |[|]]; try reflexivity. contradiction. }
  assert (Herr : forall cfg, dict_get k cfg = Some (VFloat f) ->
                   parameter_error k cfg = Some (Exn ValueError msg)).
  { intros cfg Hk. unfold parameter_error. now rewrite Hk, Hr, Hb. }
  split.
  - intros cfg Hk.
    assert (Hdec : language_ok cfg \/ ~ language_ok cfg).
    { unfold language_ok.
      destruct (dict_get "language_id" cfg) as [[| | | |s| |]|]; cbn;
        try (left; exact I);
        try match goal with |- False \/ _ => right; intros [] end.
      destruct (supported (lower s)); [left|right];
        [reflexivity|discriminate]. }
    destruct Hdec as [Hok|Hbad];
      [|now apply validate_config_language_error].
    rewrite (validate_config_eq _ _ Hok).
    destruct (first_error config_keys cfg) as [e|] eqn:Hfirst;
      [now exists e|].
    pose proof (first_error_none _ _ Hfirst k (parameter_range_key _ _ Hr))
      as Hnone.
    rewrite (Herr cfg Hk) in Hnone. discriminate Hnone.
  - assert (Hk : dict_get k [(k, VFloat f)] = Some (VFloat f))
      by (unfold dict_get; now rewrite String.eqb_refl).
    assert (Hok : language_ok [(k, VFloat f)]).
    { unfold language_ok, dict_get.
      destruct (String.eqb_spec "language_id" k) as [<-|_];
        [discriminate Hr|exact I]. }
    rewrite (validate_config_eq _ _ Hok), first_error_single.
    destruct (in_dec string_dec k config_keys) as [_|Hn];
      [|now contradiction Hn; apply (parameter_range_key _ _ Hr)].
    now rewrite (Herr _ Hk).
Qed.

(** ** The session and its transport *)

Lemma websocket_send_gone (msg : value) (s : conn * env) :
  send_budget (fst s) = Some O ->
  websocket_send msg s
  = (Raise (Exn ConnectionClosed "no close frame received or sent"), s).
Proof. intros H. unfold websocket_send. now rewrite H. Qed.

Lemma dispatch_gone (msg : string) (c : conn) (e : env) :
  send_budget c = Some O ->
  exists ex e', dispatch msg (c, e) = (Raise ex, (c, e')).
Proof.
  intros Hgone. unfold dispatch. unfold bind at 1, lift.
  destruct (json_loads msg) as [data|ex]; [|now exists ex, e].
  unfold bind at 1.
  destruct (py_get data "type" VNone) as [type|ex]; [|now exists ex, e].
  destruct (value_is_str "tts_request" type).
  - unfold bind at 1.
    destruct (py_get data "data" (VDict [])) as [request|ex];
      [|now exists ex, e].
    unfold bind at 1, zoom_snd. cbn [fst snd].
    destruct (process_tts_request request e) as [[response|ex] e'];
      [|now exists ex, e'].
    rewrite websocket_send_gone by exact Hgone. eauto.
  - unfold bind at 1.
    destruct (value_is_str "ping" type).
    + rewrite websocket_send_gone by exact Hgone. eauto.
    + unfold bind at 1.
      destruct (py_get data "type" (VStr "unknown")) as [type''|ex];
        [|now exists ex, e].
      rewrite websocket_send_gone by exact Hgone. eauto.
Qed.

(** X5. Once the peer is gone the frame in hand is the last one read: its
    answer cannot be sent, neither can the error message about that, and
    [ConnectionClosed] ends the loop with nothing sent and no later frame
    read. *)
Theorem peer_gone_ends_loop
    (msg : string) (rest : list string) (abnormal : bool) (c : conn) (e : env) :
  send_budget c = Some O ->
  exists e',
    message_loop (msg :: rest) abnormal (c, e)
    = (Raise (Exn ConnectionClosed "no close frame received or sent"),
       (Conn (trace c ++ [Received msg])%list (Some O), e')).
Proof.
  intros Hgone. cbn [message_loop].
  unfold bind at 1, websocket_recv. cbn [fst snd]. rewrite Hgone.
  set (c1 := Conn (trace c ++ [Received msg])%list (Some O)).
  destruct (dispatch_gone msg c1 e eq_refl) as (ex & e1 & Hd).
  unfold bind at 1, handle_message, try_except. rewrite Hd.
  destruct (isinstance ex JSONDecodeError).
  - rewrite websocket_send_gone by reflexivity. eauto.
  - rewrite isinstance_Exception.
    unfold bind, zoom_snd, logger, modify. cbn [fst snd].
    rewrite websocket_send_gone by reflexivity. eauto.
Qed.

(** X6. On a connection whose peer stays, on a host that allows deletion
    and on which creating and writing a temporary file succeed (the file
    system of this development: [NamedTemporaryFile] and [file_write]
    never raise), every frame of type "tts_request" is answered with a
    [tts_response]: validation, decoding and model failures are reported
    in that shape, never as the generic error message, and no temporary
    file is left. Where the write of [_decode_audio] can fail, the file
    it has created would stay: [reference_audio_path] is not bound yet
    when the clean-up runs. *)
Theorem tts_request_always_answered_with_tts_response
    (msg : string) (d : list (string * value)) (c : conn) (e : env) :
  send_budget c = None ->
  deletions_allowed e ->
  json_loads msg = Ok (VDict d) ->
  dict_get "type" d = Some (VStr "tts_request") ->
  exists response e',
    handle_message msg (c, e)
    = (Ok tt, (Conn (trace c ++ [Sent response])%list None, e'))
    /\ message_type response = Some (VStr "tts_response")
    /\ files e' = files e.
Proof.
  intros Hopen Hallow Hj Ht.
  rewrite (handle_message_open _ _ _ Hopen), Hj.
  unfold get_or at 1. rewrite Ht. cbn [value_is_str String.eqb].
  replace (String.eqb "tts_request" "tts_request") with true by reflexivity.
  destruct (process_tts_request_cleans_up (get_or "data" (VDict []) d) e Hallow)
    as (response & e' & Hrun & Hfiles & Htype & _).
  rewrite Hrun. eauto.
Qed.

(** ** What reaches the model *)

Lemma out_of_range_value {St} (key : string) (lo hi : Q) (config v : value)
    (st : St) :
  py_getitem config key = Ok v ->
  out_of_range key key lo hi config st =
  (match between lo hi v with
   | Ok inside => Ok (negb inside)
   | Raise e => Raise e
   end, st).
Proof.
  intros H. unfold out_of_range, bind, lift, ret.
  rewrite String.eqb_refl, H. destruct (between lo hi v); reflexivity.
Qed.

(** The [if]/[elif] chain on any configuration value. *)
Lemma check_parameter_value {St} (key : string) (config v : value) (st : St) :
  py_getitem config key = Ok v ->
  check_parameter key config st =
  (match parameter_range key with
   | Some (lo, hi, msg) =>
       match between lo hi v with
       | Ok true => Ok tt
       | Ok false => Raise (Exn ValueError msg)
       | Raise e => Raise e
       end
   | None => Ok tt
   end, st).
Proof.
  intros Hv. unfold check_parameter, parameter_range.
  repeat
    (match goal with
     | |- context [String.eqb key ?name] =>
         destruct (String.eqb_spec key name) as [->|?]
     end;
     [ unfold bind at 1; rewrite (out_of_range_value _ _ _ _ _ _ Hv);
       destruct (between _ _ v) as [[|]|]; try reflexivity;
       cbn [negb]; unfold bind, raise, ret;
       repeat rewrite out_of_range_other by reflexivity; reflexivity
     | unfold bind at 1;
       rewrite out_of_range_other by (now apply String.eqb_neq) ]).
  reflexivity.
Qed.

Lemma parameter_range_not_language :
  parameter_range "language_id" = None.
Proof. reflexivity. Qed.

(** The loop keeps a configuration valid. *)
Lemma validate_loop_valid {St} (keys : list string) (config : value) :
  (py_contains "language_id" config = Ok true ->
   exists s, py_getitem config "language_id" = Ok (VStr s)
             /\ supported (lower s) = true) ->
  forall (d d' : list (string * value)) (st st' : St),
    valid_config d ->
    validate_loop keys config d st = (Ok d', st') ->
    valid_config d'.
Proof.
  intros Hlang. induction keys as [|key rest IH]; intros d d' st st' Hd Hrun.
  - injection Hrun as <- _. exact Hd.
  - cbn [validate_loop] in Hrun. unfold bind at 1, lift in Hrun.
    destruct (py_contains key config) as [[|]|ex] eqn:Hin;
      [|now apply (IH d d' st st')|discriminate Hrun].
    unfold bind at 1 in Hrun.
    destruct (check_parameter key config st) as [[[]|ex] st1] eqn:Hc;
      [|discriminate Hrun].
    unfold bind at 1, lift in Hrun.
    destruct (py_getitem config key) as [v|ex] eqn:Hv; [|discriminate Hrun].
    rewrite (check_parameter_value _ _ _ _ Hv) in Hc.
    apply (IH (dict_set key v d) d' st1 st'); [|exact Hrun].
    destruct Hd as [(s & Hs & Hsup) Hnum]. split.
    + destruct (string_dec key "language_id") as [->|Hne].
      * destruct (Hlang Hin) as (s' & Hs' & Hsup').
        rewrite Hs' in Hv. injection Hv as <-.
        exists s'. split; [apply dict_get_set_eq|now right].
      * exists s. split; [|exact Hsup].
        rewrite dict_get_set_ne by exact Hne. exact Hs.
    + intros k lo hi msg Hr.
      destruct (string_dec key k) as [->|Hne].
      * exists v. split; [apply dict_get_set_eq|].
        rewrite Hr in Hc.
        destruct (between lo hi v) as [[|]|]; [reflexivity| |];
          discriminate Hc.
      * destruct (Hnum k lo hi msg Hr) as (x & Hx & Hb).
        exists x. split; [|exact Hb].
        rewrite dict_get_set_ne by exact Hne. exact Hx.
Qed.

Lemma lower_char_idempotent (c : ascii) :
  lower_char (lower_char c) = lower_char c.
Proof. destruct c as [[] [] [] [] [] [] [] []]; reflexivity. Qed.

Lemma lower_idempotent (s : string) : lower (lower s) = lower s.
Proof.
  induction s as [|c s IH]; [reflexivity|].
  cbn [lower]. now rewrite lower_char_idempotent, IH.
Qed.

Lemma valid_config_defaults : valid_config defaults.
Proof.
  split.
  - exists "es". split; [reflexivity|now left].
  - intros k lo hi msg. unfold parameter_range.
    repeat match goal with
           | |- context [String.eqb k ?name] =>
               destruct (String.eqb_spec k name) as [->|?]
           end; try discriminate;
      intros [= <- <- <-]; eexists; (split; [reflexivity|]);
      vm_compute; reflexivity.
Qed.

(** Whatever value the client supplies as [config], a configuration that
    [_validate_config] returns is a dict whose entries are valid. *)
Lemma validate_config_valid {St} (config out : value) (st st' : St) :
  _validate_config config st = (Ok out, st') ->
  exists d, out = VDict d /\ valid_config d.
Proof.
  unfold _validate_config. intros Hrun.
  unfold bind at 1, lift in Hrun.
  destruct (py_contains "language_id" config) as [has_language|ex] eqn:Hin;
    [|discriminate Hrun].
  unfold bind at 1 in Hrun.
  destruct has_language.
  - unfold bind at 1, lift in Hrun.
    destruct (py_getitem config "language_id") as [l|ex] eqn:Hl;
      [|discriminate Hrun].
    unfold bind at 1, lift in Hrun.
    destruct l as [| | | |s| |]; try discriminate Hrun.
    cbn [py_lower] in Hrun.
    destruct (supported (lower s)) eqn:Hsup; [|discriminate Hrun].
    cbn [negb] in Hrun. unfold ret at 1 in Hrun. unfold bind at 1 in Hrun.
    destruct (validate_loop _ config _ st) as [[d'|ex] st1] eqn:Hloop;
      [|discriminate Hrun].
    injection Hrun as <- _. exists d'. split; [reflexivity|].
    eapply validate_loop_valid; [|  |exact Hloop].
    + intros _. now exists s.
    + split.
      * exists (lower s). split; [reflexivity|]. right.
        now rewrite lower_idempotent.
      * intros k lo hi msg Hr.
        destruct (valid_config_defaults) as [_ Hnum].
        destruct (Hnum k lo hi msg Hr) as (x & Hx & Hb).
        exists x. split; [|exact Hb].
        rewrite dict_get_set_ne; [exact Hx|].
        intros <-. discriminate Hr.
  - unfold ret at 1 in Hrun. unfold bind at 1 in Hrun.
    destruct (validate_loop _ config _ st) as [[d'|ex] st1] eqn:Hloop;
      [|discriminate Hrun].
    injection Hrun as <- _. exists d'. split; [reflexivity|].
    eapply validate_loop_valid; [|exact valid_config_defaults|exact Hloop].
    intros Hyes. rewrite Hyes in Hin. discriminate Hin.
Qed.

Lemma hoare_lift_bind {St A B} (P : St -> Prop) (x : result A)
    (k : A -> M St B) (Q : result B -> St -> Prop) :
  (forall a, x = Ok a -> hoare P (k a) Q) ->
  (forall e s, P s -> Q (Raise e) s) ->
  hoare P (bind (lift x) k) Q.
Proof.
  intros Hk HQ s Hs. unfold bind, lift. destruct x as [a|e].
  - now apply Hk.
  - now apply HQ.
Qed.

Lemma hoare_stateless_bind {St A B} (P : St -> Prop) (m : M St A)
    (k : A -> M St B) (Q : result B -> St -> Prop) :
  stateless m ->
  (forall a, (exists s, m s = (Ok a, s)) -> hoare P (k a) Q) ->
  (forall e s, P s -> Q (Raise e) s) ->
  hoare P (bind m k) Q.
Proof.
  intros Hm Hk HQ s Hs. unfold bind. pose proof (Hm s) as Hst.
  destruct (m s) as [[a|e] s1] eqn:E; cbn [snd] in Hst; subst s1.
  - apply Hk; [|exact Hs]. now exists s.
  - now apply HQ.
Qed.

Lemma hoare_zoom_calls {A} (I : list generate_args -> Prop) (m : M env A) :
  keeps_calls m ->
  hoare (fun s : option nat * env => I (model_calls (snd s))) (zoom_snd m)
    (fun _ s => I (model_calls (snd s))).
Proof.
  intros Hm [l e] Hs. unfold zoom_snd. cbn [fst snd] in *.
  pose proof (Hm e) as Hc. destruct (m e) as [r e']. cbn [fst snd] in *.
  now rewrite Hc.
Qed.

Lemma keeps_calls_logger (level : log_level) (msg : string) :
  keeps_calls (logger level msg).
Proof. intros e. reflexivity. Qed.

Lemma keeps_calls_traceback : keeps_calls logger_traceback.
Proof. intros e. reflexivity. Qed.

Lemma keeps_calls_decode_audio (base64_audio : value) :
  keeps_calls (_decode_audio base64_audio).
Proof.
  intros e. unfold _decode_audio. run_monad.
  destruct base64_audio as [| | | |s| |]; try reflexivity.
  destruct (b64decode s); reflexivity.
Qed.

Lemma keeps_calls_unlink_reference (rp : option nat) :
  keeps_calls (unlink_reference rp).
Proof.
  intros e. unfold unlink_reference. destruct rp as [p|]; [|reflexivity].
  run_monad. destruct (bool_decide _); [|reflexivity].
  destruct (_ !! p); [|reflexivity].
  destruct (_ p); reflexivity.
Qed.

Lemma keeps_calls_encode_audio (audio_tensor : tensor) (sample_rate : Z) :
  keeps_calls (_encode_audio audio_tensor sample_rate).
Proof.
  intros e. destruct e as [F u lg mc].
  unfold _encode_audio. run_monad.
  destruct (to_numpy audio_tensor) as [audio_np|ex]; [|reflexivity].
  destruct (torchaudio_save audio_np sample_rate) as [wav|ex];
    repeat first
      [ rewrite insert_insert_eq
      | rewrite lookup_insert_eq
      | rewrite bool_decide_eq_true_2 by eauto
      | progress cbv beta iota ];
    destruct (u (fresh (dom F))); reflexivity.
Qed.

Lemma substring_length_le (n : nat) :
  forall s : string, (String.length (substring 0 n s) <= n)%nat.
Proof.
  induction n as [|n IH]; intros [|c s]; simpl; try lia.
  specialize (IH s). lia.
Qed.

Lemma py_getitem_dict (d : list (string * value)) (k : string) (x : value) :
  py_getitem (VDict d) k = Ok x -> dict_get k d = Some x.
Proof.
  unfold py_getitem. destruct (dict_get k d); [|discriminate].
  now intros [= ->].
Qed.

Lemma hoare_zoom_before {A} (before : list generate_args) (m : M env A) :
  keeps_calls m ->
  hoare (fun s : option nat * env => model_calls (snd s) = before)
    (zoom_snd m) (fun _ s => model_calls (snd s) = before).
Proof. intros Hm. exact (hoare_zoom_calls (fun mc => mc = before) m Hm). Qed.

Lemma hoare_zoom_within {A} (before : list generate_args) (m : M env A) :
  keeps_calls m ->
  hoare (calls_within before) (zoom_snd m)
    (fun _ s => calls_within before s).
Proof.
  intros Hm.
  exact (hoare_zoom_calls
           (fun mc => exists calls,
                        mc = (before ++ calls)%list
                        /\ (length calls <= 1)%nat
                        /\ Forall valid_args calls) m Hm).
Qed.

Lemma no_call_within (before : list generate_args) (s : option nat * env) :
  model_calls (snd s) = before -> calls_within before s.
Proof.
  intros Hs. exists []. rewrite app_nil_r.
  split; [exact Hs|]. split; [simpl; lia|constructor].
Qed.

Lemma hoare_intro {St A} (P : St -> Prop) (m : M St A)
    (Q : result A -> St -> Prop) :
  (forall s r s', P s -> m s = (r, s') -> Q r s') -> hoare P m Q.
Proof. intros H s Hs. apply (H s); [exact Hs|now destruct (m s)]. Qed.

Lemma hoare_validated_text_calls (before : list generate_args) (data : value) :
  hoare (fun s : option nat * env => model_calls (snd s) = before)
    (validated_text data)
    (fun r s =>
       model_calls (snd s) = before
       /\ forall text, r = Ok text -> (String.length text <= 500)%nat).
Proof.
  apply hoare_intro. intros [l e] r s' Hs Hrun. cbn [snd] in Hs.
  unfold validated_text in Hrun. unfold bind at 1, lift in Hrun.
  destruct (py_contains "text" data) as [has_text|ex];
    [|injection Hrun as <- <-; split; [exact Hs|discriminate]].
  destruct (negb has_text);
    [injection Hrun as <- <-; split; [exact Hs|discriminate]|].
  unfold bind at 1 in Hrun.
  destruct (py_getitem data "text") as [text0|ex];
    [|injection Hrun as <- <-; split; [exact Hs|discriminate]].
  unfold bind at 1 in Hrun.
  pose proof (stateless_nonempty_text text0 (l, e)) as Hst.
  destruct (nonempty_text text0 (l, e)) as [[text|ex] s1]; cbn [snd] in Hst;
    subst s1; [|injection Hrun as <- <-; split; [exact Hs|discriminate]].
  destruct (500 <? String.length text)%nat eqn:Hlen;
    injection Hrun as <- <-.
  - split; [exact Hs|]. intros t [= <-]. apply substring_length_le.
  - split; [exact Hs|]. intros t [= <-]. apply Nat.ltb_ge in Hlen. exact Hlen.
Qed.

Lemma hoare_synthesize_calls (before : list generate_args) (data : value)
    (text : string) :
  (String.length text <= 500)%nat ->
  hoare (fun s : option nat * env => model_calls (snd s) = before)
    (synthesize data text) (fun _ s => calls_within before s).
Proof.
  intros Hlen.
  assert (Hraise : forall (e : exn) (s : option nat * env),
            model_calls (snd s) = before -> calls_within before s)
    by (intros _; apply no_call_within).
  assert (Hkeep : forall (e : exn) (s : option nat * env),
            calls_within before s -> calls_within before s)
    by (intros _ s H; exact H).
  unfold synthesize.
  apply hoare_lift_bind; [intros config0 _|exact Hraise].
  apply hoare_stateless_bind;
    [apply stateless_validate_config| |exact Hraise].
  intros config [s0 Hcfg].
  destruct (validate_config_valid _ _ _ _ Hcfg)
    as (d & -> & [(lang & Hlang & Hsup) Hnum]).
  apply hoare_step; [intros [l e] Hs; exact Hs|exact Hraise|intros _].
  apply hoare_lift_bind; [intros has_reference _|exact Hraise].
  apply hoare_step; [|exact Hraise|intros _].
  { destruct has_reference; [|apply hoare_ret_inv].
    apply hoare_bind_inv; [apply hoare_lift_inv|intros reference_audio].
    destruct (truthy reference_audio); [|apply hoare_ret_inv].
    apply hoare_bind_inv;
      [apply hoare_zoom_before, keeps_calls_decode_audio|].
    intros path [l e] Hs. exact Hs. }
  apply hoare_lift_bind; [intros language_id Hid|exact Hraise].
  apply py_getitem_dict in Hid. rewrite Hlang in Hid. injection Hid as <-.
  apply hoare_step;
    [apply hoare_zoom_before, keeps_calls_logger|exact Hraise|intros _].
  apply hoare_stateless_bind;
    [apply stateless_get_local|intros rp _|exact Hraise].
  apply hoare_lift_bind; [intros exaggeration H1|exact Hraise].
  apply hoare_lift_bind; [intros temperature H2|exact Hraise].
  apply hoare_lift_bind; [intros cfg_weight H3|exact Hraise].
  apply hoare_lift_bind; [intros repetition_penalty H4|exact Hraise].
  apply hoare_lift_bind; [intros min_p H5|exact Hraise].
  apply hoare_lift_bind; [intros top_p H6|exact Hraise].
  cbv zeta.
  assert (Hvalid : valid_args
            (GenerateArgs text (VStr lang) rp exaggeration temperature
               cfg_weight repetition_penalty min_p top_p)).
  { apply py_getitem_dict in H1, H2, H3, H4, H5, H6.
    destruct (Hnum "exaggeration" _ _ _ eq_refl) as (x1 & E1 & B1).
    destruct (Hnum "temperature" _ _ _ eq_refl) as (x2 & E2 & B2).
    destruct (Hnum "cfg_weight" _ _ _ eq_refl) as (x3 & E3 & B3).
    destruct (Hnum "repetition_penalty" _ _ _ eq_refl) as (x4 & E4 & B4).
    destruct (Hnum "min_p" _ _ _ eq_refl) as (x5 & E5 & B5).
    destruct (Hnum "top_p" _ _ _ eq_refl) as (x6 & E6 & B6).
    rewrite H1 in E1. rewrite H2 in E2. rewrite H3 in E3.
    rewrite H4 in E4. rewrite H5 in E5. rewrite H6 in E6.
    injection E1 as <-. injection E2 as <-. injection E3 as <-.
    injection E4 as <-. injection E5 as <-. injection E6 as <-.
    unfold valid_args. cbn.
    split; [exact Hlen|]. split; [now exists lang|].
    repeat split; assumption. }
  apply hoare_bind with (R := fun _ s => calls_within before s).
  { intros [l e] Hs. cbn in *. eexists [_].
    split; [now rewrite Hs|]. split; [simpl; lia|].
    constructor; [exact Hvalid|constructor]. }
  intros _.
  apply hoare_step; [apply hoare_lift_inv|exact Hkeep|intros audio_tensor].
  apply hoare_step;
    [apply hoare_zoom_within, keeps_calls_encode_audio|exact Hkeep
    |intros audio_base64].
  apply hoare_step;
    [apply hoare_zoom_within, keeps_calls_unlink_reference|exact Hkeep
    |intros _].
  apply hoare_step; [apply hoare_lift_inv|exact Hkeep|intros language].
  apply hoare_ret_inv.
Qed.

Lemma hoare_handler_calls (before : list generate_args) (ex : exn) :
  hoare (calls_within before) (process_tts_request_handler ex)
    (fun _ s => calls_within before s).
Proof.
  unfold process_tts_request_handler.
  apply hoare_bind_inv;
    [apply hoare_zoom_within, keeps_calls_logger|intros _].
  apply hoare_bind_inv;
    [apply hoare_zoom_within, keeps_calls_traceback|intros _].
  apply hoare_bind_inv; [intros s Hs; exact Hs|intros rp].
  apply hoare_bind_inv;
    [apply hoare_zoom_within, keeps_calls_unlink_reference|intros _].
  apply hoare_ret_inv.
Qed.

(** X7. Whatever the request and the host, [process_tts_request] calls the
    model at most once, and only with arguments that have passed
    validation: a text of at most 500 characters, a language that is the
    default "es" or whose lower-cased form is supported, and all six
    numeric parameters inside their ranges. *)
Theorem model_called_at_most_once_with_valid_arguments
    (data : value) (e : env) :
  exists calls,
    model_calls (snd (process_tts_request data e))
    = (model_calls e ++ calls)%list
    /\ (length calls <= 1)%nat
    /\ Forall valid_args calls.
Proof.
  set (before := model_calls e).
  assert (Hbody : hoare
            (fun s : option nat * env => model_calls (snd s) = before)
            (process_tts_request_body data)
            (fun _ s => calls_within before s)).
  { unfold process_tts_request_body.
    apply hoare_bind
      with (R := fun text s =>
                   model_calls (snd s) = before
                   /\ (String.length text <= 500)%nat).
    - intros s Hs. pose proof (hoare_validated_text_calls before data s Hs)
        as [Hc Hlen].
      destruct (fst (validated_text data s)) as [text|ex].
      + split; [exact Hc|now apply Hlen].
      + now apply no_call_within.
    - intros text s [Hs Hlen]. now apply hoare_synthesize_calls. }
  specialize (Hbody (None, e) eq_refl).
  unfold process_tts_request, with_local, try_except.
  destruct (process_tts_request_body data (None, e)) as [[v|ex] [l1 e1]];
    cbn [fst snd] in Hbody.
  - exact Hbody.
  - rewrite isinstance_Exception.
    pose proof (hoare_handler_calls before ex (l1, e1) Hbody) as Hh.
    destruct (process_tts_request_handler ex (l1, e1)) as [r [l2 e2]].
    exact Hh.
Qed.

(** ** Clean-up and validation, in general *)

(** X8. On a host that allows deletion and on which creating and writing
    a temporary file succeed (the file system of this development:
    [NamedTemporaryFile] and [file_write] never raise),
    [process_tts_request] never raises: it returns a [tts_response], an
    exception of its [try] block becomes the error response with that
    exception's message, and the temporary files afterwards are exactly
    those of before, on every path. Where the write of [_decode_audio]
    can fail, the file it has created would stay: [reference_audio_path]
    is not bound yet when the clean-up runs. *)
Theorem request_leaves_no_temporary_file (data : value) (e : env) :
  deletions_allowed e ->
  exists (response : value) (e' : env),
    process_tts_request data e = (Ok response, e')
    /\ files e' = files e
    /\ message_type response = Some (VStr "tts_response")
    /\ forall ex s1,
         process_tts_request_body data (None, e) = (Raise ex, s1) ->
         response
         = VDict
             [ ("type", VStr "tts_response");
               ("data",
                VDict
                  [ ("audio", VNone);
                    ("status", VStr "error");
                    ("message", VStr (exn_msg ex)) ]) ].
Proof. exact (process_tts_request_cleans_up data e). Qed.

(** X9. The language test is case-insensitive membership in the language
    table: an identifier whose lower-cased form is not a key is rejected,
    whatever else the config holds, with the error that quotes the
    lower-cased form and lists the keys; a config that holds only the
    identifier is accepted exactly when the lower-cased form is a key. *)
Theorem language_accepted_iff_supported
    {St : Type} (cfg : list (string * value)) (s : string) (st : St) :
  dict_get "language_id" cfg = Some (VStr s) ->
  (supported (lower s) = false ->
   _validate_config (VDict cfg) st
   = (Raise (Exn ValueError
               ("Unsupported language: " ++ lower s
                ++ ". Supported languages: "
                ++ repr_str_list (map fst SUPPORTED_LANGUAGES))), st))
  /\ ((exists out,
         _validate_config (VDict [("language_id", VStr s)]) st = (Ok out, st))
      <-> supported (lower s) = true).
Proof.
  intros Hl. split.
  - apply (validate_config_language cfg s st Hl).
  - apply validate_config_language_iff.
Qed.

(** X10. After the language test the validator reports the first offending
    parameter in the order exaggeration, temperature, cfg_weight,
    repetition_penalty, min_p, top_p, and otherwise returns the defaults
    with the supplied entries written over them. *)
Theorem validation_reports_first_offending_parameter
    {St : Type} (cfg : list (string * value)) (st : St) :
  language_ok cfg ->
  config_keys
  = [ "language_id"; "exaggeration"; "temperature"; "cfg_weight";
      "repetition_penalty"; "min_p"; "top_p" ]
  /\ _validate_config (VDict cfg) st =
     (match first_error config_keys cfg with
      | Some e => Raise e
      | None => Ok (VDict (overlay config_keys cfg defaults))
      end, st).
Proof. intros Hok. split; [reflexivity|now apply validate_config_eq]. Qed.

(** X11. Whatever value the client supplies as [config], a configuration that
    [_validate_config] returns is a dict with a language that is the
    default "es" or whose lower-cased form is supported, and with every
    numeric parameter present and inside its range. *)
Theorem validator_output_is_valid
    {St} (config out : value) (st st' : St) :
  _validate_config config st = (Ok out, st') ->
  exists d, out = VDict d /\ valid_config d.
Proof. apply validate_config_valid. Qed.

(** X12. A request that carries nothing but a text that is not blank calls
    the model exactly once, whatever the model then does: with the text,
    cut to its first 500 characters when it is longer, the language "es",
    no reference audio and the six default parameters. The empty-text
    test comes before the cut, so the text that reaches the model can be
    blank: 500 spaces followed by a letter are cut to the 500 spaces. *)
Theorem text_only_request_calls_model_with_defaults (text : string) (e : env) :
  strip text <> "" ->
  let text' :=
    if (500 <? String.length text)%nat then slice_to 500 text else text in
  model_calls (snd (process_tts_request (VDict [("text", VStr text)]) e))
  = (model_calls e
     ++ [GenerateArgs text' (VStr "es") None
           (VFloat (FFinite f0_5)) (VFloat (FFinite f0_8))
           (VFloat (FFinite f0_5)) (VFloat (FFinite f2_0))
           (VFloat (FFinite f0_05)) (VFloat (FFinite f1_0))])%list.
Proof.
  intros Hs text'.
  set (args := GenerateArgs text' (VStr "es") None
                 (VFloat (FFinite f0_5)) (VFloat (FFinite f0_8))
                 (VFloat (FFinite f0_5)) (VFloat (FFinite f2_0))
                 (VFloat (FFinite f0_05)) (VFloat (FFinite f1_0))).
  set (I := fun s : option nat * env =>
              model_calls (snd s) = (model_calls e ++ [args])%list).
  assert (Hzoom : forall A (m : M env A), keeps_calls m ->
            hoare I (zoom_snd m) (fun _ s => I s)).
  { intros A m Hm.
    exact (hoare_zoom_calls (fun mc => mc = (model_calls e ++ [args])%list)
             m Hm). }
  assert (Htail : forall (s : option nat * env), I s ->
            I (snd (bind (lift (model_generate args))
                      (fun audio_tensor =>
                         bind (zoom_snd (_encode_audio audio_tensor model_sr))
                           (fun audio_base64 =>
                              bind (zoom_snd (unlink_reference None))
                                (fun _ =>
                                   bind (lift (py_getitem (VDict defaults)
                                                 "language_id"))
                                     (fun language =>
                                        ret (tts_success audio_base64
                                               language))))) s))).
  { intros s Hi. revert s Hi.
    change (hoare I
              (bind (lift (model_generate args))
                 (fun audio_tensor =>
                    bind (zoom_snd (_encode_audio audio_tensor model_sr))
                      (fun audio_base64 =>
                         bind (zoom_snd (unlink_reference None))
                           (fun _ =>
                              bind (lift (py_getitem (VDict defaults)
                                            "language_id"))
                                (fun language =>
                                   ret (tts_success audio_base64
                                          language))))))
              (fun _ s => I s)).
    apply hoare_bind_inv; [apply hoare_lift_inv|intros audio_tensor].
    apply hoare_bind_inv;
      [apply Hzoom, keeps_calls_encode_audio|intros audio_base64].
    apply hoare_bind_inv;
      [apply Hzoom, keeps_calls_unlink_reference|intros _].
    apply hoare_bind_inv; [apply hoare_lift_inv|intros language].
    apply hoare_ret_inv. }
  assert (Hsynth : forall e1, model_calls e1 = model_calls e ->
            exists r l1 e2,
              synthesize (VDict [("text", VStr text)]) text' (None, e1)
              = (r, (l1, e2))
              /\ model_calls e2 = (model_calls e ++ [args])%list).
  { intros e1 He1.
    set (s2 := (None : option nat,
                Env (files e1) (unlink_denied e1)
                  (log e1 ++ [Log INFO
                     ("Generating TTS for text: '"
                      ++ slice_to 50 text'
                      ++ "...' in language: " ++ py_str (VStr "es"))])%list
                  (model_calls e1 ++ [args])%list)).
    assert (Hi : I s2) by (unfold I, s2; cbn [snd model_calls]; now rewrite He1).
    specialize (Htail s2 Hi).
    match type of Htail with
    | I (snd ?run) =>
        assert (Heq : synthesize (VDict [("text", VStr text)])
                        text' (None, e1) = run)
          by reflexivity
    end.
    rewrite Heq. clear Heq.
    match type of Htail with
    | I (snd ?run) => destruct run as [r [l1 e2]]
    end.
    exists r, l1, e2. split; [reflexivity|exact Htail]. }
  assert (Hbody : exists r l1 e2,
            process_tts_request_body (VDict [("text", VStr text)]) (None, e)
            = (r, (l1, e2))
            /\ model_calls e2 = (model_calls e ++ [args])%list).
  { unfold process_tts_request_body. unfold bind at 1.
    rewrite (validated_text_ok [("text", VStr text)] text None e eq_refl Hs).
    subst text'.
    destruct (500 <? String.length text)%nat; apply Hsynth; reflexivity. }
  destruct Hbody as (r & l1 & e2 & Hrun & Hcalls).
  unfold process_tts_request, with_local, try_except. rewrite Hrun.
  destruct r as [v|ex]; [exact Hcalls|].
  rewrite isinstance_Exception.
  assert (Hh : hoare I (process_tts_request_handler ex) (fun _ s => I s)).
  { unfold process_tts_request_handler.
    apply hoare_bind_inv; [apply Hzoom, keeps_calls_logger|intros _].
    apply hoare_bind_inv; [apply Hzoom, keeps_calls_traceback|intros _].
    apply hoare_bind_inv; [intros s Hi; exact Hi|intros rp].
    apply hoare_bind_inv;
      [apply Hzoom, keeps_calls_unlink_reference|intros _].
    apply hoare_ret_inv. }
  specialize (Hh (l1, e2) Hcalls).
  destruct (process_tts_request_handler ex (l1, e2)) as [r' [l3 e3]].
  exact Hh.
Qed.

(** * Properties of the start-up *)

Lemma load_model_loaded (s : server) (m : model) :
  self_model s = Some m -> load_model s = (Ok tt, s).
Proof. intros H. unfold load_model. now rewrite H. Qed.

Lemma load_model_outcome (s : server) :
  match load_model s with
  | (Ok _, s') =>
      is_Some (self_model s') /\ listening s' = listening s
      /\ (self_model s <> None -> s' = s)
  | (Raise ex, s') =>
      self_model s = None
      /\ from_pretrained self_device = Raise ex
      /\ s' = Server None (listening s)
                (server_log s
                 ++ [ Log INFO
                        ("Loading Chatterbox Multilingual TTS model on device: "
                         ++ self_device);
                      Log ERROR ("Failed to load model: " ++ exn_msg ex) ])%list
  end.
Proof.
  destruct s as [[m|] l lg]; unfold load_model; cbn [self_model].
  - split; [now exists m|]. split; reflexivity.
  - cbv [bind lift try_except server_logger modify raise self_model listening
         server_log].
    destruct (from_pretrained self_device) as [m|ex] eqn:Hload.
    + split; [now exists m|]. split; [reflexivity|]. now intros [].
    + rewrite isinstance_Exception. split; [reflexivity|].
      split; [reflexivity|]. now rewrite <- app_assoc.
Qed.

(** X25. [load_model] loads at most once: with a model already loaded it
    does nothing, so calling it twice is the same as calling it once.
    When it returns, a model is loaded; when it raises, it raises the
    exception of [from_pretrained] unchanged, [self.model] is still
    [None] and the log ends with "Failed to load model: ...". *)
Theorem load_model_loads_once (s : server) :
  (load_model;; load_model) s = load_model s
  /\ match load_model s with
     | (Ok _, s') =>
         is_Some (self_model s') /\ listening s' = listening s
         /\ (self_model s <> None -> s' = s)
     | (Raise ex, s') =>
         self_model s = None
         /\ from_pretrained self_device = Raise ex
         /\ s' = Server None (listening s)
                   (server_log s
                    ++ [ Log INFO
                           ("Loading Chatterbox Multilingual TTS model on device: "
                            ++ self_device);
                         Log ERROR ("Failed to load model: " ++ exn_msg ex) ])%list
     end.
Proof.
  split; [|apply load_model_outcome].
  unfold bind at 1. pose proof (load_model_outcome s) as H.
  destruct (load_model s) as [[[]|ex] s']; [|reflexivity].
  destruct H as [[m Hm] _]. now apply (load_model_loaded s' m).
Qed.

(** X26. The server listens only with a model loaded. From a state in
    which it does not listen, [start_server] reaches the point where it
    serves exactly when it leaves the socket bound, and then
    [self.model] is set; when the model cannot be loaded, the exception
    of [from_pretrained] leaves [start_server] before anything is
    bound. *)
Theorem server_listens_only_with_model
    (host : string) (port : Z) (bound : result unit) (s : server) :
  listening s = false ->
  match start_server host port bound s with
  | (Ok _, s') => listening s' = true /\ is_Some (self_model s')
  | (Raise ex, s') =>
      listening s' = false
      /\ (bound = Raise ex
          \/ (self_model s = None /\ from_pretrained self_device = Raise ex))
  end.
Proof.
  intros Hl. unfold start_server. unfold bind at 1.
  pose proof (load_model_outcome s) as H.
  destruct (load_model s) as [[[]|ex] s'].
  - destruct H as (Hm & Hl' & _). rewrite Hl in Hl'.
    destruct s' as [m l lg]. cbn [self_model listening] in *. subst l.
    cbv [bind lift server_logger modify self_model listening server_log].
    destruct bound as [[]|ex].
    + split; [reflexivity|exact Hm].
    + split; [reflexivity|now left].
  - destruct H as (Hnone & Hload & ->). cbn [listening].
    split; [exact Hl|]. right. now split.
Qed.

(** * Properties of the test client *)

Ltac run_client :=
  cbv [bind lift ret raise try_except with_local zoom_snd modify
       client_logger read_file write_file websocket_send websocket_recv
       recv fst snd client_files open_denied client_log client_add_log
       trace send_budget].

(** ** The codec of the client *)

(** X13. [_save_audio] decodes before it opens the output file: when it raises
    (text that is no base64, an output path that cannot be opened) no file
    has been created, emptied or changed and the failure is logged once;
    when it returns, the output file holds exactly the decoded bytes. *)
Theorem save_audio_all_or_nothing
    (base64_audio : value) (output_path : string) (e : client_env) :
  match _save_audio base64_audio output_path e with
  | (Ok _, e') =>
      exists s data,
        base64_audio = VStr s /\ b64decode s = Ok data
        /\ open_denied e output_path = false
        /\ e' = ClientEnv (<[output_path := data]> (client_files e))
                  (open_denied e)
                  (client_log e
                   ++ [Log INFO ("Audio saved to: " ++ output_path)])%list
  | (Raise ex, e') =>
      e' = client_add_log
             [Log ERROR ("Failed to save audio: " ++ exn_msg ex)] e
  end.
Proof.
  destruct e as [F d lg]. unfold _save_audio. run_client.
  destruct base64_audio as [| | | |s| |];
    try (rewrite isinstance_Exception; reflexivity).
  destruct (b64decode s) as [data|ex] eqn:Hb;
    [|rewrite isinstance_Exception; reflexivity].
  destruct (d output_path) eqn:Hd;
    [rewrite isinstance_Exception; reflexivity|].
  exists s, data. split; [reflexivity|]. split; [exact Hb|].
  split; [reflexivity|]. now rewrite insert_insert_eq.
Qed.

(** ** Invariants of a test *)

Lemma client_add_log_nil (e : client_env) : client_add_log [] e = e.
Proof. destruct e as [F d lg]. unfold client_add_log. cbn. now rewrite app_nil_r. Qed.

Lemma client_add_log_app (a b : list log_record) (e : client_env) :
  client_add_log b (client_add_log a e) = client_add_log (a ++ b)%list e.
Proof. unfold client_add_log. cbn. now rewrite app_assoc. Qed.

Lemma touches_only_refl (out : string) (e : client_env) : touches_only out e e.
Proof.
  split; [reflexivity|]. split; [|reflexivity].
  exists []. now rewrite app_nil_r.
Qed.

Lemma touches_only_trans (out : string) (e1 e2 e3 : client_env) :
  touches_only out e1 e2 -> touches_only out e2 e3 -> touches_only out e1 e3.
Proof.
  intros (Hd1 & [r1 Hl1] & Hf1) (Hd2 & [r2 Hl2] & Hf2).
  split; [now rewrite Hd2|]. split.
  - exists (r1 ++ r2)%list. now rewrite Hl2, Hl1, app_assoc.
  - intros p Hp. now rewrite (Hf2 p Hp), (Hf1 p Hp).
Qed.

Lemma touches_only_log (out : string) (records : list log_record)
    (e : client_env) :
  touches_only out e (client_add_log records e).
Proof.
  split; [reflexivity|]. split; [|reflexivity]. now exists records.
Qed.

Lemma touches_only_save_audio (base64_audio : value) (out : string)
    (e : client_env) :
  touches_only out e (snd (_save_audio base64_audio out e)).
Proof.
  destruct e as [F d lg]. unfold _save_audio. run_client.
  destruct base64_audio as [| | | |s| |];
    try (rewrite isinstance_Exception; apply touches_only_log).
  destruct (b64decode s) as [data|ex];
    [|rewrite isinstance_Exception; apply touches_only_log].
  destruct (d out) eqn:Hd;
    [rewrite isinstance_Exception; apply touches_only_log|].
  cbn [snd]. split; [reflexivity|]. split; [eexists; reflexivity|].
  intros p Hp. cbn [client_files].
  rewrite !lookup_insert_ne by congruence. reflexivity.
Qed.

Lemma hoare_session_zoom {A} (out : string) (c : conn) (e : client_env)
    (m : M client_env A) :
  (forall e0, touches_only out e0 (snd (m e0))) ->
  hoare (session_inv out c e) (zoom_snd m)
    (fun _ s => session_inv out c e s).
Proof.
  intros Hm [c0 e0] [Hc Ht]. unfold zoom_snd. cbn [fst snd] in *.
  specialize (Hm e0). destruct (m e0) as [r e1]. cbn [fst snd] in *.
  split; [exact Hc|]. now apply (touches_only_trans out e e0 e1).
Qed.

Lemma hoare_session_logger (out : string) (c : conn) (e : client_env)
    (level : log_level) (msg : string) :
  hoare (session_inv out c e) (zoom_snd (client_logger level msg))
    (fun _ s => session_inv out c e s).
Proof.
  apply hoare_session_zoom. intros e0.
  exact (touches_only_log out [Log level msg] e0).
Qed.

Lemma hoare_report_tts_response (success : string) (response_data : value)
    (out : string) (c : conn) (e : client_env) :
  hoare (session_inv out c e)
    (report_tts_response success response_data out)
    (fun _ s => session_inv out c e s).
Proof.
  unfold report_tts_response.
  apply hoare_bind_inv; [apply hoare_lift_inv|intros type].
  destruct (value_is_str "tts_response" type).
  - apply hoare_bind_inv; [apply hoare_lift_inv|intros data].
    apply hoare_bind_inv; [apply hoare_lift_inv|intros status].
    destruct (value_is_str "success" status).
    + apply hoare_bind_inv; [apply hoare_session_logger|intros _].
      apply hoare_bind_inv; [apply hoare_lift_inv|intros sample_rate].
      apply hoare_bind_inv; [apply hoare_session_logger|intros _].
      apply hoare_bind_inv; [apply hoare_lift_inv|intros language].
      apply hoare_bind_inv; [apply hoare_session_logger|intros _].
      apply hoare_bind_inv; [apply hoare_lift_inv|intros audio].
      destruct (truthy audio).
      * apply hoare_bind_inv; [apply hoare_lift_inv|intros audio'].
        apply hoare_session_zoom. intros e0.
        apply touches_only_save_audio.
      * apply hoare_session_logger.
    + apply hoare_bind_inv; [apply hoare_lift_inv|intros message].
      apply hoare_session_logger.
  - apply hoare_bind_inv; [apply hoare_lift_inv|intros type'].
    apply hoare_session_logger.
Qed.

Lemma test_handler_run (label : string) (ex : exn) (c : conn)
    (e : client_env) :
  test_handler label ex (c, e)
  = (Ok tt,
     (c, client_add_log
           [Log ERROR (if isinstance ex ConnectionClosed
                       then "Connection closed unexpectedly"
                       else label ++ exn_msg ex)] e)).
Proof.
  unfold test_handler. destruct (isinstance ex ConnectionClosed);
    [reflexivity|]. now rewrite isinstance_Exception.
Qed.

Lemma py_get_dict (d : list (string * value)) (k : string) (default : value) :
  py_get (VDict d) k default = Ok (get_or k default d).
Proof. reflexivity. Qed.

(** The wait loop reads a prefix of the frames, one by one, and does
    nothing else but log. *)
Lemma await_tts_response_run (incoming : list string) :
  forall (c : conn) (e : client_env),
  exists r frames rest records,
    incoming = (frames ++ rest)%list
    /\ await_tts_response incoming (c, e)
       = (r, (after (map Received frames) (send_budget c) c,
              client_add_log records e)).
Proof.
  induction incoming as [|response rest IH]; intros c e.
  - exists (Raise (Exn ConnectionClosed "no close frame received or sent")),
      [], [], [].
    split; [reflexivity|]. cbn [await_tts_response]. unfold raise, after.
    cbn [map]. rewrite app_nil_r, client_add_log_nil. now destruct c.
  - set (c1 := Conn (trace c ++ [Received response]) (send_budget c)).
    assert (Hstop : forall r : result value,
              exists r0 frames rest0 records,
                (response :: rest = frames ++ rest0)%list
                /\ (r, (c1, e))
                   = (r0, (after (map Received frames) (send_budget c) c,
                           client_add_log records e))).
    { intros r. exists r, [response], rest, [].
      split; [reflexivity|]. now rewrite client_add_log_nil. }
    assert (Hgo : forall records,
              exists r0 frames rest0 records0,
                (response :: rest = frames ++ rest0)%list
                /\ await_tts_response rest (c1, client_add_log records e)
                   = (r0, (after (map Received frames) (send_budget c) c,
                           client_add_log records0 e))).
    { intros records.
      destruct (IH c1 (client_add_log records e))
        as (r0 & frames & rest0 & records0 & Hsplit & Hrun).
      exists r0, (response :: frames), rest0, (records ++ records0)%list.
      split; [now rewrite Hsplit|]. rewrite Hrun.
      rewrite client_add_log_app. unfold after, c1. cbn [trace send_budget map].
      now rewrite <- app_assoc. }
    cbn [await_tts_response].
    unfold bind at 1, websocket_recv. cbn [fst snd]. fold c1.
    unfold bind at 1, lift.
    destruct (json_loads response) as [response_data|ex]; [|apply Hstop].
    unfold bind at 1.
    destruct (py_get response_data "type" VNone) as [type|ex]; [|apply Hstop].
    destruct (value_is_str "tts_response" type); [apply Hstop|].
    unfold bind at 1.
    destruct (value_is_str "server_info" type).
    + unfold bind at 1, zoom_snd, client_logger, modify. cbn [fst snd].
      apply (Hgo [Log INFO
                    "Received server info, waiting for TTS response..."]).
    + unfold bind at 1.
      unfold bind at 1, zoom_snd, client_logger, modify. cbn [fst snd].
      apply (Hgo [Log WARNING ("Unexpected response type: " ++ py_str type)]).
Qed.

(** One TTS test after [connect]: it never raises, changes at most the
    output file and the log, and puts on the wire its request and nothing
    else. *)
Lemma tts_session_run (request : value) (sent_line success out : string)
    (incoming : list string) (c : conn) (e : client_env) :
  exists c' e',
    try_except
      (websocket_send request;;
       zoom_snd (client_logger INFO sent_line);;
       response_data <- await_tts_response incoming;;
       report_tts_response success response_data out)
      (test_handler "Error in test: ") (c, e)
    = (Ok tt, (c', e'))
    /\ touches_only out e e'
    /\ (trace c' = trace c
        \/ exists frames rest,
             incoming = (frames ++ rest)%list
             /\ trace c'
                = (trace c ++ Sent request :: map Received frames)%list).
Proof.
  assert (Hsend : forall b,
    exists c' e',
      match
        (zoom_snd (client_logger INFO sent_line);;
         response_data <- await_tts_response incoming;;
         report_tts_response success response_data out)
          (Conn (trace c ++ [Sent request]) b, e)
      with
      | (Ok a, s') => (Ok a, s')
      | (Raise ex, s') => test_handler "Error in test: " ex s'
      end = (Ok tt, (c', e'))
      /\ touches_only out e e'
      /\ (trace c' = trace c
          \/ exists frames rest,
               incoming = (frames ++ rest)%list
               /\ trace c'
                  = (trace c ++ Sent request :: map Received frames)%list)).
  { intros b. set (c1 := Conn (trace c ++ [Sent request]) b).
    unfold bind at 1, zoom_snd at 1, client_logger at 1, modify.
    cbn [fst snd].
    change (ClientEnv (client_files e) (open_denied e)
              (client_log e ++ [Log INFO sent_line])%list)
      with (client_add_log [Log INFO sent_line] e).
    unfold bind at 1.
    destruct (await_tts_response_run incoming c1
                (client_add_log [Log INFO sent_line] e))
      as (r & frames & rest & records & Hsplit & Hrun).
    rewrite Hrun, client_add_log_app.
    set (c2 := after (map Received frames) (send_budget c1) c1).
    set (e2 := client_add_log ([Log INFO sent_line] ++ records) e).
    assert (Ht2 : touches_only out e e2) by apply touches_only_log.
    assert (Htrace : trace c2
                     = (trace c ++ Sent request :: map Received frames)%list).
    { unfold c2, after, c1. cbn [trace]. now rewrite <- app_assoc. }
    destruct r as [response_data|ex].
    - pose proof (hoare_report_tts_response success response_data out c2 e
                    (c2, e2) (conj eq_refl Ht2)) as Hrep.
      destruct (report_tts_response success response_data out (c2, e2))
        as [r' [c3 e3]].
      unfold session_inv in Hrep. cbn [fst snd] in Hrep.
      destruct Hrep as [Hc3 Ht3]. subst c3.
      destruct r' as [[]|ex].
      + exists c2, e3. split; [reflexivity|]. split; [exact Ht3|].
        right. now exists frames, rest.
      + rewrite test_handler_run. do 2 eexists. split; [reflexivity|].
        split.
        * eapply touches_only_trans; [exact Ht3|apply touches_only_log].
        * right. now exists frames, rest.
    - rewrite test_handler_run. do 2 eexists. split; [reflexivity|].
      split.
      + eapply touches_only_trans; [exact Ht2|apply touches_only_log].
      + right. now exists frames, rest. }
  unfold try_except. unfold bind at 1. unfold websocket_send. cbn [fst snd].
  destruct (send_budget c) as [[|n]|].
  - rewrite test_handler_run. do 2 eexists. split; [reflexivity|].
    split; [apply touches_only_log|now left].
  - apply Hsend.
  - apply Hsend.
Qed.

(** ** What a test leaves behind *)

Lemma tts_tests_run
    (text language out : string) (connection : result (list string))
    (c : conn) (e : client_env) :
  (exists c' e',
     test_basic_tts text language out connection (c, e) = (Ok tt, (c', e'))
     /\ touches_only out e e'
     /\ (trace c' = trace c
         \/ exists frames rest,
              connection = Ok (frames ++ rest)%list
              /\ trace c'
                 = (trace c ++ Sent (basic_request text language)
                      :: map Received frames)%list))
  /\ forall reference_audio_path,
       exists c' e',
         test_with_reference_audio text reference_audio_path language out
           connection (c, e) = (Ok tt, (c', e'))
         /\ touches_only out e e'
         /\ (trace c' = trace c
             \/ exists data frames rest,
                  client_files e !! reference_audio_path = Some data
                  /\ connection = Ok (frames ++ rest)%list
                  /\ trace c'
                     = (trace c
                        ++ Sent (reference_request text (b64encode data)
                                   language)
                        :: map Received frames)%list).
Proof.
  split.
  - unfold test_basic_tts. unfold bind at 1, zoom_snd at 1, client_logger at 1,
      modify. cbn [fst snd].
    match goal with
    | |- context [ClientEnv _ _ (client_log e ++ [?r])%list] =>
        change (ClientEnv (client_files e) (open_denied e)
                  (client_log e ++ [r])%list)
          with (client_add_log [r] e);
        set (e1 := client_add_log [r] e)
    end.
    assert (Ht1 : touches_only out e e1) by apply touches_only_log.
    destruct connection as [incoming|ex].
    + destruct (tts_session_run (basic_request text language)
                  "TTS request sent" "TTS generation successful!" out
                  incoming c e1) as (c' & e' & Hrun & Ht & Htrace).
      exists c', e'. split; [exact Hrun|]. split.
      * eapply touches_only_trans; [exact Ht1|exact Ht].
      * destruct Htrace as [Hsame|(frames & rest & Hsplit & Htr)];
          [now left|right]. exists frames, rest. now rewrite Hsplit.
    + unfold try_except, bind, lift. rewrite test_handler_run.
      do 2 eexists. split; [reflexivity|]. split; [|now left].
      eapply touches_only_trans; [exact Ht1|apply touches_only_log].
  - intros path. unfold test_with_reference_audio.
    unfold bind at 1, zoom_snd at 1, client_logger at 1, modify.
    cbn [fst snd].
    match goal with
    | |- context [ClientEnv _ _ (client_log e ++ [?r])%list] =>
        change (ClientEnv (client_files e) (open_denied e)
                  (client_log e ++ [r])%list)
          with (client_add_log [r] e);
        set (e1 := client_add_log [r] e)
    end.
    assert (Ht1 : touches_only out e e1) by apply touches_only_log.
    assert (Hfail : forall ex records,
              exists c' e',
                test_handler "Error in test: " ex
                  (c, client_add_log records e1) = (Ok tt, (c', e'))
                /\ touches_only out e e'
                /\ (trace c' = trace c
                    \/ exists data frames rest,
                         client_files e !! path = Some data
                         /\ connection = Ok (frames ++ rest)%list
                         /\ trace c'
                            = (trace c
                               ++ Sent (reference_request text
                                          (b64encode data) language)
                               :: map Received frames)%list)).
    { intros ex records. rewrite test_handler_run.
      do 2 eexists. split; [reflexivity|]. split; [|now left].
      eapply touches_only_trans; [exact Ht1|].
      eapply touches_only_trans; apply touches_only_log. }
    unfold try_except at 1. unfold bind at 1, zoom_snd at 1.
    unfold _encode_audio_file, try_except, bind, read_file, ret.
    cbn [fst snd]. change (open_denied e1) with (open_denied e).
    change (client_files e1) with (client_files e).
    destruct (open_denied e path).
    + rewrite isinstance_Exception.
      unfold client_logger, modify, raise. cbn [fst snd].
      apply (Hfail _ [Log ERROR _]).
    + destruct (client_files e !! path) as [data|] eqn:Hfile.
      * cbn [fst snd]. unfold lift.
        destruct connection as [incoming|ex].
        -- destruct (tts_session_run
                       (reference_request text (b64encode data) language)
                       "TTS request with reference audio sent"
                       "TTS generation with reference audio successful!" out
                       incoming c e1) as (c' & e' & Hrun & Ht & Htrace).
           unfold try_except in Hrun.
           exists c', e'. split; [exact Hrun|]. split.
           ++ eapply touches_only_trans; [exact Ht1|exact Ht].
           ++ destruct Htrace as [Hsame|(frames & rest & Hsplit & Htr)];
                [now left|right].
              exists data, frames, rest. now rewrite Hsplit.
        -- rewrite <- (client_add_log_nil e1). apply Hfail.
      * rewrite isinstance_Exception.
        unfold client_logger, modify, raise. cbn [fst snd].
        apply (Hfail _ [Log ERROR _]).
Qed.

(** X14. Each of the two TTS tests always ends normally, whatever frames
    the server delivers before the connection closes and however the
    connection fails. It changes no file but its output file, only adds
    to the log, and either sends nothing (the reference file cannot be
    read, [connect] fails, or the peer is gone) or sends its one request
    and then only reads frames. The reference test sends the base64 text
    of the reference file's bytes. *)
Theorem tts_tests_end_normally_and_touch_only_output
    (text language out : string) (connection : result (list string))
    (c : conn) (e : client_env) :
  (exists c' e',
     test_basic_tts text language out connection (c, e) = (Ok tt, (c', e'))
     /\ touches_only out e e'
     /\ (trace c' = trace c
         \/ exists frames rest,
              connection = Ok (frames ++ rest)%list
              /\ trace c'
                 = (trace c ++ Sent (basic_request text language)
                      :: map Received frames)%list))
  /\ forall reference_audio_path,
       exists c' e',
         test_with_reference_audio text reference_audio_path language out
           connection (c, e) = (Ok tt, (c', e'))
         /\ touches_only out e e'
         /\ (trace c' = trace c
             \/ exists data frames rest,
                  client_files e !! reference_audio_path = Some data
                  /\ connection = Ok (frames ++ rest)%list
                  /\ trace c'
                     = (trace c
                        ++ Sent (reference_request text (b64encode data)
                                   language)
                        :: map Received frames)%list).
Proof. apply tts_tests_run. Qed.


Lemma hoare_try_except {St A} (I : St -> Prop) (m : M St A)
    (h : exn -> M St A) (Q : result A -> St -> Prop) :
  hoare I m (fun _ s => I s) ->
  (forall a s, I s -> Q (Ok a) s) ->
  (forall ex, hoare I (h ex) Q) ->
  hoare I (try_except m h) Q.
Proof.
  intros Hm Hok Hh s Hs. unfold try_except. specialize (Hm s Hs).
  destruct (m s) as [[a|ex] s1]; cbn [fst snd] in *.
  - now apply Hok.
  - now apply Hh.
Qed.

Lemma log_inv_step (e : client_env) (c c' : conn) (e0 : client_env)
    (records : list log_record) :
  log_inv e (c, e0) -> log_inv e (c', client_add_log records e0).
Proof.
  intros [r0 H0]. cbn [snd] in H0. subst e0. exists (r0 ++ records)%list.
  cbn [snd]. apply client_add_log_app.
Qed.

Lemma hoare_log_logger (e : client_env) (level : log_level) (msg : string) :
  hoare (log_inv e) (zoom_snd (client_logger level msg))
    (fun _ s => log_inv e s).
Proof. intros [c e0] Hs. exact (log_inv_step e c c e0 [Log level msg] Hs). Qed.

Lemma hoare_log_send (e : client_env) (msg : value) :
  hoare (log_inv e) (websocket_send msg) (fun _ s => log_inv e s).
Proof.
  intros [c e0] Hs. unfold websocket_send. cbn [fst snd].
  destruct (send_budget c) as [[|n]|]; cbn [fst snd]; destruct Hs as [r Hr];
    exists r; exact Hr.
Qed.

Lemma hoare_log_recv (e : client_env) (incoming : list string) :
  hoare (log_inv e) (recv incoming) (fun _ s => log_inv e s).
Proof.
  intros [c e0] Hs. destruct incoming as [|frame rest]; [exact Hs|].
  destruct Hs as [r Hr]. exists r. exact Hr.
Qed.

Lemma hoare_log_handler (e : client_env) (label : string) (ex : exn) :
  hoare (log_inv e) (test_handler label ex)
    (fun r s => r = Ok tt /\ log_inv e s).
Proof.
  intros [c e0] Hs. rewrite test_handler_run. cbn [fst snd].
  split; [reflexivity|]. now apply (log_inv_step e c c e0).
Qed.

(** The two probes always end normally and only add to the log. *)
Lemma probe_tests_run (connection : result (list string)) (c : conn)
    (e : client_env) :
  (exists c' records,
     test_ping connection (c, e) = (Ok tt, (c', client_add_log records e)))
  /\ exists c' records,
       test_server_info connection (c, e)
       = (Ok tt, (c', client_add_log records e)).
Proof.
  assert (Hend : forall (m : M (conn * client_env) unit) label first,
            hoare (log_inv e) m (fun _ s => log_inv e s) ->
            exists c' records,
              try_except m (test_handler label)
                (c, client_add_log [first] e)
              = (Ok tt, (c', client_add_log records e))).
  { intros m label first Hm.
    pose proof (hoare_try_except (log_inv e) m (test_handler label)
                  (fun r s => r = Ok tt /\ log_inv e s) Hm
                  (fun a s Hs => conj (match a with tt => eq_refl end) Hs)
                  (hoare_log_handler e label)
                  (c, client_add_log [first] e)
                  (ex_intro _ [first] eq_refl)) as H.
    destruct (try_except m (test_handler label) (c, client_add_log [first] e))
      as [r [c' e']].
    cbn [fst snd] in H. destruct H as [-> [records Hr]]. cbn [snd] in Hr.
    subst e'. now exists c', records. }
  split.
  - unfold test_ping. unfold bind at 1, zoom_snd at 1, client_logger at 1,
      modify. cbn [fst snd].
    apply (Hend _ "Error in ping test: " (Log INFO "Testing server ping")).
    apply hoare_bind_inv; [apply hoare_lift_inv|intros incoming].
    apply hoare_bind_inv; [apply hoare_log_send|intros _].
    apply hoare_bind_inv; [apply hoare_log_logger|intros _].
    apply hoare_bind_inv; [apply hoare_log_recv|intros response].
    apply hoare_bind_inv; [apply hoare_lift_inv|intros response_data].
    apply hoare_bind_inv; [apply hoare_lift_inv|intros type].
    destruct (value_is_str "pong" type); [apply hoare_log_logger|].
    apply hoare_bind_inv; [apply hoare_lift_inv|intros type'].
    apply hoare_log_logger.
  - unfold test_server_info. unfold bind at 1, zoom_snd at 1,
      client_logger at 1, modify. cbn [fst snd].
    apply (Hend _ "Error in server info test: "
             (Log INFO "Testing server info")).
    apply hoare_bind_inv; [apply hoare_lift_inv|intros incoming].
    apply hoare_bind_inv; [apply hoare_log_recv|intros response].
    apply hoare_bind_inv; [apply hoare_lift_inv|intros response_data].
    apply hoare_bind_inv; [apply hoare_lift_inv|intros type].
    destruct (value_is_str "server_info" type).
    + apply hoare_bind_inv; [apply hoare_lift_inv|intros data].
      apply hoare_bind_inv; [apply hoare_log_logger|intros _].
      apply hoare_bind_inv; [apply hoare_lift_inv|intros message].
      apply hoare_bind_inv; [apply hoare_log_logger|intros _].
      apply hoare_bind_inv; [apply hoare_lift_inv|intros languages].
      apply hoare_bind_inv; [apply hoare_log_logger|intros _].
      apply hoare_bind_inv; [apply hoare_lift_inv|intros default_language].
      apply hoare_bind_inv; [apply hoare_log_logger|intros _].
      apply hoare_bind_inv; [apply hoare_lift_inv|intros device].
      apply hoare_log_logger.
    + apply hoare_bind_inv; [apply hoare_lift_inv|intros type'].
      apply hoare_log_logger.
Qed.

Lemma touches_two_refl (o1 o2 : string) (e : client_env) :
  touches_two o1 o2 e e.
Proof.
  split; [reflexivity|]. split; [|reflexivity].
  exists []. now rewrite app_nil_r.
Qed.

Lemma touches_two_trans (o1 o2 : string) (e1 e2 e3 : client_env) :
  touches_two o1 o2 e1 e2 -> touches_two o1 o2 e2 e3 ->
  touches_two o1 o2 e1 e3.
Proof.
  intros (Hd1 & [r1 Hl1] & Hf1) (Hd2 & [r2 Hl2] & Hf2).
  split; [now rewrite Hd2|]. split.
  - exists (r1 ++ r2)%list. now rewrite Hl2, Hl1, app_assoc.
  - intros p Hp1 Hp2. now rewrite (Hf2 p Hp1 Hp2), (Hf1 p Hp1 Hp2).
Qed.

Lemma touches_two_log (o1 o2 : string) (records : list log_record)
    (e : client_env) :
  touches_two o1 o2 e (client_add_log records e).
Proof.
  split; [reflexivity|]. split; [|reflexivity]. now exists records.
Qed.

Lemma touches_two_left (o1 o2 : string) (e e' : client_env) :
  touches_only o1 e e' -> touches_two o1 o2 e e'.
Proof.
  intros (Hd & Hl & Hf). split; [exact Hd|]. split; [exact Hl|].
  intros p Hp _. now apply Hf.
Qed.

Lemma touches_two_right (o1 o2 : string) (e e' : client_env) :
  touches_only o2 e e' -> touches_two o1 o2 e e'.
Proof.
  intros (Hd & Hl & Hf). split; [exact Hd|]. split; [exact Hl|].
  intros p _ Hp. now apply Hf.
Qed.

(** ** The command-line driver *)

(** X15. [main] cannot fail and cannot tell whether a test failed: whatever
    test is selected, whatever the four connections deliver before they
    close and whatever the file system allows, it returns normally (an
    interruption by the user, which is no [Exception], is not modelled),
    its first log line is "Starting tests against server: ..." and its
    last one is "All tests completed!". It changes no file other than
    the output file and the output file of the reference test. *)
Theorem main_always_reports_completion
    (args : client_args) (basic reference ping info : link)
    (e : client_env) :
  exists records e',
    main args basic reference ping info e = (Ok tt, e')
    /\ client_log e'
       = (client_log e
          ++ Log INFO ("Starting tests against server: " ++ args_uri args)
          :: records ++ [Log INFO "All tests completed!"])%list
    /\ open_denied e' = open_denied e
    /\ forall p,
         p <> args_output args -> p <> "ref_" ++ args_output args ->
         client_files e' !! p = client_files e !! p.
Proof.
  set (o1 := args_output args). set (o2 := "ref_" ++ args_output args).
  set (R := touches_two o1 o2).
  assert (Hbasic : forall e0, exists e1,
            over basic (test_basic_tts (args_text args) (args_language args)
                          (args_output args)) e0 = (Ok tt, e1)
            /\ R e0 e1).
  { intros e0. unfold over, with_local.
    destruct (proj1 (tts_tests_run (args_text args) (args_language args) o1
                       (link_frames basic) (Conn [] (link_budget basic)) e0))
      as (c' & e1 & Hrun & Ht & _).
    fold o1. rewrite Hrun. exists e1. split; [reflexivity|].
    now apply touches_two_left. }
  assert (Hreference : forall path e0, exists e1,
            over reference
              (test_with_reference_audio (args_text args) path
                 (args_language args) ("ref_" ++ args_output args)) e0
            = (Ok tt, e1)
            /\ R e0 e1).
  { intros path e0. unfold over, with_local.
    destruct (proj2 (tts_tests_run (args_text args) (args_language args) o2
                       (link_frames reference)
                       (Conn [] (link_budget reference)) e0) path)
      as (c' & e1 & Hrun & Ht & _).
    fold o2. rewrite Hrun. exists e1. split; [reflexivity|].
    now apply touches_two_right. }
  assert (Hping : forall e0, exists e1,
            over ping test_ping e0 = (Ok tt, e1) /\ R e0 e1).
  { intros e0. unfold over, with_local.
    destruct (proj1 (probe_tests_run (link_frames ping)
                       (Conn [] (link_budget ping)) e0))
      as (c' & records & Hrun).
    rewrite Hrun. eexists. split; [reflexivity|]. apply touches_two_log. }
  assert (Hinfo : forall e0, exists e1,
            over info test_server_info e0 = (Ok tt, e1) /\ R e0 e1).
  { intros e0. unfold over, with_local.
    destruct (proj2 (probe_tests_run (link_frames info)
                       (Conn [] (link_budget info)) e0))
      as (c' & records & Hrun).
    rewrite Hrun. eexists. split; [reflexivity|]. apply touches_two_log. }
  assert (Hskip : forall e0 : client_env, exists e1,
            ret (St := client_env) tt e0 = (Ok tt, e1) /\ R e0 e1).
  { intros e0. exists e0. split; [reflexivity|apply touches_two_refl]. }
  assert (Hwarn : forall msg (e0 : client_env), exists e1,
            client_logger WARNING msg e0 = (Ok tt, e1) /\ R e0 e1).
  { intros msg e0. eexists. split; [reflexivity|].
    exact (touches_two_log o1 o2 [Log WARNING msg] e0). }
  unfold main. unfold bind at 1, client_logger at 1, modify.
  set (e0 := ClientEnv (client_files e) (open_denied e)
               (client_log e
                ++ [Log INFO ("Starting tests against server: "
                              ++ args_uri args)])%list).
  unfold try_except.
  set (step1 := if selected TestBasic (args_test args) then _ else _).
  set (step2 := if selected TestReference (args_test args) then _ else _).
  set (step3 := if selected TestPing (args_test args) then _ else _).
  set (step4 := if selected TestInfo (args_test args) then _ else _).
  assert (H1 : forall e0, exists e1, step1 e0 = (Ok tt, e1) /\ R e0 e1).
  { intros x. unfold step1.
    destruct (selected TestBasic (args_test args));
      [apply Hbasic|apply Hskip]. }
  assert (H2 : forall e0, exists e1, step2 e0 = (Ok tt, e1) /\ R e0 e1).
  { intros x. unfold step2.
    destruct (selected TestReference (args_test args)); [|apply Hskip].
    destruct (args_reference_audio args) as [path|]; [|apply Hwarn].
    destruct (truthy (VStr path)); [apply Hreference|apply Hwarn]. }
  assert (H3 : forall e0, exists e1, step3 e0 = (Ok tt, e1) /\ R e0 e1).
  { intros x. unfold step3.
    destruct (selected TestPing (args_test args)); [apply Hping|apply Hskip]. }
  assert (H4 : forall e0, exists e1, step4 e0 = (Ok tt, e1) /\ R e0 e1).
  { intros x. unfold step4.
    destruct (selected TestInfo (args_test args)); [apply Hinfo|apply Hskip]. }
  clearbody step1 step2 step3 step4.
  destruct (H1 e0) as (e1 & Hr1 & Ht1).
  destruct (H2 e1) as (e2 & Hr2 & Ht2).
  destruct (H3 e2) as (e3 & Hr3 & Ht3).
  destruct (H4 e3) as (e4 & Hr4 & Ht4).
  unfold bind. rewrite Hr1, Hr2, Hr3, Hr4.
  assert (Ht : R e0 e4).
  { eapply touches_two_trans; [exact Ht1|].
    eapply touches_two_trans; [exact Ht2|].
    eapply touches_two_trans; [exact Ht3|exact Ht4]. }
  destruct Ht as (Hd & [records Hl] & Hf).
  exists records. eexists. split; [reflexivity|].
  unfold client_logger, modify. cbn [client_log open_denied client_files].
  split; [|split].
  - rewrite Hl. unfold e0. cbn [client_log].
    rewrite <- !app_assoc. reflexivity.
  - exact Hd.
  - intros p Hp1 Hp2. exact (Hf p Hp1 Hp2).
Qed.

(** ** The tests against this server *)

(** X16. The ping test against this server reports a failure although the
    server answers the ping. The server greets every connection before it
    reads a frame, so its frames on a connection that carries one ping are
    the greeting and then the pong; [test_ping] reads one frame only, finds
    the greeting and logs "Unexpected response to ping: server_info". *)
Theorem ping_test_reads_greeting_instead_of_pong
    (client_addr frame w : string) (rest : list string)
    (e : env) (ce : client_env) :
  json_loads frame = Ok (message "ping" []) ->
  json_loads w = Ok welcome_msg ->
  handle_client client_addr [frame] false (Conn [] None, e)
  = (Ok tt,
     (Conn [Sent welcome_msg; Received frame; Sent pong_response] None,
      add_log [Log INFO ("Client connected: " ++ client_addr)] e))
  /\ test_ping (Ok (w :: rest)) (Conn [] None, ce)
     = (Ok tt,
        (Conn [Sent (message "ping" []); Received w] None,
         client_add_log
           [ Log INFO "Testing server ping";
             Log INFO "Ping sent";
             Log ERROR "Unexpected response to ping: server_info" ] ce)).
Proof.
  intros Hframe Hw. split.
  - unfold handle_client. unfold bind at 1, zoom_snd at 1, logger at 1, modify.
    cbn [fst snd]. unfold try_except.
    unfold bind at 1, websocket_send at 1. cbn [fst snd send_budget trace].
    cbn [message_loop]. unfold bind at 1, websocket_recv at 1.
    cbn [fst snd send_budget trace]. unfold bind at 1.
    rewrite handle_message_open by reflexivity. rewrite Hframe.
    reflexivity.
  - destruct ce as [F d lg]. unfold test_ping. run_client. rewrite Hw.
    unfold welcome_msg, message. cbn. rewrite <- !app_assoc. reflexivity.
Qed.

(** The wait loop on frames of which the first ones are no
    [tts_response]. *)
Lemma await_tts_response_skip (skipped : list string)
    (msgs : list (list (string * value))) :
  Forall2 (fun f m =>
             json_loads f = Ok (VDict m)
             /\ value_is_str "tts_response" (get_or "type" VNone m) = false)
    skipped msgs ->
  forall (c : conn) (e : client_env),
    (forall r d later,
       json_loads r = Ok (VDict d) ->
       value_is_str "tts_response" (get_or "type" VNone d) = true ->
       await_tts_response (skipped ++ r :: later) (c, e)
       = (Ok (VDict d),
          (after (map Received (skipped ++ [r])) (send_budget c) c,
           client_add_log (map skip_record msgs) e)))
    /\ await_tts_response skipped (c, e)
       = (Raise (Exn ConnectionClosed "no close frame received or sent"),
          (after (map Received skipped) (send_budget c) c,
           client_add_log (map skip_record msgs) e)).
Proof.
  induction 1 as [|f m skipped msgs [Hf Hm] Hrest IH]; intros c e.
  - cbn [map app]. rewrite client_add_log_nil. split.
    + intros r d later Hr Hd. cbn [await_tts_response].
      unfold bind at 1, websocket_recv. cbn [fst snd].
      unfold bind at 1, lift. rewrite Hr.
      unfold bind at 1. rewrite py_get_dict, Hd. reflexivity.
    + cbn [await_tts_response]. unfold raise, after.
      rewrite app_nil_r. now destruct c.
  - set (c1 := Conn (trace c ++ [Received f]) (send_budget c)).
    assert (Hstep : forall rest,
              await_tts_response (f :: rest) (c, e)
              = await_tts_response rest
                  (c1, client_add_log [skip_record m] e)).
    { intros rest. cbn [await_tts_response].
      unfold bind at 1, websocket_recv. cbn [fst snd]. fold c1.
      unfold bind at 1, lift. rewrite Hf.
      unfold bind at 1. rewrite py_get_dict, Hm.
      unfold bind at 1. unfold skip_record.
      destruct (value_is_str "server_info" (get_or "type" VNone m)).
      - reflexivity.
      - reflexivity. }
    assert (Hafter : forall events,
              after events (send_budget c1) c1
              = after (Received f :: events) (send_budget c) c).
    { intros events. unfold after, c1. cbn [trace send_budget].
      now rewrite <- app_assoc. }
    destruct (IH c1 (client_add_log [skip_record m] e)) as [IH1 IH2].
    split.
    + intros r d later Hr Hd. cbn [app]. rewrite Hstep.
      rewrite (IH1 r d later Hr Hd), Hafter, client_add_log_app.
      reflexivity.
    + rewrite Hstep, IH2, Hafter, client_add_log_app. reflexivity.
Qed.

(** X17. The wait loop of a TTS test passes over every frame that is not a
    [tts_response], logging one line for each ("Received server info,
    waiting for TTS response..." for a [server_info], a warning with the
    type otherwise), and returns the first [tts_response] without reading
    what follows. When the server closes before any [tts_response], the
    loop raises [ConnectionClosed] after the same lines. *)
Theorem wait_loop_returns_first_tts_response
    (skipped : list string) (msgs : list (list (string * value)))
    (c : conn) (e : client_env) :
  Forall2 (fun f m =>
             json_loads f = Ok (VDict m)
             /\ value_is_str "tts_response" (get_or "type" VNone m) = false)
    skipped msgs ->
  (forall r d later,
     json_loads r = Ok (VDict d) ->
     value_is_str "tts_response" (get_or "type" VNone d) = true ->
     await_tts_response (skipped ++ r :: later) (c, e)
     = (Ok (VDict d),
        (after (map Received (skipped ++ [r])) (send_budget c) c,
         client_add_log (map skip_record msgs) e)))
  /\ await_tts_response skipped (c, e)
     = (Raise (Exn ConnectionClosed "no close frame received or sent"),
        (after (map Received skipped) (send_budget c) c,
         client_add_log (map skip_record msgs) e)).
Proof. intros H. now apply await_tts_response_skip. Qed.

(** X18. A reference file that is missing or cannot be opened ends the
    reference test before it connects: nothing is sent or read, no file
    is changed, and the failure is logged twice, by [_encode_audio_file]
    and by the test. *)
Theorem unreadable_reference_sends_nothing
    (text path language out : string) (connection : result (list string))
    (c : conn) (e : client_env) :
  open_denied e path = true \/ client_files e !! path = None ->
  let reason :=
    open_error (if open_denied e path then "[Errno 13] Permission denied"
                else "[Errno 2] No such file or directory") path in
  test_with_reference_audio text path language out connection (c, e)
  = (Ok tt,
     (c, client_add_log
           [ Log INFO ("Testing TTS with reference audio: " ++ path);
             Log ERROR ("Failed to encode audio file: " ++ reason);
             Log ERROR ("Error in test: " ++ reason) ] e)).
Proof.
  intros Hbad reason. subst reason.
  unfold test_with_reference_audio.
  unfold bind at 1, zoom_snd at 1, client_logger at 1, modify.
  cbn [fst snd]. unfold try_except at 1. unfold bind at 1, zoom_snd at 1.
  unfold _encode_audio_file, try_except, bind, read_file, ret.
  cbn [fst snd open_denied client_files].
  destruct (open_denied e path) eqn:Hd.
  - cbn. unfold client_add_log. cbn. now rewrite <- !app_assoc.
  - destruct Hbad as [Hbad|Hbad]; [discriminate|]. rewrite Hbad.
    cbn. unfold client_add_log. cbn. now rewrite <- !app_assoc.
Qed.


(** X19. The numeric parameters that the two TTS tests send (exaggeration 0.5,
    or 0.7 with reference audio, temperature 0.8, cfg_weight 0.5) lie
    inside the server's ranges: the validator rejects a test's
    configuration only for its language, and otherwise returns it
    completed with repetition_penalty 2.0, min_p 0.05 and top_p 1.0, the
    language being as the client wrote it. *)
Theorem client_parameters_within_server_ranges
    {St : Type} (with_reference : bool) (text audio language : string)
    (st : St) :
  let config :=
    [ ("language_id", VStr language);
      ("exaggeration",
       VFloat (FFinite (if with_reference then f0_7 else f0_5)));
      ("temperature", VFloat (FFinite f0_8));
      ("cfg_weight", VFloat (FFinite f0_5)) ] in
  (if with_reference then reference_request text audio language
   else basic_request text language)
  = message "tts_request"
      (("text", VStr text)
       :: (if with_reference then [("reference_audio", VStr audio)] else [])
       ++ [("config", VDict config)])%list
  /\ _validate_config (VDict config) st
     = (if supported (lower language)
        then Ok (VDict (config
                        ++ [ ("repetition_penalty", VFloat (FFinite f2_0));
                             ("min_p", VFloat (FFinite f0_05));
                             ("top_p", VFloat (FFinite f1_0)) ])%list)
        else Raise (unsupported_language (lower language)), st).
Proof.
  intros config. split; [now destruct with_reference|].
  destruct (supported (lower language)) eqn:Hs.
  - rewrite validate_config_eq by (unfold language_ok; cbn; exact Hs).
    now destruct with_reference.
  - apply (validate_config_language config language st eq_refl). exact Hs.
Qed.


(** ** Client and server together *)

Lemma encode_audio_ok_inv (audio_tensor : tensor) (sample_rate : Z)
    (e e' : env) (text : string) :
  _encode_audio audio_tensor sample_rate e = (Ok text, e') ->
  exists audio_np wav,
    to_numpy audio_tensor = Ok audio_np
    /\ torchaudio_save audio_np sample_rate = Ok wav
    /\ text = b64encode wav.
Proof.
  rewrite encode_audio_full. cbv zeta.
  destruct (to_numpy audio_tensor) as [audio_np|ex]; [|discriminate].
  destruct (torchaudio_save audio_np sample_rate) as [wav|ex] eqn:Hwav.
  - intros H. exists audio_np, wav. split; [reflexivity|].
    split; [exact Hwav|].
    destruct (unlink_denied e (fresh (dom (files e)))); now inversion H.
  - destruct (unlink_denied e (fresh (dom (files e)))); discriminate.
Qed.

Lemma encode_audio_success (audio_tensor audio_np : tensor)
    (sample_rate : Z) (wav : list byte) (e : env) :
  to_numpy audio_tensor = Ok audio_np ->
  torchaudio_save audio_np sample_rate = Ok wav ->
  exists e',
    _encode_audio audio_tensor sample_rate e = (Ok (b64encode wav), e')
    /\ model_calls e' = model_calls e.
Proof.
  intros Hnp Hwav. rewrite encode_audio_full. cbv zeta. rewrite Hnp, Hwav.
  destruct (unlink_denied e (fresh (dom (files e)))); eexists;
    (split; [reflexivity|reflexivity]).
Qed.

Lemma save_audio_ok (s : string) (data : list byte) (out : string)
    (e : client_env) :
  b64decode s = Ok data ->
  open_denied e out = false ->
  _save_audio (VStr s) out e
  = (Ok tt,
     ClientEnv (<[out := data]> (client_files e)) (open_denied e)
       (client_log e ++ [Log INFO ("Audio saved to: " ++ out)])%list).
Proof.
  intros Hs Hd. destruct e as [F d lg].
  cbn [open_denied client_files client_log] in *.
  unfold _save_audio. run_client. rewrite Hs, Hd.
  now rewrite insert_insert_eq.
Qed.

Lemma encode_audio_file_ok (path : string) (data : list byte)
    (e : client_env) :
  client_files e !! path = Some data ->
  open_denied e path = false ->
  _encode_audio_file path e = (Ok (b64encode data), e).
Proof.
  intros Hf Hd. destruct e as [F d lg].
  cbn [open_denied client_files client_log] in *.
  unfold _encode_audio_file. run_client. now rewrite Hd, Hf.
Qed.

Lemma b64encode_nonempty (data : list byte) :
  data <> [] -> b64encode data <> "".
Proof.
  destruct data as [|a [|b [|c rest]]]; [congruence| | |]; intros _;
    cbn [b64encode]; unfold sextets1, sextets2, sextets3; discriminate.
Qed.

Lemma basic_request_processed (text text' language : string)
    (t audio_np : tensor) (wav : list byte) (e : env) :
  let config :=
    [ ("language_id", VStr language);
      ("exaggeration", VFloat (FFinite f0_5));
      ("temperature", VFloat (FFinite f0_8));
      ("cfg_weight", VFloat (FFinite f0_5)) ] in
  let args :=
    GenerateArgs text' (VStr language) None
      (VFloat (FFinite f0_5)) (VFloat (FFinite f0_8))
      (VFloat (FFinite f0_5)) (VFloat (FFinite f2_0))
      (VFloat (FFinite f0_05)) (VFloat (FFinite f1_0)) in
  text' = (if (500 <? String.length text)%nat then slice_to 500 text
           else text) ->
  strip text <> "" ->
  supported (lower language) = true ->
  model_generate args = Ok t ->
  to_numpy t = Ok audio_np ->
  torchaudio_save audio_np model_sr = Ok wav ->
  exists e',
    process_tts_request
      (VDict [("text", VStr text); ("config", VDict config)]) e
    = (Ok (tts_success (b64encode wav) (VStr language)), e')
    /\ model_calls e' = (model_calls e ++ [args])%list.
Proof.
  intros config args Htext Hs Hlang Hgen Hnp Hwav.
  set (data := VDict [("text", VStr text); ("config", VDict config)]).
  set (full := (config
                ++ [ ("repetition_penalty", VFloat (FFinite f2_0));
                     ("min_p", VFloat (FFinite f0_05));
                     ("top_p", VFloat (FFinite f1_0)) ])%list).
  assert (Hval : forall s : option nat * env,
            _validate_config (VDict config) s = (Ok (VDict full), s)).
  { intros s.
    rewrite validate_config_eq by (unfold language_ok; cbn; exact Hlang).
    reflexivity. }
  assert (Hsynth : forall e1, exists e2,
            synthesize data text' (None, e1)
            = (Ok (tts_success (b64encode wav) (VStr language)), (None, e2))
            /\ model_calls e2 = (model_calls e1 ++ [args])%list).
  { intros e1.
    set (e3 := Env (files e1) (unlink_denied e1)
                 (log e1
                  ++ [Log INFO
                        ("Generating TTS for text: '" ++ slice_to 50 text'
                         ++ "...' in language: " ++ language)])%list
                 (model_calls e1 ++ [args])%list).
    destruct (encode_audio_success t audio_np model_sr wav e3 Hnp Hwav)
      as (e4 & Henc & Hcalls).
    exists e4. split; [|exact Hcalls].
    unfold synthesize.
    change (py_get data "config" (VDict [])) with (Ok (VDict config)).
    unfold bind at 1, lift at 1. unfold bind at 1. rewrite Hval.
    transitivity
      ((audio_tensor <- lift (model_generate args);;
        audio_base64 <- zoom_snd (_encode_audio audio_tensor model_sr);;
        zoom_snd (unlink_reference None);;
        language0 <- lift (py_getitem (VDict full) "language_id");;
        ret (tts_success audio_base64 language0))
         (None : option nat, e3));
      [reflexivity|].
    unfold bind at 1, lift at 1. rewrite Hgen.
    unfold bind at 1, zoom_snd at 1. cbn [fst snd]. rewrite Henc.
    reflexivity. }
  set (e1 := if (500 <? String.length text)%nat
             then add_log [Log WARNING "Text truncated to 500 characters"] e
             else e).
  assert (Hv : validated_text data (None, e) = (Ok text', (None, e1))).
  { unfold data.
    rewrite (validated_text_ok
               [("text", VStr text); ("config", VDict config)] text None e
               eq_refl Hs).
    rewrite Htext. unfold e1.
    destruct (500 <? String.length text)%nat; reflexivity. }
  assert (He1 : model_calls e1 = model_calls e).
  { unfold e1. destruct (500 <? String.length text)%nat; reflexivity. }
  destruct (Hsynth e1) as (e2 & Hrun & Hcalls).
  exists e2. split; [|now rewrite Hcalls, He1].
  unfold process_tts_request, with_local, try_except,
    process_tts_request_body.
  unfold bind at 1. rewrite Hv, Hrun. reflexivity.
Qed.

(** A basic TTS test against this server, frame by frame. *)
Lemma basic_tts_session (client_addr text text' language out : string)
    (request_frame greeting_frame response_frame : string)
    (t audio_np : tensor) (wav : list byte) (e : env) (ce : client_env) :
  let args :=
    GenerateArgs text' (VStr language) None
      (VFloat (FFinite f0_5)) (VFloat (FFinite f0_8))
      (VFloat (FFinite f0_5)) (VFloat (FFinite f2_0))
      (VFloat (FFinite f0_05)) (VFloat (FFinite f1_0)) in
  let response := tts_success (b64encode wav) (VStr language) in
  text' = (if (500 <? String.length text)%nat then slice_to 500 text
           else text) ->
  strip text <> "" ->
  supported (lower language) = true ->
  model_generate args = Ok t ->
  to_numpy t = Ok audio_np ->
  torchaudio_save audio_np model_sr = Ok wav ->
  wav <> [] ->
  b64decode (b64encode wav) = Ok wav ->
  json_loads request_frame = Ok (basic_request text language) ->
  json_loads greeting_frame = Ok welcome_msg ->
  json_loads response_frame = Ok response ->
  open_denied ce out = false ->
  (exists e',
     handle_client client_addr [request_frame] false (Conn [] None, e)
     = (Ok tt,
        (Conn [Sent welcome_msg; Received request_frame; Sent response] None,
         e'))
     /\ model_calls e' = (model_calls e ++ [args])%list)
  /\ test_basic_tts text language out
       (Ok [greeting_frame; response_frame]) (Conn [] None, ce)
     = (Ok tt,
        (Conn [ Sent (basic_request text language);
                Received greeting_frame; Received response_frame ] None,
         ClientEnv (<[out := wav]> (client_files ce)) (open_denied ce)
           (client_log ce
            ++ [ Log INFO ("Testing TTS with text: '" ++ text
                           ++ "' in language: " ++ language);
                 Log INFO "TTS request sent";
                 Log INFO "Received server info, waiting for TTS response...";
                 Log INFO "TTS generation successful!";
                 Log INFO ("Sample rate: " ++ py_str (VInt model_sr));
                 Log INFO ("Language: " ++ language);
                 Log INFO ("Audio saved to: " ++ out) ])%list)).
Proof.
  intros args response Htext Hs Hlang Hgen Hnp Hwav Hne Hround Hreq Hgreet
    Hresp Hout.
  split.
  - set (e0 := add_log [Log INFO ("Client connected: " ++ client_addr)] e).
    destruct (basic_request_processed text text' language t audio_np wav e0
                Htext Hs Hlang Hgen Hnp Hwav) as (e' & Hrun & Hcalls).
    exists e'. split; [|exact Hcalls].
    unfold handle_client. unfold bind at 1, zoom_snd at 1, logger at 1, modify.
    cbn [fst snd]. fold e0. unfold try_except.
    unfold bind at 1, websocket_send at 1. cbn [fst snd send_budget trace].
    cbn [message_loop]. unfold bind at 1, websocket_recv at 1.
    cbn [fst snd send_budget trace]. unfold bind at 1.
    rewrite handle_message_open by reflexivity. rewrite Hreq.
    unfold basic_request, message.
    change (value_is_str "tts_request"
              (get_or "type" VNone
                 [("type", VStr "tts_request");
                  ("data",
                   VDict
                     [("text", VStr text);
                      ("config",
                       VDict
                         [("language_id", VStr language);
                          ("exaggeration", VFloat (FFinite f0_5));
                          ("temperature", VFloat (FFinite f0_8));
                          ("cfg_weight", VFloat (FFinite f0_5))])])]))
      with true.
    cbv iota.
    change (get_or "data" (VDict []) _)
      with (VDict
              [("text", VStr text);
               ("config",
                VDict
                  [("language_id", VStr language);
                   ("exaggeration", VFloat (FFinite f0_5));
                   ("temperature", VFloat (FFinite f0_8));
                   ("cfg_weight", VFloat (FFinite f0_5))])]).
    rewrite Hrun. reflexivity.
  - destruct ce as [F d lg]. cbn [open_denied client_files client_log] in *.
    unfold test_basic_tts.
    unfold bind at 1, zoom_snd at 1, client_logger at 1, modify.
    cbn [fst snd client_files open_denied client_log].
    unfold try_except. unfold bind at 1, lift at 1.
    unfold bind at 1, websocket_send at 1. cbn [fst snd send_budget trace].
    unfold bind at 1, zoom_snd at 1, client_logger at 1, modify.
    cbn [fst snd client_files open_denied client_log].
    unfold bind at 1.
    change [greeting_frame; response_frame]
      with ([greeting_frame] ++ response_frame :: [])%list.
    assert (Hskip : Forall2
              (fun f m =>
                 json_loads f = Ok (VDict m)
                 /\ value_is_str "tts_response" (get_or "type" VNone m)
                    = false)
              [greeting_frame]
              [[ ("type", VStr "server_info");
                 ("data",
                  VDict
                    [ ("message", VStr "Chatterbox TTS WebSocket Server");
                      ("supported_languages",
                       VList (map VStr (map fst SUPPORTED_LANGUAGES)));
                      ("default_language", VStr "es");
                      ("device", VStr self_device) ]) ]]).
    { constructor; [|constructor]. split; [exact Hgreet|reflexivity]. }
    rewrite (proj1 (await_tts_response_skip _ _ Hskip _ _)
               response_frame _ [] Hresp eq_refl).
    unfold report_tts_response.
    cbv [bind lift py_get py_getitem dict_get value_is_str String.eqb
         Ascii.eqb Bool.eqb tts_success message].
    assert (Htruthy : truthy (VStr (b64encode wav)) = true).
    { cbn [truthy].
      destruct (String.eqb_spec (b64encode wav) ""); [|reflexivity].
      now destruct (b64encode_nonempty wav Hne). }
    rewrite Htruthy.
    unfold zoom_snd, client_logger, modify. cbn [fst snd].
    rewrite (save_audio_ok _ wav out _ Hround) by exact Hout.
    unfold after, skip_record, client_add_log. cbn.
    rewrite <- !app_assoc. reflexivity.
Qed.




(** X20. The info test against this server logs what the server announces:
    its first frame on a connection is the greeting, and [test_server_info]
    logs the banner, the language list, the default language and the
    device of that greeting, sending nothing. *)
Theorem server_info_test_logs_greeting
    (w : string) (rest : list string) (c : conn) (ce : client_env) :
  json_loads w = Ok welcome_msg ->
  test_server_info (Ok (w :: rest)) (c, ce)
  = (Ok tt,
     (Conn (trace c ++ [Received w]) (send_budget c),
      client_add_log
        [ Log INFO "Testing server info";
          Log INFO "Server info received:";
          Log INFO "  Message: Chatterbox TTS WebSocket Server";
          Log INFO ("  Supported languages: "
                    ++ py_str (VList (map VStr
                                        (map fst SUPPORTED_LANGUAGES))));
          Log INFO "  Default language: es";
          Log INFO ("  Device: " ++ self_device) ] ce)).
Proof.
  intros Hw. destruct ce as [F d lg]. unfold test_server_info. run_client.
  rewrite Hw. unfold welcome_msg, message. cbn.
  rewrite <- !app_assoc. reflexivity.
Qed.

End Server.


(** ** Base64 *)

Module Base64Facts.

Example b64encode_ABC : b64encode ["A"%byte; "B"%byte; "C"%byte] = "QUJD".
Proof. reflexivity. Qed.

Example b64encode_padded :
  b64encode ["A"%byte] = "QQ==" /\ b64encode ["A"%byte; "B"%byte] = "QUI=".
Proof. split; reflexivity. Qed.

(** The decoder skips what is not in the alphabet and stops at a complete
    pad sequence. *)
Example b64decode_lenient :
  b64decode "Q Q = =" = Ok ["A"%byte]
  /\ b64decode "QQ==QUJD" = Ok ["A"%byte].
Proof. split; reflexivity. Qed.

Example b64decode_incorrect_padding :
  b64decode "QQ" = Raise (Exn BinasciiError "Incorrect padding").
Proof. reflexivity. Qed.

Lemma forall_below_spec (n : nat) (P : N -> bool) :
  forall_below n P = true -> forall x, (x < N.of_nat n)%N -> P x = true.
Proof.
  induction n as [|k IH]; simpl; intros H x Hx.
  - lia.
  - apply andb_prop in H as [Hk Hrest].
    destruct (N.eq_dec x (N.of_nat k)) as [->|Hne]; [exact Hk|].
    apply IH; [exact Hrest|lia].
Qed.

(** Every sextet is sent to an ASCII letter of the alphabet that is not the
    pad, and the decoding table sends it back. *)
Lemma b64_char_index (i : N) :
  (i < 64)%N ->
  b64_index (b64_char i) = Some i
  /\ Ascii.eqb (b64_char i) b64_pad = false
  /\ is_ascii (b64_char i) = true.
Proof.
  intros Hi.
  pose (P := fun i =>
    match b64_index (b64_char i) with
    | Some j => N.eqb j i
    | None => false
    end && negb (Ascii.eqb (b64_char i) b64_pad) && is_ascii (b64_char i)).
  assert (HP : P i = true).
  { apply (forall_below_spec 64); [vm_compute; reflexivity|exact Hi]. }
  unfold P in HP.
  apply andb_prop in HP as [HP H3]. apply andb_prop in HP as [H1 H2].
  destruct (b64_index (b64_char i)) as [j|]; [|discriminate].
  apply N.eqb_eq in H1. subst j.
  apply negb_true_iff in H2. auto.
Qed.

(** Splitting a byte into its high and low bits. *)
Lemma byte_parts (a : N) :
  (a < 256)%N ->
  (N.shiftr a 2 < 64 /\ N.land a 3 < 4 /\ N.shiftr a 4 < 16
   /\ N.land a 15 < 16 /\ N.shiftr a 6 < 4 /\ N.land a 63 < 64)%N.
Proof.
  intros Ha.
  pose (P := fun a =>
    (N.shiftr a 2 <? 64)%N && (N.land a 3 <? 4)%N && (N.shiftr a 4 <? 16)%N
    && (N.land a 15 <? 16)%N && (N.shiftr a 6 <? 4)%N && (N.land a 63 <? 64)%N).
  assert (HP : P a = true).
  { apply (forall_below_spec 256); [vm_compute; reflexivity|exact Ha]. }
  unfold P in HP.
  repeat (apply andb_prop in HP as [HP ?]).
  repeat match goal with H : (_ <? _)%N = true |- _ => apply N.ltb_lt in H end.
  tauto.
Qed.

(** First byte of a group: the first sextet and the top two bits of the
    second. *)
Lemma first_byte (a y : N) :
  (a < 256)%N -> (y < 16)%N ->
  let s2 := N.lor (N.shiftl (N.land a 3) 4) y in
  (s2 < 64)%N
  /\ N.lor (N.shiftl (N.shiftr a 2) 2) (N.shiftr s2 4) = a
  /\ N.land s2 15 = y.
Proof.
  intros Ha Hy.
  pose (P := fun a => forall_below 16 (fun y =>
    let s2 := N.lor (N.shiftl (N.land a 3) 4) y in
    (s2 <? 64)%N
    && N.eqb (N.lor (N.shiftl (N.shiftr a 2) 2) (N.shiftr s2 4)) a
    && N.eqb (N.land s2 15) y)).
  assert (HP : P a = true).
  { apply (forall_below_spec 256); [vm_compute; reflexivity|exact Ha]. }
  unfold P in HP.
  pose proof (forall_below_spec 16 _ HP y Hy) as H. cbv zeta in H.
  apply andb_prop in H as [H H3]. apply andb_prop in H as [H1 H2].
  apply N.ltb_lt in H1. apply N.eqb_eq in H2. apply N.eqb_eq in H3.
  cbv zeta. auto.
Qed.

(** Second byte: the low four bits of the second sextet and the top four
    of the third. *)
Lemma second_byte (b y : N) :
  (b < 256)%N -> (y < 4)%N ->
  let s3 := N.lor (N.shiftl (N.land b 15) 2) y in
  (s3 < 64)%N
  /\ N.lor (N.shiftl (N.shiftr b 4) 4) (N.shiftr s3 2) = b
  /\ N.land s3 3 = y.
Proof.
  intros Hb Hy.
  pose (P := fun b => forall_below 4 (fun y =>
    let s3 := N.lor (N.shiftl (N.land b 15) 2) y in
    (s3 <? 64)%N
    && N.eqb (N.lor (N.shiftl (N.shiftr b 4) 4) (N.shiftr s3 2)) b
    && N.eqb (N.land s3 3) y)).
  assert (HP : P b = true).
  { apply (forall_below_spec 256); [vm_compute; reflexivity|exact Hb]. }
  unfold P in HP.
  pose proof (forall_below_spec 4 _ HP y Hy) as H. cbv zeta in H.
  apply andb_prop in H as [H H3]. apply andb_prop in H as [H1 H2].
  apply N.ltb_lt in H1. apply N.eqb_eq in H2. apply N.eqb_eq in H3.
  cbv zeta. auto.
Qed.

(** Third byte: the low two bits of the third sextet and the fourth. *)
Lemma third_byte (c : N) :
  (c < 256)%N -> N.lor (N.shiftl (N.shiftr c 6) 6) (N.land c 63) = c.
Proof.
  intros Hc.
  apply N.eqb_eq.
  apply (forall_below_spec 256
           (fun c => N.eqb (N.lor (N.shiftl (N.shiftr c 6) 6) (N.land c 63)) c));
    [vm_compute; reflexivity|exact Hc].
Qed.

Lemma byte_of_to_N (a : byte) : byte_of_N (Byte.to_N a) = a.
Proof.
  unfold byte_of_N.
  pose proof (Byte.to_N_bounded a).
  rewrite N.mod_small by lia.
  now rewrite Byte.of_to_N.
Qed.

Lemma append_cons (c : ascii) (s t : string) :
  String c s ++ t = String c (s ++ t).
Proof. reflexivity. Qed.

Lemma append_empty (t : string) : "" ++ t = t.
Proof. reflexivity. Qed.

(** One step of the decoding loop on a letter of the alphabet. *)
Lemma loop_letter (s : N) (rest : string) (q l p : N) (out : list byte) :
  (s < 64)%N ->
  a2b_base64_loop (String (b64_char s) rest) q l p out =
  match q with
  | 0%N => a2b_base64_loop rest 1 s 0 out
  | 1%N =>
      a2b_base64_loop rest 2 (N.land s 15) 0
        (out ++ [byte_of_N (N.lor (N.shiftl l 2) (N.shiftr s 4))])%list
  | 2%N =>
      a2b_base64_loop rest 3 (N.land s 3) 0
        (out ++ [byte_of_N (N.lor (N.shiftl l 4) (N.shiftr s 2))])%list
  | _ =>
      a2b_base64_loop rest 0 0 0
        (out ++ [byte_of_N (N.lor (N.shiftl l 6) s)])%list
  end.
Proof.
  intros Hs. destruct (b64_char_index s Hs) as (Hidx & Hpad & _).
  cbn [a2b_base64_loop]. rewrite Hpad, Hidx. reflexivity.
Qed.

(** A full group of three bytes is decoded to itself and leaves the loop
    in its initial state. *)
Lemma loop_group3 (a b c : byte) (rest : string) (out : list byte) :
  a2b_base64_loop
    (sextets3 (Byte.to_N a) (Byte.to_N b) (Byte.to_N c) ++ rest) 0 0 0 out
  = a2b_base64_loop rest 0 0 0 (out ++ [a; b; c])%list.
Proof.
  pose proof (Byte.to_N_bounded a) as Ha.
  pose proof (Byte.to_N_bounded b) as Hb.
  pose proof (Byte.to_N_bounded c) as Hc.
  set (A := Byte.to_N a) in *. set (B := Byte.to_N b) in *.
  set (C := Byte.to_N c) in *.
  destruct (byte_parts A ltac:(lia)) as (HA1 & _).
  destruct (byte_parts B ltac:(lia)) as (_ & _ & HB3 & _).
  destruct (byte_parts C ltac:(lia)) as (_ & _ & _ & _ & HC5 & HC6).
  destruct (first_byte A (N.shiftr B 4) ltac:(lia) HB3) as (H2 & E1 & L2).
  destruct (second_byte B (N.shiftr C 6) ltac:(lia) HC5) as (H3 & E2 & L3).
  pose proof (third_byte C ltac:(lia)) as E3.
  unfold sextets3. rewrite !append_cons, append_empty.
  rewrite (loop_letter _ _ 0 _ _ _ HA1).
  rewrite (loop_letter _ _ 1 _ _ _ H2), E1, L2.
  rewrite (loop_letter _ _ 2 _ _ _ H3), E2, L3.
  rewrite (loop_letter _ _ 3 _ _ _ HC6), E3.
  subst A B C. rewrite !byte_of_to_N, <- !app_assoc. reflexivity.
Qed.

Lemma loop_group2 (a b : byte) (out : list byte) :
  a2b_base64_loop (sextets2 (Byte.to_N a) (Byte.to_N b)) 0 0 0 out
  = Ok (out ++ [a; b])%list.
Proof.
  pose proof (Byte.to_N_bounded a) as Ha.
  pose proof (Byte.to_N_bounded b) as Hb.
  set (A := Byte.to_N a) in *. set (B := Byte.to_N b) in *.
  destruct (byte_parts A ltac:(lia)) as (HA1 & _).
  destruct (byte_parts B ltac:(lia)) as (_ & _ & HB3 & _).
  destruct (first_byte A (N.shiftr B 4) ltac:(lia) HB3) as (H2 & E1 & L2).
  destruct (second_byte B 0 ltac:(lia) ltac:(lia)) as (H3 & E2 & L3).
  rewrite N.lor_0_r in H3, E2, L3.
  unfold sextets2.
  rewrite (loop_letter _ _ 0 _ _ _ HA1).
  rewrite (loop_letter _ _ 1 _ _ _ H2), E1, L2.
  rewrite (loop_letter _ _ 2 _ _ _ H3), E2.
  subst A B. rewrite !byte_of_to_N, <- !app_assoc. reflexivity.
Qed.

Lemma loop_group1 (a : byte) (out : list byte) :
  a2b_base64_loop (sextets1 (Byte.to_N a)) 0 0 0 out = Ok (out ++ [a])%list.
Proof.
  pose proof (Byte.to_N_bounded a) as Ha.
  set (A := Byte.to_N a) in *.
  destruct (byte_parts A ltac:(lia)) as (HA1 & _).
  destruct (first_byte A 0 ltac:(lia) ltac:(lia)) as (H2 & E1 & L2).
  rewrite N.lor_0_r in H2, E1, L2.
  unfold sextets1.
  rewrite (loop_letter _ _ 0 _ _ _ HA1).
  rewrite (loop_letter _ _ 1 _ _ _ H2), E1.
  subst A. rewrite !byte_of_to_N. reflexivity.
Qed.

Lemma loop_b64encode (n : nat) :
  forall (data out : list byte),
    (length data <= n)%nat ->
    a2b_base64_loop (b64encode data) 0 0 0 out = Ok (out ++ data)%list.
Proof.
  induction n as [|n IH]; intros data out Hlen.
  - destruct data; [|simpl in Hlen; lia]. simpl. now rewrite app_nil_r.
  - destruct data as [|a [|b [|c rest]]].
    + simpl. now rewrite app_nil_r.
    + apply loop_group1.
    + apply loop_group2.
    + change (b64encode (a :: b :: c :: rest))
        with (sextets3 (Byte.to_N a) (Byte.to_N b) (Byte.to_N c)
              ++ b64encode rest).
      rewrite loop_group3, IH by (simpl in Hlen; lia).
      now rewrite <- app_assoc.
Qed.

Lemma all_ascii_app (s t : string) :
  all_ascii (s ++ t) = all_ascii s && all_ascii t.
Proof.
  induction s as [|c s IH]; [reflexivity|].
  rewrite append_cons. cbn [all_ascii]. now rewrite IH, andb_assoc.
Qed.

Lemma all_ascii_b64encode (n : nat) :
  forall data : list byte,
    (length data <= n)%nat -> all_ascii (b64encode data) = true.
Proof.
  assert (Hc : forall x, (x < 64)%N -> is_ascii (b64_char x) = true)
    by (intros x Hx; apply (b64_char_index x Hx)).
  induction n as [|n IH]; intros data Hlen.
  - destruct data; [reflexivity|simpl in Hlen; lia].
  - destruct data as [|a [|b [|c rest]]]; [reflexivity| | |].
    + pose proof (Byte.to_N_bounded a) as Ba.
      destruct (byte_parts (Byte.to_N a) ltac:(lia)) as (HA1 & _).
      destruct (first_byte (Byte.to_N a) 0 ltac:(lia) ltac:(lia)) as (H2 & _).
      rewrite N.lor_0_r in H2.
      cbn [b64encode sextets1 all_ascii]. rewrite !Hc by assumption.
      reflexivity.
    + pose proof (Byte.to_N_bounded a) as Ba.
      pose proof (Byte.to_N_bounded b) as Bb.
      destruct (byte_parts (Byte.to_N a) ltac:(lia)) as (HA1 & _).
      destruct (byte_parts (Byte.to_N b) ltac:(lia)) as (_ & _ & HB3 & _).
      destruct (first_byte (Byte.to_N a) _ ltac:(lia) HB3) as (H2 & _).
      destruct (second_byte (Byte.to_N b) 0 ltac:(lia) ltac:(lia)) as (H3 & _).
      rewrite N.lor_0_r in H3.
      cbn [b64encode sextets2 all_ascii]. rewrite !Hc by assumption.
      reflexivity.
    + pose proof (Byte.to_N_bounded a) as Ba.
      pose proof (Byte.to_N_bounded b) as Bb.
      pose proof (Byte.to_N_bounded c) as Bc.
      destruct (byte_parts (Byte.to_N a) ltac:(lia)) as (HA1 & _).
      destruct (byte_parts (Byte.to_N b) ltac:(lia)) as (_ & _ & HB3 & _).
      destruct (byte_parts (Byte.to_N c) ltac:(lia))
        as (_ & _ & _ & _ & HC5 & HC6).
      destruct (first_byte (Byte.to_N a) _ ltac:(lia) HB3) as (H2 & _).
      destruct (second_byte (Byte.to_N b) _ ltac:(lia) HC5) as (H3 & _).
      change (b64encode (a :: b :: c :: rest))
        with (sextets3 (Byte.to_N a) (Byte.to_N b) (Byte.to_N c)
              ++ b64encode rest).
      rewrite all_ascii_app, IH by (simpl in Hlen; lia).
      cbn [sextets3 all_ascii]. rewrite !Hc by assumption. reflexivity.
Qed.

(** The round trip on the functions of the [base64] module. *)
Lemma b64decode_b64encode (data : list byte) :
  b64decode (b64encode data) = Ok data.
Proof.
  unfold b64decode.
  rewrite (all_ascii_b64encode (length data)) by lia.
  now rewrite (loop_b64encode (length data)) by lia.
Qed.

End Base64Facts.

(** * The codec round trip *)

(** C8. Decoding the base64 text of any byte sequence gives the bytes
    back, and the server's [_decode_audio], given that text, stores exactly
    those bytes in the temporary file whose name it returns. *)
Theorem base64_roundtrip (data : list byte) :
  b64decode (b64encode data) = Ok data
  /\ forall e : env,
       exists p e',
         _decode_audio (VStr (b64encode data)) e = (Ok p, e')
         /\ files e' !! p = Some data.
Proof.
  split; [apply Base64Facts.b64decode_b64encode|].
  intros e. do 2 eexists. split.
  - apply decode_audio_str, Base64Facts.b64decode_b64encode.
  - cbn [files set_files]. apply lookup_insert_eq.
Qed.

(** * Client and server over the codec *)

(** X21. The reference audio travels intact: for a reference file that the
    client can read, [_encode_audio_file] returns a text from which the
    server's [_decode_audio] writes exactly the bytes of that file into a
    new temporary file, without logging anything. *)
Theorem reference_file_reaches_server_intact
    (path : string) (data : list byte) (ce : client_env) (e : env) :
  client_files ce !! path = Some data ->
  open_denied ce path = false ->
  exists text p e',
    _encode_audio_file path ce = (Ok text, ce)
    /\ _decode_audio (VStr text) e = (Ok p, e')
    /\ files e !! p = None
    /\ files e' = <[p := data]> (files e)
    /\ log e' = log e.
Proof.
  intros Hf Hd.
  exists (b64encode data), (fresh (dom (files e))),
    (set_files (<[fresh (dom (files e)) := data]> (files e)) e).
  split; [now apply encode_audio_file_ok|].
  split; [apply decode_audio_str, Base64Facts.b64decode_b64encode|].
  split; [apply fresh_file_absent|]. split; reflexivity.
Qed.

(** X22. The client's two codec functions are inverse to each other on files:
    saving the text that [_encode_audio_file] returns for a file makes
    the output file a copy of it, and encoding the copy returns the same
    text. *)
Theorem client_codec_round_trip
    (src dst : string) (data : list byte) (e : client_env) :
  client_files e !! src = Some data ->
  open_denied e src = false ->
  open_denied e dst = false ->
  exists text e',
    _encode_audio_file src e = (Ok text, e)
    /\ _save_audio (VStr text) dst e = (Ok tt, e')
    /\ client_files e' = <[dst := data]> (client_files e)
    /\ _encode_audio_file dst e' = (Ok text, e').
Proof.
  intros Hf Hsrc Hdst.
  exists (b64encode data). eexists.
  split; [now apply encode_audio_file_ok|].
  split;
    [apply save_audio_ok;
       [apply Base64Facts.b64decode_b64encode|exact Hdst]|].
  split; [reflexivity|].
  apply encode_audio_file_ok; [apply lookup_insert_eq|exact Hdst].
Qed.

Section ClientServer.

Variable SUPPORTED_LANGUAGES : list (string * string).
Variable tensor : Type.
Variable model_generate : generate_args -> result tensor.
Variable model_sr : Z.
Variable to_numpy : tensor -> result tensor.
Variable torchaudio_save : tensor -> Z -> result (list byte).
Variable json_loads : string -> result value.
Variable py_repr : value -> string.
Variable cuda_is_available : bool.
Variable mps_is_available : bool.

Set Default Proof Using "Type".

(** X23. The audio of a response is the rendered WAV file: whenever the
    server's [_encode_audio] returns a text, the tensor operations have
    produced the bytes [wav] of a WAV file, the text decodes to exactly
    [wav], and the client's [_save_audio] writes exactly [wav] to an
    output path that it can open. *)
Theorem response_audio_is_the_rendered_wav
    (audio_tensor : tensor) (sample_rate : Z) (e e' : env) (text : string) :
  _encode_audio tensor to_numpy torchaudio_save audio_tensor sample_rate e
  = (Ok text, e') ->
  exists audio_np wav,
    to_numpy audio_tensor = Ok audio_np
    /\ torchaudio_save audio_np sample_rate = Ok wav
    /\ b64decode text = Ok wav
    /\ forall out ce,
         open_denied ce out = false ->
         exists ce',
           _save_audio (VStr text) out ce = (Ok tt, ce')
           /\ client_files ce' = <[out := wav]> (client_files ce).
Proof.
  intros Hrun.
  destruct (encode_audio_ok_inv _ _ _ _ _ _ _ _ Hrun)
    as (audio_np & wav & Hnp & Hwav & ->).
  exists audio_np, wav. split; [exact Hnp|]. split; [exact Hwav|].
  split; [apply Base64Facts.b64decode_b64encode|].
  intros out ce Hout. eexists. split.
  - apply save_audio_ok; [apply Base64Facts.b64decode_b64encode|exact Hout].
  - reflexivity.
Qed.

(** X24. The basic TTS test against this server, end to end. The text is not
    blank, the language is supported, the model and the tensor operations
    succeed with a WAV file [wav] that is not empty, and each side parses
    the other's frames. Then the server's events on the connection are
    the greeting, the request and the success response with the base64
    text of [wav], after one model call with the text (cut to 500
    characters), the language as the client wrote it, no reference and
    the client's and the default parameters; and the client, reading the
    greeting and the response, logs the success and leaves exactly [wav]
    in its output file. *)
Theorem basic_tts_end_to_end
    (client_addr text language out : string)
    (request_frame greeting_frame response_frame : string)
    (t audio_np : tensor) (wav : list byte) (e : env) (ce : client_env) :
  let text' :=
    if (500 <? String.length text)%nat then slice_to 500 text else text in
  let args :=
    GenerateArgs text' (VStr language) None
      (VFloat (FFinite f0_5)) (VFloat (FFinite f0_8))
      (VFloat (FFinite f0_5)) (VFloat (FFinite f2_0))
      (VFloat (FFinite f0_05)) (VFloat (FFinite f1_0)) in
  let greeting :=
    welcome_msg SUPPORTED_LANGUAGES cuda_is_available mps_is_available in
  let response :=
    tts_success model_sr py_repr (b64encode wav) (VStr language) in
  strip text <> "" ->
  supported SUPPORTED_LANGUAGES (lower language) = true ->
  model_generate args = Ok t ->
  to_numpy t = Ok audio_np ->
  torchaudio_save audio_np model_sr = Ok wav ->
  wav <> [] ->
  json_loads request_frame = Ok (basic_request text language) ->
  json_loads greeting_frame = Ok greeting ->
  json_loads response_frame = Ok response ->
  open_denied ce out = false ->
  (exists e',
     handle_client SUPPORTED_LANGUAGES tensor model_generate model_sr
       to_numpy torchaudio_save json_loads py_repr cuda_is_available
       mps_is_available client_addr [request_frame] false (Conn [] None, e)
     = (Ok tt,
        (Conn [Sent greeting; Received request_frame; Sent response] None,
         e'))
     /\ model_calls e' = (model_calls e ++ [args])%list)
  /\ test_basic_tts json_loads py_repr text language out
       (Ok [greeting_frame; response_frame]) (Conn [] None, ce)
     = (Ok tt,
        (Conn [ Sent (basic_request text language);
                Received greeting_frame; Received response_frame ] None,
         ClientEnv (<[out := wav]> (client_files ce)) (open_denied ce)
           (client_log ce
            ++ [ Log INFO ("Testing TTS with text: '" ++ text
                           ++ "' in language: " ++ language);
                 Log INFO "TTS request sent";
                 Log INFO "Received server info, waiting for TTS response...";
                 Log INFO "TTS generation successful!";
                 Log INFO ("Sample rate: " ++ py_str py_repr (VInt model_sr));
                 Log INFO ("Language: " ++ language);
                 Log INFO ("Audio saved to: " ++ out) ])%list)).
Proof.
  intros text' args greeting response Hs Hlang Hgen Hnp Hwav Hne Hreq Hgreet
    Hresp Hout.
  exact (basic_tts_session SUPPORTED_LANGUAGES tensor model_generate model_sr
           to_numpy torchaudio_save json_loads py_repr cuda_is_available
           mps_is_available client_addr text text' language out
           request_frame greeting_frame response_frame t audio_np wav e ce
           eq_refl Hs Hlang Hgen Hnp Hwav Hne
           (Base64Facts.b64decode_b64encode wav) Hreq Hgreet Hresp Hout).
Qed.

End ClientServer.



(** * The sample installation at work *)

Abbreviation sample_process generate :=
  (process_tts_request sample_languages (list byte) generate sample_sr
     sample_to_numpy sample_save sample_repr).

Abbreviation sample_handle_message :=
  (handle_message sample_languages (list byte) sample_generate sample_sr
     sample_to_numpy sample_save sample_loads sample_repr).

Abbreviation sample_handle_client :=
  (handle_client sample_languages (list byte) sample_generate sample_sr
     sample_to_numpy sample_save sample_loads sample_repr true false).

(** C1, at a request with reference audio. When the operating system lets
    the artifact be deleted the request succeeds and no temporary file is
    left. When it refuses, as the clean-up of [_encode_audio] expects it
    may, the [os.unlink] of [process_tts_request] raises out of the [try]
    block and again out of the [except] block: the request that would have
    succeeded ends with [PermissionError], the client is sent an "Internal
    server error" instead of the audio, and the artifact stays. *)
Theorem locked_artifact_changes_outcome :
  let request :=
    VDict [("text", VStr "Hola"); ("reference_audio", VStr "AAAA")] in
  let frame := "{type: tts_request, text: Hola, reference_audio: AAAA}" in
  let allowed := sample_process sample_generate request (sample_env false) in
  let denied := sample_process sample_generate request (sample_env true) in
  fst allowed
  = Ok (message "tts_response"
          [ ("audio", VStr "AQID"); ("status", VStr "success");
            ("message", VStr "Generated audio for 'es' text");
            ("sample_rate", VInt 24000); ("language", VStr "es") ])
  /\ files (snd allowed) = ∅
  /\ fst denied = Raise (Exn PermissionError "[Errno 13] Permission denied")
  /\ files (snd denied) !! 0%nat = Some [x00; x00; x00]
  /\ trace (fst (snd (sample_handle_message frame
                        (sample_conn, sample_env true))))
     = [Sent (error_message
                "Internal server error: [Errno 13] Permission denied")].
Proof. vm_compute. repeat split; reflexivity. Qed.

(** C2, at a request with reference audio whose model call fails. When
    deletion is allowed the failure becomes the error response that
    carries the model's message. When deletion is refused the clean-up in
    the [except] block raises, and [PermissionError] leaves
    [process_tts_request] instead of an error response. *)
Theorem cleanup_failure_escapes_boundary :
  let request :=
    VDict [("text", VStr "Hola"); ("reference_audio", VStr "AAAA")] in
  fst (sample_process failing_generate request (sample_env false))
  = Ok (message "tts_response"
          [ ("audio", VNone); ("status", VStr "error");
            ("message", VStr "CUDA out of memory") ])
  /\ fst (sample_process failing_generate request (sample_env true))
     = Raise (Exn PermissionError "[Errno 13] Permission denied").
Proof. vm_compute. split; reflexivity. Qed.

(** C5, at the identifier "ES". Its lower-cased form "es" is supported
    and the configuration is accepted, but the configuration returned
    holds "ES": the loop over the defaults writes the supplied value over
    the lower-cased one, and the model is called with "ES". *)
Theorem language_case_not_normalized :
  lower "ES" = "es"
  /\ supported sample_languages "es" = true
  /\ _validate_config sample_languages
       (VDict [("language_id", VStr "ES")]) tt
     = (Ok (VDict
              [ ("language_id", VStr "ES");
                ("exaggeration", VFloat (FFinite f0_5));
                ("temperature", VFloat (FFinite f0_8));
                ("cfg_weight", VFloat (FFinite f0_5));
                ("repetition_penalty", VFloat (FFinite f2_0));
                ("min_p", VFloat (FFinite f0_05));
                ("top_p", VFloat (FFinite f1_0)) ]), tt)
  /\ map ga_language_id
       (model_calls
          (snd (sample_process sample_generate
                  (VDict [("text", VStr "Hola");
                          ("config", VDict [("language_id", VStr "ES")])])
                  (sample_env false))))
     = [VStr "ES"].
Proof. vm_compute. repeat split; reflexivity. Qed.

(** C3 as stated fails: the error for an out-of-range value names the
    field and the bounds but not the value. The values 7 and 9 for
    exaggeration are rejected with the same message, in which neither
    digit occurs. *)
Lemma range_error_omits_value :
  _validate_config sample_languages (VDict [("exaggeration", VInt 7)]) tt
  = (Raise (Exn ValueError "Exaggeration must be between 0.25 and 2.0"), tt)
  /\ _validate_config sample_languages (VDict [("exaggeration", VInt 9)]) tt
     = (Raise (Exn ValueError "Exaggeration must be between 0.25 and 2.0"), tt)
  /\ is_substring "7" "Exaggeration must be between 0.25 and 2.0" = false
  /\ is_substring "9" "Exaggeration must be between 0.25 and 2.0" = false.
Proof. vm_compute. repeat split; reflexivity. Qed.

Example strip_example : strip "  Hola mundo   " = "Hola mundo".
Proof. reflexivity. Qed.

Example lower_example : lower "ES" = "es".
Proof. reflexivity. Qed.

(** A session: a ping, a frame that is not JSON, a JSON number, an unknown
    type and a request, each answered in turn after the greeting. *)
Example sample_session :
  map (fun ev =>
         match ev with
         | Sent msg => message_type msg
         | Received _ => None
         end)
    (trace
       (fst (snd (sample_handle_client "127.0.0.1:50000"
                    [ "{type: ping}"; "garbage"; "42"; "{type: hello}";
                      "{type: tts_request, text: Hola}" ] false
                    (sample_conn, sample_env false)))))
  = [ Some (VStr "server_info");
      None; Some (VStr "pong");
      None; Some (VStr "error");
      None; Some (VStr "error");
      None; Some (VStr "error");
      None; Some (VStr "tts_response") ].
Proof. vm_compute. reflexivity. Qed.

(** * Instances of the theorems *)

(** The validator at a config with two parameters exactly at a bound and
    an integer for a third. *)
Lemma validate_config_witness :
  let cfg :=
    [ ("exaggeration", VFloat (FFinite f2_0));
      ("temperature", VFloat (FFinite f0_05));
      ("top_p", VInt 0) ] in
  let d :=
    [ ("language_id", VStr "es");
      ("exaggeration", VFloat (FFinite f2_0));
      ("temperature", VFloat (FFinite f0_05));
      ("cfg_weight", VFloat (FFinite f0_5));
      ("repetition_penalty", VFloat (FFinite f2_0));
      ("min_p", VFloat (FFinite f0_05));
      ("top_p", VInt 0) ] in
  _validate_config sample_languages (VDict cfg) tt = (Ok (VDict d), tt)
  /\ exists d',
       VDict d = VDict d'
       /\ dict_keys d' = config_keys
       /\ (forall k, In k config_keys -> dict_get k cfg = None ->
             dict_get k d' = dict_get k defaults)
       /\ (forall k lo hi msg x,
             parameter_range k = Some (lo, hi, msg) ->
             dict_get k cfg = Some x ->
             dict_get k d' = Some x /\ between lo hi x = Ok true).
Proof.
  intros cfg d.
  assert (Hrun : _validate_config sample_languages (VDict cfg) tt
                 = (Ok (VDict d), tt)) by (vm_compute; reflexivity).
  split; [exact Hrun|].
  exact (proj1 (proj2 (validate_config_defaults_and_ranges
                         sample_languages cfg tt tt (Ok (VDict d)) Hrun))).
Defined.

(** The text rule at a text of 501 characters. *)
Lemma text_witness :
  let data := [("text", VStr sample_long_text)] in
  dict_get "text" data = Some (VStr sample_long_text)
  /\ strip sample_long_text <> ""
  /\ (500 < String.length sample_long_text)%nat
  /\ String.length (slice_to 500 sample_long_text) = 500%nat
  /\ validated_text (VDict data) (None, sample_env false)
     = (Ok (slice_to 500 sample_long_text),
        (None,
         Env ∅ (fun _ => false)
           [Log WARNING "Text truncated to 500 characters"] [])).
Proof.
  intros data.
  assert (Hd : dict_get "text" data = Some (VStr sample_long_text))
    by reflexivity.
  assert (Hs : strip sample_long_text <> "")
    by (intros H; vm_compute in H; discriminate H).
  assert (Hl : (500 < String.length sample_long_text)%nat)
    by (apply Nat.ltb_lt; vm_compute; reflexivity).
  split; [exact Hd|]. split; [exact Hs|]. split; [exact Hl|].
  destruct (text_blank_rejected_long_truncated sample_languages (list byte)
              sample_generate sample_sr sample_to_numpy sample_save
              sample_repr data sample_long_text None (sample_env false) Hd)
    as [_ Hlong].
  destruct (Hlong Hs Hl) as (Hlen & _ & Hv & _).
  split; [exact Hlen|exact Hv].
Defined.

(** The greeting on a new connection on which the client sends a ping. *)
Lemma server_info_witness :
  trace sample_conn = []
  /\ exists c' e' rest,
       sample_handle_client "127.0.0.1:50000" ["{type: ping}"] false
         (sample_conn, sample_env false)
       = (Ok tt, (c', e'))
       /\ trace c' = Sent (welcome_msg sample_languages true false) :: rest
       /\ Forall reply_event rest.
Proof.
  assert (Ht : trace sample_conn = []) by reflexivity.
  split; [exact Ht|].
  destruct (server_info_first_and_once sample_languages (list byte)
              sample_generate sample_sr sample_to_numpy sample_save
              sample_loads sample_repr true false "127.0.0.1:50000"
              ["{type: ping}"] false sample_conn (sample_env false) Ht)
    as (c' & e' & Hrun & Htrace & _).
  cbn [send_budget sample_conn] in Htrace.
  destruct Htrace as (rest & Hrest & Hall & _).
  exists c', e', rest. split; [exact Hrun|]. split; [exact Hrest|exact Hall].
Defined.

(** The message loop at a frame that is not JSON. *)
Lemma per_message_witness :
  send_budget sample_conn = None
  /\ sample_handle_message "garbage" (sample_conn, sample_env false)
     = (Ok tt,
        (Conn [Sent (VDict
                       [ ("type", VStr "error");
                         ("data",
                          VDict [("message", VStr "Invalid JSON format")]) ])]
           None,
         sample_env false)).
Proof.
  assert (Hopen : send_budget sample_conn = None) by reflexivity.
  split; [exact Hopen|].
  destruct (per_message_errors_keep_session_open sample_languages (list byte)
              sample_generate sample_sr sample_to_numpy sample_save
              sample_loads sample_repr "garbage" sample_conn
              (sample_env false) Hopen) as [Hjson _].
  apply (Hjson (Exn JSONDecodeError
                  "Expecting value: line 1 column 1 (char 0)"));
    reflexivity.
Defined.

(** The message loop at the frame [42], a JSON number. *)
Lemma non_object_witness :
  sample_loads "42" = Ok (VInt 42)
  /\ (forall d, VInt 42 <> VDict d)
  /\ send_budget sample_conn = None
  /\ sample_handle_message "42" (sample_conn, sample_env false)
     = (Ok tt,
        (Conn [Sent (VDict
                       [ ("type", VStr "error");
                         ("data",
                          VDict
                            [("message",
                              VStr
                                "Internal server error: 'int' object has no attribute 'get'")]) ])]
           None,
         Env ∅ (fun _ => false)
           [Log ERROR
              "Error handling message: 'int' object has no attribute 'get'"]
           [])).
Proof.
  assert (Hj : sample_loads "42" = Ok (VInt 42)) by reflexivity.
  assert (Hv : forall d, VInt 42 <> VDict d) by (intros d H; discriminate H).
  assert (Hopen : send_budget sample_conn = None) by reflexivity.
  split; [exact Hj|]. split; [exact Hv|]. split; [exact Hopen|].
  exact (proj1 (non_object_json_internal_error sample_languages (list byte)
                  sample_generate sample_sr sample_to_numpy sample_save
                  sample_loads sample_repr "42" (VInt 42) sample_conn
                  (sample_env false) Hj Hv Hopen)).
Defined.

(** * Further examples at the sample installation *)

Lemma sample_deletions_allowed : deletions_allowed (sample_env false).
Proof. intros p. reflexivity. Defined.

(** A temperature that is not a number. *)
Lemma non_finite_parameter_witness :
  parameter_range "temperature"
  = Some (f0_05, f5_0, "Temperature must be between 0.05 and 5.0")
  /\ _validate_config sample_languages
       (VDict [("temperature", VFloat FNaN)]) tt
     = (Raise (Exn ValueError "Temperature must be between 0.05 and 5.0"),
        tt).
Proof.
  split; [reflexivity|].
  exact (proj2 (@non_finite_parameter_rejected sample_languages unit
                  "temperature" f0_05 f5_0
                  "Temperature must be between 0.05 and 5.0" FNaN tt
                  eq_refl I)).
Defined.

(** A ping read after the peer has gone. *)
Lemma peer_gone_witness :
  send_budget (Conn [] (Some O)) = Some O
  /\ exists e',
       message_loop sample_languages (list byte) sample_generate sample_sr
         sample_to_numpy sample_save sample_loads sample_repr
         ["{type: ping}"] false (Conn [] (Some O), sample_env false)
       = (Raise (Exn ConnectionClosed "no close frame received or sent"),
          (Conn [Received "{type: ping}"] (Some O), e')).
Proof.
  split; [reflexivity|].
  exact (peer_gone_ends_loop sample_languages (list byte) sample_generate
           sample_sr sample_to_numpy sample_save sample_loads sample_repr
           "{type: ping}" [] false (Conn [] (Some O)) (sample_env false)
           eq_refl).
Defined.

(** A TTS request on an open connection. *)
Lemma tts_request_answered_witness :
  send_budget sample_conn = None
  /\ deletions_allowed (sample_env false)
  /\ exists response e',
       sample_handle_message "{type: tts_request, text: Hola}"
         (sample_conn, sample_env false)
       = (Ok tt, (Conn [Sent response] None, e'))
       /\ message_type response = Some (VStr "tts_response")
       /\ files e' = files (sample_env false).
Proof.
  split; [reflexivity|]. split; [exact sample_deletions_allowed|].
  exact (tts_request_always_answered_with_tts_response sample_languages
           (list byte) sample_generate sample_sr sample_to_numpy sample_save
           sample_loads sample_repr "{type: tts_request, text: Hola}"
           [("type", VStr "tts_request");
            ("data", VDict [("text", VStr "Hola")])]
           sample_conn (sample_env false) eq_refl sample_deletions_allowed
           eq_refl eq_refl).
Defined.

(** A request with reference audio where deletion is allowed. *)
Lemma no_temporary_file_witness :
  deletions_allowed (sample_env false)
  /\ exists response e',
       sample_process sample_generate
         (VDict [("text", VStr "Hola"); ("reference_audio", VStr "AAAA")])
         (sample_env false)
       = (Ok response, e')
       /\ files e' = files (sample_env false).
Proof.
  split; [exact sample_deletions_allowed|].
  destruct (request_leaves_no_temporary_file sample_languages (list byte)
              sample_generate sample_sr sample_to_numpy sample_save
              sample_repr
              (VDict [("text", VStr "Hola"); ("reference_audio", VStr "AAAA")])
              (sample_env false) sample_deletions_allowed)
    as (response & e' & Hrun & Hfiles & _).
  exists response, e'. split; [exact Hrun|exact Hfiles].
Defined.

(** The language test at an identifier in upper case. *)
Lemma language_accepted_witness :
  dict_get "language_id" [("language_id", VStr "FR")] = Some (VStr "FR")
  /\ supported sample_languages (lower "FR") = true
  /\ exists out,
       _validate_config sample_languages (VDict [("language_id", VStr "FR")])
         tt = (Ok out, tt).
Proof.
  split; [reflexivity|]. split; [reflexivity|].
  exact (proj2 (proj2 (@language_accepted_iff_supported sample_languages unit
                         [("language_id", VStr "FR")] "FR" tt eq_refl))
           eq_refl).
Defined.

(** Two parameters out of range: the first in the order of the defaults is
    reported. *)
Lemma first_offending_parameter_witness :
  let cfg := [("top_p", VInt 7); ("temperature", VInt 9)] in
  language_ok sample_languages cfg
  /\ _validate_config sample_languages (VDict cfg) tt
     = (Raise (Exn ValueError "Temperature must be between 0.05 and 5.0"),
        tt).
Proof.
  intros cfg. split; [exact I|].
  exact (proj2 (@validation_reports_first_offending_parameter
                  sample_languages unit cfg tt I)).
Defined.

(** A text of 500 spaces and a letter: the model is called with the 500
    spaces. *)
Lemma blank_prefix_witness :
  strip sample_blank_prefix <> ""
  /\ strip (slice_to 500 sample_blank_prefix) = ""
  /\ model_calls
       (snd (sample_process sample_generate
               (VDict [("text", VStr sample_blank_prefix)])
               (sample_env false)))
     = [GenerateArgs (slice_to 500 sample_blank_prefix) (VStr "es") None
          (VFloat (FFinite f0_5)) (VFloat (FFinite f0_8))
          (VFloat (FFinite f0_5)) (VFloat (FFinite f2_0))
          (VFloat (FFinite f0_05)) (VFloat (FFinite f1_0))].
Proof.
  assert (Hs : strip sample_blank_prefix <> "")
    by (intros H; vm_compute in H; discriminate H).
  split; [exact Hs|]. split; [vm_compute; reflexivity|].
  exact (text_only_request_calls_model_with_defaults sample_languages
           (list byte) sample_generate sample_sr sample_to_numpy sample_save
           sample_repr sample_blank_prefix (sample_env false) Hs).
Defined.

(** A validated configuration with a language in upper case. *)
Lemma validator_output_witness :
  let out :=
    VDict
      [ ("language_id", VStr "FR");
        ("exaggeration", VFloat (FFinite f0_5));
        ("temperature", VFloat (FFinite f0_8));
        ("cfg_weight", VFloat (FFinite f0_5));
        ("repetition_penalty", VFloat (FFinite f2_0));
        ("min_p", VFloat (FFinite f0_05));
        ("top_p", VFloat (FFinite f1_0)) ] in
  _validate_config sample_languages (VDict [("language_id", VStr "FR")]) tt
  = (Ok out, tt)
  /\ exists d, out = VDict d /\ valid_config sample_languages d.
Proof.
  intros out.
  assert (Hrun : _validate_config sample_languages
                   (VDict [("language_id", VStr "FR")]) tt = (Ok out, tt))
    by (vm_compute; reflexivity).
  split; [exact Hrun|].
  exact (@validator_output_is_valid sample_languages unit _ _ tt tt Hrun).
Defined.


(** The ping test against the sample installation. *)
Lemma ping_test_witness :
  sample_wire_loads "{type: ping, data: {}}" = Ok (message "ping" [])
  /\ sample_wire_loads "{type: server_info}"
     = Ok (welcome_msg sample_languages true false)
  /\ test_ping sample_wire_loads sample_repr
       (Ok ["{type: server_info}"; "{type: pong}"])
       (Conn [] None, sample_client_env)
     = (Ok tt,
        (Conn [Sent (message "ping" []); Received "{type: server_info}"] None,
         client_add_log
           [ Log INFO "Testing server ping";
             Log INFO "Ping sent";
             Log ERROR "Unexpected response to ping: server_info" ]
           sample_client_env)).
Proof.
  split; [reflexivity|]. split; [reflexivity|].
  exact (proj2 (ping_test_reads_greeting_instead_of_pong sample_languages
                  (list byte) sample_generate sample_sr sample_to_numpy
                  sample_save sample_wire_loads sample_repr true false
                  "127.0.0.1:50000" "{type: ping, data: {}}"
                  "{type: server_info}" ["{type: pong}"] (sample_env false)
                  sample_client_env eq_refl eq_refl)).
Defined.

(** The wait loop at a greeting, a pong and a response. *)
Lemma wait_loop_witness :
  exists msgs d,
    Forall2
      (fun f m =>
         sample_wire_loads f = Ok (VDict m)
         /\ value_is_str "tts_response" (get_or "type" VNone m) = false)
      ["{type: server_info}"; "{type: pong}"] msgs
    /\ await_tts_response sample_wire_loads sample_repr
         ["{type: server_info}"; "{type: pong}";
          "{type: tts_response, status: success, audio: AQID}"; "unread"]
         (sample_conn, sample_client_env)
       = (Ok (VDict d),
          (Conn [ Received "{type: server_info}"; Received "{type: pong}";
                  Received
                    "{type: tts_response, status: success, audio: AQID}" ]
             None,
           client_add_log
             [ Log INFO "Received server info, waiting for TTS response...";
               Log WARNING "Unexpected response type: pong" ]
             sample_client_env)).
Proof.
  eexists [_; _], _.
  assert (Hskip : Forall2
            (fun f m =>
               sample_wire_loads f = Ok (VDict m)
               /\ value_is_str "tts_response" (get_or "type" VNone m) = false)
            ["{type: server_info}"; "{type: pong}"]
            [ [ ("type", VStr "server_info");
                ("data",
                 VDict
                   [ ("message", VStr "Chatterbox TTS WebSocket Server");
                     ("supported_languages",
                      VList [VStr "en"; VStr "es"; VStr "fr"]);
                     ("default_language", VStr "es");
                     ("device", VStr "cuda") ]) ];
              [ ("type", VStr "pong");
                ("data", VDict [("message", VStr "Server is alive")]) ] ]).
  { constructor; [split; reflexivity|].
    constructor; [split; reflexivity|constructor]. }
  split; [exact Hskip|].
  exact (proj1 (wait_loop_returns_first_tts_response sample_wire_loads
                  sample_repr _ _ sample_conn sample_client_env Hskip)
           "{type: tts_response, status: success, audio: AQID}" _ ["unread"]
           eq_refl eq_refl).
Defined.

(** The reference test at a reference file that does not exist. *)
Lemma unreadable_reference_witness :
  client_files sample_client_env !! "missing.wav" = None
  /\ test_with_reference_audio sample_wire_loads sample_repr "Hola"
       "missing.wav" "es" "out.wav" (Ok []) (sample_conn, sample_client_env)
     = (Ok tt,
        (sample_conn,
         client_add_log
           [ Log INFO "Testing TTS with reference audio: missing.wav";
             Log ERROR
               "Failed to encode audio file: [Errno 2] No such file or directory: 'missing.wav'";
             Log ERROR
               "Error in test: [Errno 2] No such file or directory: 'missing.wav'" ]
           sample_client_env)).
Proof.
  assert (Hf : client_files sample_client_env !! "missing.wav" = None)
    by (vm_compute; reflexivity).
  split; [exact Hf|].
  exact (unreadable_reference_sends_nothing sample_wire_loads sample_repr
           "Hola" "missing.wav" "es" "out.wav" (Ok [])
           sample_conn sample_client_env (or_intror Hf)).
Defined.

(** The reference file of the sample client on its way to the server. *)
Lemma reference_file_witness :
  client_files sample_client_env !! "ref.wav" = Some [x01; x02; x03]
  /\ open_denied sample_client_env "ref.wav" = false
  /\ exists text p e',
       _encode_audio_file "ref.wav" sample_client_env
       = (Ok text, sample_client_env)
       /\ _decode_audio (VStr text) (sample_env false) = (Ok p, e')
       /\ files e' = <[p := [x01; x02; x03]]> (files (sample_env false)).
Proof.
  assert (Hf : client_files sample_client_env !! "ref.wav"
               = Some [x01; x02; x03]) by (vm_compute; reflexivity).
  split; [exact Hf|]. split; [reflexivity|].
  destruct (reference_file_reaches_server_intact "ref.wav" [x01; x02; x03]
              sample_client_env (sample_env false) Hf eq_refl)
    as (text & p & e' & Henc & Hdec & _ & Hfiles & _).
  exists text, p, e'. split; [exact Henc|]. split; [exact Hdec|exact Hfiles].
Defined.

(** Copying the reference file of the sample client through the codec. *)
Lemma client_codec_witness :
  client_files sample_client_env !! "ref.wav" = Some [x01; x02; x03]
  /\ open_denied sample_client_env "ref.wav" = false
  /\ open_denied sample_client_env "copy.wav" = false
  /\ exists text e',
       _encode_audio_file "ref.wav" sample_client_env
       = (Ok text, sample_client_env)
       /\ _save_audio (VStr text) "copy.wav" sample_client_env = (Ok tt, e')
       /\ _encode_audio_file "copy.wav" e' = (Ok text, e').
Proof.
  assert (Hf : client_files sample_client_env !! "ref.wav"
               = Some [x01; x02; x03]) by (vm_compute; reflexivity).
  split; [exact Hf|]. split; [reflexivity|]. split; [reflexivity|].
  destruct (client_codec_round_trip "ref.wav" "copy.wav" [x01; x02; x03]
              sample_client_env Hf eq_refl eq_refl)
    as (text & e' & Henc & Hsave & _ & Hback).
  exists text, e'. split; [exact Henc|]. split; [exact Hsave|exact Hback].
Defined.

(** The audio of a response of the sample installation. *)
Lemma response_audio_witness :
  _encode_audio (list byte) sample_to_numpy sample_save [x01; x02; x03]
    sample_sr (sample_env false)
  = (Ok "AQID", sample_env false)
  /\ b64decode "AQID" = Ok [x01; x02; x03].
Proof.
  assert (Hrun : _encode_audio (list byte) sample_to_numpy sample_save
                   [x01; x02; x03] sample_sr (sample_env false)
                 = (Ok "AQID", sample_env false))
    by (vm_compute; reflexivity).
  split; [exact Hrun|].
  destruct (response_audio_is_the_rendered_wav (list byte) sample_to_numpy
              sample_save [x01; x02; x03] sample_sr (sample_env false)
              (sample_env false) "AQID" Hrun)
    as (audio_np & wav & Hnp & Hwav & Hdec & _).
  injection Hnp as <-. injection Hwav as <-. exact Hdec.
Defined.

(** The basic test of the sample client against the sample
    installation. *)
Lemma basic_tts_witness :
  strip "Hola" <> ""
  /\ supported sample_languages (lower "es") = true
  /\ sample_wire_loads
       "{type: tts_request, text: Hola, config: {language_id: es}}"
     = Ok (basic_request "Hola" "es")
  /\ sample_wire_loads "{type: tts_response, status: success, audio: AQID}"
     = Ok (tts_success sample_sr sample_repr (b64encode [x01; x02; x03])
             (VStr "es"))
  /\ client_files
       (snd (snd (test_basic_tts sample_wire_loads sample_repr "Hola" "es"
                    "test_output.wav"
                    (Ok [ "{type: server_info}";
                          "{type: tts_response, status: success, audio: AQID}" ])
                    (Conn [] None, sample_client_env))))
     !! "test_output.wav"
     = Some [x01; x02; x03].
Proof.
  assert (Hs : strip "Hola" <> "")
    by (intros H; vm_compute in H; discriminate H).
  assert (Hne : [x01; x02; x03] <> @nil byte)
    by (intros H; discriminate H).
  split; [exact Hs|]. split; [reflexivity|]. split; [reflexivity|].
  split; [reflexivity|].
  destruct (basic_tts_end_to_end sample_languages (list byte) sample_generate
              sample_sr sample_to_numpy sample_save sample_wire_loads
              sample_repr true false "127.0.0.1:50000" "Hola" "es"
              "test_output.wav"
              "{type: tts_request, text: Hola, config: {language_id: es}}"
              "{type: server_info}"
              "{type: tts_response, status: success, audio: AQID}"
              [x01; x02; x03] [x01; x02; x03] [x01; x02; x03]
              (sample_env false) sample_client_env
              Hs eq_refl eq_refl eq_refl eq_refl Hne eq_refl eq_refl eq_refl
              eq_refl) as [_ Hclient].
  rewrite Hclient. cbn [snd client_files]. apply lookup_insert_eq.
Defined.

(** The info test against the sample installation. *)
Lemma server_info_test_witness :
  sample_wire_loads "{type: server_info}"
  = Ok (welcome_msg sample_languages true false)
  /\ test_server_info sample_wire_loads sample_repr
       (Ok ["{type: server_info}"]) (sample_conn, sample_client_env)
     = (Ok tt,
        (Conn [Received "{type: server_info}"] None,
         client_add_log
           [ Log INFO "Testing server info";
             Log INFO "Server info received:";
             Log INFO "  Message: Chatterbox TTS WebSocket Server";
             Log INFO "  Supported languages: <list>";
             Log INFO "  Default language: es";
             Log INFO "  Device: cuda" ] sample_client_env)).
Proof.
  split; [reflexivity|].
  exact (server_info_test_logs_greeting sample_languages sample_wire_loads
           sample_repr true false "{type: server_info}" [] sample_conn
           sample_client_env eq_refl).
Defined.

(** Starting the sample installation when the model files are missing. *)
Lemma server_start_witness :
  let s := Server unit None false [] in
  let load :=
    fun _ : string => @Raise unit (Exn OSError "model files not found") in
  listening unit s = false
  /\ match
       start_server sample_languages sample_repr true false unit load
         "localhost" 8000 (Ok tt) s
     with
     | (Ok _, s') => listening unit s' = true /\ is_Some (self_model unit s')
     | (Raise ex, s') =>
         listening unit s' = false
         /\ (Ok tt = Raise ex
             \/ (self_model unit s = None
                 /\ load (self_device true false) = Raise ex))
     end.
Proof.
  intros s load. split; [reflexivity|].
  exact (server_listens_only_with_model sample_languages sample_repr true
           false unit load "localhost" 8000 (Ok tt) s eq_refl).
Defined.
